(** * ClawLobstars planning and execution core

    A shallow embedding of [src/planning/cls_planning.c] and
    [src/action/cls_action.c] (with the types of [cls_planning.h],
    [cls_action.h] and [cls_framework.h]) and the properties of the goal
    table, the plan generator, the task scheduler, the completion tracker,
    the replanner, the plan evaluation and the action executor.

    Conventions of the embedding:
    - [uint32_t] and [uint64_t] values are [Z] with the wrap-around written
      out ([u32], [u64]); C enums are inductive types;
    - [float] is IEEE-754 binary32, computed with the Standard Library's
      [SpecFloat] operations at precision 24 and maximal exponent 128;
    - an array of which the code uses the first [count] slots is the list of
      those slots (tasks of a plan, plans of a planner, handlers of an
      executor); the execution history, whose write index is computed with a
      modulo, is the whole array next to its [history_count];
    - a pointer into such an array is the index of the slot; an out-parameter
      is a returned value ([None] when the code does not write it);
    - integer fields hold values in the range of their C type;
    - NULL-pointer arguments, which every entry point rejects with
      [CLS_ERR_INVALID] before doing anything, have no counterpart: values
      are passed instead, and [calloc] is taken to succeed;
    - the planner reads the clock at most once per call: that reading is the
      argument [now]; the executor reads it around a handler call, so its
      functions run in a state monad over an abstract world [W]. *)

From Stdlib Require Import ZArith List Bool Lia.
From Stdlib Require Import Floats.SpecFloat.
From stdpp Require Import base list.

Open Scope Z_scope.

(** ** Machine integers *)

Definition u32 (x : Z) : Z := x mod 2 ^ 32.
Definition u64 (x : Z) : Z := x mod 2 ^ 64.

(** ** binary32 *)

Module Float32.
Definition prec : Z := 24.
Definition emax : Z := 128.

Definition float : Type := spec_float.

Definition add : float -> float -> float := SFadd prec emax.
Definition sub : float -> float -> float := SFsub prec emax.
Definition mul : float -> float -> float := SFmul prec emax.
Definition div : float -> float -> float := SFdiv prec emax.
Definition ltb : float -> float -> bool := SFltb.
Definition leb : float -> float -> bool := SFleb.

(** Conversion of an integer, round to nearest even: [(float)n]. *)
Definition of_Z (n : Z) : float := binary_normalize prec emax n 0 false.

(** What [memset(.., 0, ..)] and [calloc] leave in a [float]. *)
Definition zero : float := S754_zero false.

(** The literal [n/d f] for exactly representable [n] and [d]: the
    correctly rounded quotient is the binary32 nearest to the decimal. *)
Definition lit (n d : Z) : float := div (of_Z n) (of_Z d).

Definition one : float := of_Z 1.            (* 1.0f *)
Definition c0_1 : float := lit 1 10.         (* 0.1f *)
Definition c0_8 : float := lit 8 10.         (* 0.8f *)

Definition is_nan (x : float) : bool :=
  match x with S754_nan => true | _ => false end.

(** Left-to-right accumulation [acc += x] from a zeroed accumulator. *)
Definition sum (l : list float) : float := fold_left add l zero.
End Float32.

(** ** Enumerations of cls_framework.h, cls_planning.h, cls_action.h *)

Inductive cls_status_t : Type :=
| CLS_OK
| CLS_ERR_NOMEM
| CLS_ERR_INVALID
| CLS_ERR_TIMEOUT
| CLS_ERR_OVERFLOW
| CLS_ERR_NOT_FOUND
| CLS_ERR_BUSY
| CLS_ERR_SECURITY
| CLS_ERR_IO
| CLS_ERR_STATE
| CLS_ERR_INTERNAL.

Definition status_code (s : cls_status_t) : Z :=
  match s with
  | CLS_OK => 0
  | CLS_ERR_NOMEM => -1
  | CLS_ERR_INVALID => -2
  | CLS_ERR_TIMEOUT => -3
  | CLS_ERR_OVERFLOW => -4
  | CLS_ERR_NOT_FOUND => -5
  | CLS_ERR_BUSY => -6
  | CLS_ERR_SECURITY => -7
  | CLS_ERR_IO => -8
  | CLS_ERR_STATE => -9
  | CLS_ERR_INTERNAL => -99
  end.

Inductive cls_plan_status_t : Type :=
| CLS_PLAN_PENDING
| CLS_PLAN_ACTIVE
| CLS_PLAN_COMPLETE
| CLS_PLAN_FAILED
| CLS_PLAN_CANCELLED.

Definition plan_status_eqb (a b : cls_plan_status_t) : bool :=
  match a, b with
  | CLS_PLAN_PENDING, CLS_PLAN_PENDING
  | CLS_PLAN_ACTIVE, CLS_PLAN_ACTIVE
  | CLS_PLAN_COMPLETE, CLS_PLAN_COMPLETE
  | CLS_PLAN_FAILED, CLS_PLAN_FAILED
  | CLS_PLAN_CANCELLED, CLS_PLAN_CANCELLED => true
  | _, _ => false
  end.

Inductive cls_priority_t : Type :=
| CLS_PRIORITY_LOW
| CLS_PRIORITY_NORMAL
| CLS_PRIORITY_HIGH
| CLS_PRIORITY_CRITICAL.

(** The enumerator values, and the cast [(cls_priority_t)x] on the range the
    generator produces. *)
Definition priority_to_Z (p : cls_priority_t) : Z :=
  match p with
  | CLS_PRIORITY_LOW => 0
  | CLS_PRIORITY_NORMAL => 1
  | CLS_PRIORITY_HIGH => 2
  | CLS_PRIORITY_CRITICAL => 3
  end.

Definition priority_of_Z (x : Z) : cls_priority_t :=
  if x =? 0 then CLS_PRIORITY_LOW
  else if x =? 1 then CLS_PRIORITY_NORMAL
  else if x =? 2 then CLS_PRIORITY_HIGH
  else CLS_PRIORITY_CRITICAL.

Inductive cls_action_status_t : Type :=
| CLS_ACTION_IDLE
| CLS_ACTION_RUNNING
| CLS_ACTION_SUCCESS
| CLS_ACTION_FAILED
| CLS_ACTION_ROLLEDBACK
| CLS_ACTION_TIMEOUT.

(** ** Utility macros of cls_framework.h *)

Definition CLS_MIN (a b : Z) : Z := if a <? b then a else b.
Definition CLS_MAX (a b : Z) : Z := if a >? b then a else b.
Definition CLS_CLAMP (x lo hi : Z) : Z := CLS_MIN (CLS_MAX x lo) hi.

Definition CLS_IS_OK (s : cls_status_t) : bool :=
  match s with CLS_OK => true | _ => false end.

(** ** Data of the planner *)

Record cls_decision_t : Type := mk_decision {
  dec_action_id : Z;
  dec_confidence : Float32.float;
  dec_priority : Z;
  dec_params_len : Z;
  dec_params : Z
}.

Record cls_task_t : Type := mk_task {
  task_id : Z;
  task_action_id : Z;
  task_priority : cls_priority_t;
  task_status : cls_plan_status_t;
  cost_estimate : Float32.float;
  reward_estimate : Float32.float;
  depends_on : list Z;
  dep_count : Z;
  task_params : Z;
  task_params_len : Z;
  deadline_us : Z;
  started_at : Z;
  completed_at : Z
}.

Record cls_plan_t : Type := mk_plan {
  plan_id : Z;
  plan_status : cls_plan_status_t;
  plan_tasks : list cls_task_t;
  max_tasks : Z;
  total_cost : Float32.float;
  total_reward : Float32.float;
  success_probability : Float32.float;
  created_at : Z
}.

Definition task_count (plan : cls_plan_t) : Z :=
  Z.of_nat (length (plan_tasks plan)).

(** The goal table of [struct cls_planner] is kept apart, in
    [cls_goal_table_t] below: no plan function reads or writes it. *)
Record cls_planner_t : Type := mk_planner {
  plans : list cls_plan_t;
  max_plans : Z;
  plans_generated : Z
}.

Definition plan_count (planner : cls_planner_t) : Z :=
  Z.of_nat (length (plans planner)).

(** Field assignments. *)

Definition set_task_status (s : cls_plan_status_t) (t : cls_task_t) : cls_task_t :=
  mk_task (task_id t) (task_action_id t) (task_priority t) s
          (cost_estimate t) (reward_estimate t) (depends_on t) (dep_count t)
          (task_params t) (task_params_len t) (deadline_us t)
          (started_at t) (completed_at t).

Definition set_started_at (x : Z) (t : cls_task_t) : cls_task_t :=
  mk_task (task_id t) (task_action_id t) (task_priority t) (task_status t)
          (cost_estimate t) (reward_estimate t) (depends_on t) (dep_count t)
          (task_params t) (task_params_len t) (deadline_us t)
          x (completed_at t).

Definition set_completed_at (x : Z) (t : cls_task_t) : cls_task_t :=
  mk_task (task_id t) (task_action_id t) (task_priority t) (task_status t)
          (cost_estimate t) (reward_estimate t) (depends_on t) (dep_count t)
          (task_params t) (task_params_len t) (deadline_us t)
          (started_at t) x.

Definition set_plan_status (s : cls_plan_status_t) (p : cls_plan_t) : cls_plan_t :=
  mk_plan (plan_id p) s (plan_tasks p) (max_tasks p)
          (total_cost p) (total_reward p) (success_probability p) (created_at p).

Definition set_plan_tasks (ts : list cls_task_t) (p : cls_plan_t) : cls_plan_t :=
  mk_plan (plan_id p) (plan_status p) ts (max_tasks p)
          (total_cost p) (total_reward p) (success_probability p) (created_at p).

Definition set_success_probability (x : Float32.float) (p : cls_plan_t) : cls_plan_t :=
  mk_plan (plan_id p) (plan_status p) (plan_tasks p) (max_tasks p)
          (total_cost p) (total_reward p) x (created_at p).

Definition set_plans (ps : list cls_plan_t) (planner : cls_planner_t) : cls_planner_t :=
  mk_planner ps (max_plans planner) (plans_generated planner).

(** ** cls_planner_generate *)

(** The task written into the zeroed slot [plan->tasks[plan->task_count]]. *)
Definition task_of_decision (tid : Z) (d : cls_decision_t) : cls_task_t :=
  {| task_id := tid;
     task_action_id := dec_action_id d;
     task_priority := priority_of_Z (CLS_CLAMP (dec_priority d / 25) 0 3);
     task_status := CLS_PLAN_PENDING;
     cost_estimate := Float32.sub Float32.one (dec_confidence d);
     reward_estimate := dec_confidence d;
     depends_on := repeat 0 8;
     dep_count := 0;
     task_params := dec_params d;
     task_params_len := dec_params_len d;
     deadline_us := 0;
     started_at := 0;
     completed_at := 0 |}.

(** One iteration of the conversion loop. *)
Definition generate_step (plan : cls_plan_t) (d : cls_decision_t) : cls_plan_t :=
  if Float32.ltb (dec_confidence d) Float32.c0_1 then plan
  else
    let task := task_of_decision (u32 (task_count plan + 1)) d in
    {| plan_id := plan_id plan;
       plan_status := plan_status plan;
       plan_tasks := plan_tasks plan ++ [task];
       max_tasks := max_tasks plan;
       total_cost := Float32.add (total_cost plan) (cost_estimate task);
       total_reward := Float32.add (total_reward plan) (reward_estimate task);
       success_probability := success_probability plan;
       created_at := created_at plan |}.

Fixpoint generate_loop (decisions : list cls_decision_t) (plan : cls_plan_t)
  : cls_plan_t :=
  match decisions with
  | [] => plan
  | d :: rest => generate_loop rest (generate_step plan d)
  end.

Definition cls_planner_generate (planner : cls_planner_t)
    (decisions : list cls_decision_t) (now : Z)
  : cls_status_t * cls_planner_t * option nat :=
  let decision_count := Z.of_nat (length decisions) in
  if decision_count =? 0 then (CLS_ERR_INVALID, planner, None)
  else if plan_count planner >=? max_plans planner
  then (CLS_ERR_OVERFLOW, planner, None)
  else
    let plan0 :=
      {| plan_id := u32 (u32 (plans_generated planner) + 1);
         plan_status := CLS_PLAN_PENDING;
         plan_tasks := [];
         max_tasks := u32 (decision_count * 2);
         total_cost := Float32.zero;
         total_reward := Float32.zero;
         success_probability := Float32.zero;
         created_at := now |} in
    let plan1 := generate_loop decisions plan0 in
    let plan2 :=
      if task_count plan1 >? 0
      then set_success_probability
             (Float32.div (total_reward plan1) (Float32.of_Z (task_count plan1)))
             plan1
      else plan1 in
    let plan3 := set_plan_status CLS_PLAN_ACTIVE plan2 in
    (CLS_OK,
     {| plans := plans planner ++ [plan3];
        max_plans := max_plans planner;
        plans_generated := u64 (plans_generated planner + 1) |},
     Some (length (plans planner))).

(** ** cls_plan_add_task *)

Definition cls_plan_add_task (plan : cls_plan_t) (task : cls_task_t)
  : cls_status_t * cls_plan_t :=
  if task_count plan >=? max_tasks plan then (CLS_ERR_OVERFLOW, plan)
  else
    (CLS_OK,
     {| plan_id := plan_id plan;
        plan_status := plan_status plan;
        plan_tasks := plan_tasks plan ++ [task];
        max_tasks := max_tasks plan;
        total_cost := Float32.add (total_cost plan) (cost_estimate task);
        total_reward := Float32.add (total_reward plan) (reward_estimate task);
        success_probability := success_probability plan;
        created_at := created_at plan |}).

(** ** cls_plan_next_task *)

(** The [j] loop: some task carries the id [dep] and is complete. *)
Definition found_complete (tasks : list cls_task_t) (dep : Z) : bool :=
  existsb (fun tj => (task_id tj =? dep)
                     && plan_status_eqb (task_status tj) CLS_PLAN_COMPLETE)
          tasks.

(** The entries [depends_on[0 .. dep_count-1]] the [d] loop visits. *)
Definition task_deps (t : cls_task_t) : list Z :=
  take (Z.to_nat (dep_count t)) (depends_on t).

Definition deps_met (tasks : list cls_task_t) (t : cls_task_t) : bool :=
  forallb (found_complete tasks) (task_deps t).

(** One iteration of the [i] loop; [best] is the pointer kept so far, as the
    index of the task and the task it points to. *)
Definition next_task_step (tasks : list cls_task_t) (i : nat) (t : cls_task_t)
    (best : option (nat * cls_task_t)) : option (nat * cls_task_t) :=
  if negb (plan_status_eqb (task_status t) CLS_PLAN_PENDING) then best
  else if negb (deps_met tasks t) then best
  else
    match best with
    | None => Some (i, t)
    | Some (_, b) =>
        if priority_to_Z (task_priority t) >? priority_to_Z (task_priority b)
        then Some (i, t)
        else best
    end.

Fixpoint next_task_loop (tasks rest : list cls_task_t) (i : nat)
    (best : option (nat * cls_task_t)) : option (nat * cls_task_t) :=
  match rest with
  | [] => best
  | t :: rest' =>
      next_task_loop tasks rest' (S i) (next_task_step tasks i t best)
  end.

Definition cls_plan_next_task (plan : cls_plan_t) : cls_status_t * option nat :=
  match next_task_loop (plan_tasks plan) (plan_tasks plan) 0%nat None with
  | None => (CLS_ERR_NOT_FOUND, None)
  | Some (i, _) => (CLS_OK, Some i)
  end.

(** ** cls_plan_complete_task *)

(** Index of the first task whose id is [tid], scanning from slot [i]. *)
Fixpoint find_task (tasks : list cls_task_t) (tid : Z) (i : nat) : option nat :=
  match tasks with
  | [] => None
  | t :: rest => if task_id t =? tid then Some i else find_task rest tid (S i)
  end.

(** The re-scan: the flags [(all_done, any_failed)] after one more task. *)
Definition scan_step (flags : bool * bool) (t : cls_task_t) : bool * bool :=
  let '(all_done, any_failed) := flags in
  (if plan_status_eqb (task_status t) CLS_PLAN_PENDING
      || plan_status_eqb (task_status t) CLS_PLAN_ACTIVE
   then false else all_done,
   if plan_status_eqb (task_status t) CLS_PLAN_FAILED
   then true else any_failed).

Definition scan_tasks (tasks : list cls_task_t) : bool * bool :=
  fold_left scan_step tasks (true, false).

Definition finish_task (success : bool) (now : Z) (t : cls_task_t) : cls_task_t :=
  set_completed_at now
    (set_task_status (if success then CLS_PLAN_COMPLETE else CLS_PLAN_FAILED) t).

Definition cls_plan_complete_task (plan : cls_plan_t) (tid : Z) (success : bool)
    (now : Z) : cls_status_t * cls_plan_t :=
  match find_task (plan_tasks plan) tid 0%nat with
  | None => (CLS_ERR_NOT_FOUND, plan)
  | Some i =>
      let plan1 :=
        set_plan_tasks (alter (finish_task success now) i (plan_tasks plan)) plan in
      let '(all_done, any_failed) := scan_tasks (plan_tasks plan1) in
      (CLS_OK,
       if all_done
       then set_plan_status
              (if any_failed then CLS_PLAN_FAILED else CLS_PLAN_COMPLETE) plan1
       else plan1)
  end.

(** ** cls_planner_replan *)

Definition decision_of_task (t : cls_task_t) : cls_decision_t :=
  {| dec_action_id := task_action_id t;
     dec_confidence := Float32.mul (reward_estimate t) Float32.c0_8;
     dec_priority := priority_to_Z (task_priority t);
     dec_params_len := task_params_len t;
     dec_params := task_params t |}.

Definition pending_or_failed (t : cls_task_t) : bool :=
  plan_status_eqb (task_status t) CLS_PLAN_PENDING
  || plan_status_eqb (task_status t) CLS_PLAN_FAILED.

(** The collecting loop; [fallback] holds [fallback_decisions[0 .. remaining-1]]
    and the loop stops once [remaining] reaches the 64 slots of the buffer. *)
Fixpoint replan_collect (tasks : list cls_task_t) (fallback : list cls_decision_t)
  : list cls_decision_t :=
  match tasks with
  | [] => fallback
  | t :: rest =>
      if Z.of_nat (length fallback) <? 64
      then
        if pending_or_failed t
        then replan_collect rest (fallback ++ [decision_of_task t])
        else replan_collect rest fallback
      else fallback
  end.

(** [failed_plan] points into the plan table of [planner]. *)
Definition cls_planner_replan (planner : cls_planner_t) (failed_plan : nat)
    (now : Z) : cls_status_t * cls_planner_t * option nat :=
  match plans planner !! failed_plan with
  | None => (CLS_ERR_INVALID, planner, None)
  | Some fp =>
      let fallback := replan_collect (plan_tasks fp) [] in
      let remaining := Z.of_nat (length fallback) in
      if remaining =? 0 then (CLS_ERR_NOT_FOUND, planner, None)
      else
        let planner1 :=
          set_plans (<[failed_plan := set_plan_status CLS_PLAN_CANCELLED fp]>
                       (plans planner)) planner in
        cls_planner_generate planner1 fallback now
  end.

(** ** The executor's world

    A handler is a C function pointer: calling it may do anything to the
    world outside the executor, and reading the monotonic clock observes that
    world.  Both are computations in the state monad over an abstract world
    [W]. *)

Definition M (W A : Type) : Type := W -> A * W.

#[global] Instance M_ret {W} : MRet (M W) := fun A (a : A) w => (a, w).
#[global] Instance M_bind {W} : MBind (M W) :=
  fun A B (k : A -> M W B) (m : M W A) w => let (a, w') := m w in k a w'.

(** [cls_action_fn]: action id, params pointer, params length. *)
Definition cls_action_fn (W : Type) : Type := Z -> Z -> Z -> M W cls_status_t.

(** [register] rejects a handler whose [execute_fn] is NULL, so a handler in
    the table always has one; [rollback_fn] may be NULL.  The [name] string is
    never read. *)
Record cls_action_handler_t (W : Type) : Type := mk_handler {
  h_action_id : Z;
  execute_fn : cls_action_fn W;
  rollback_fn : option (cls_action_fn W);
  timeout_ms : Z;
  min_priority : cls_priority_t
}.
Arguments mk_handler {W}.
Arguments h_action_id {W}.
Arguments execute_fn {W}.
Arguments rollback_fn {W}.
Arguments timeout_ms {W}.
Arguments min_priority {W}.

Record cls_action_record_t : Type := mk_record {
  exec_id : Z;
  rec_action_id : Z;
  rec_status : cls_action_status_t;
  rec_started_at : Z;
  rec_completed_at : Z;
  duration_us : Z;
  result_code : Z;
  rolled_back : bool
}.

(** A [calloc]ed history slot. *)
Definition zero_record : cls_action_record_t :=
  mk_record 0 0 CLS_ACTION_IDLE 0 0 0 0 false.

Record cls_action_exec_t (W : Type) : Type := mk_exec {
  handlers : list (cls_action_handler_t W);
  max_handlers : Z;
  history : list cls_action_record_t;
  history_count : Z;
  max_history : Z;
  next_exec_id : Z;
  total_executed : Z;
  total_success : Z;
  total_failed : Z;
  total_rollbacks : Z
}.
Arguments mk_exec {W}.
Arguments handlers {W}.
Arguments max_handlers {W}.
Arguments history {W}.
Arguments history_count {W}.
Arguments max_history {W}.
Arguments next_exec_id {W}.
Arguments total_executed {W}.
Arguments total_success {W}.
Arguments total_failed {W}.
Arguments total_rollbacks {W}.

Section ActionExecutor.
Context {W : Type}.

(** [cls_action_time_us]: one reading of the monotonic clock. *)
Variable cls_action_time_us : M W Z.

Definition handler_count (exec : cls_action_exec_t W) : Z :=
  Z.of_nat (length (handlers exec)).

(** Field assignments. *)

Definition set_handlers (hs : list (cls_action_handler_t W))
    (e : cls_action_exec_t W) : cls_action_exec_t W :=
  mk_exec hs (max_handlers e) (history e) (history_count e) (max_history e)
          (next_exec_id e) (total_executed e) (total_success e)
          (total_failed e) (total_rollbacks e).

Definition set_history (h : list cls_action_record_t) (n : Z)
    (e : cls_action_exec_t W) : cls_action_exec_t W :=
  mk_exec (handlers e) (max_handlers e) h n (max_history e)
          (next_exec_id e) (total_executed e) (total_success e)
          (total_failed e) (total_rollbacks e).

Definition set_next_exec_id (x : Z) (e : cls_action_exec_t W)
  : cls_action_exec_t W :=
  mk_exec (handlers e) (max_handlers e) (history e) (history_count e)
          (max_history e) x (total_executed e) (total_success e)
          (total_failed e) (total_rollbacks e).

Definition set_totals (executed success failed rollbacks : Z)
    (e : cls_action_exec_t W) : cls_action_exec_t W :=
  mk_exec (handlers e) (max_handlers e) (history e) (history_count e)
          (max_history e) (next_exec_id e) executed success failed rollbacks.

(** *** cls_action_init *)

Definition cls_action_init (max_handlers max_history : Z)
  : cls_status_t * option (cls_action_exec_t W) :=
  if max_handlers =? 0 then (CLS_ERR_INVALID, None)
  else
    (CLS_OK,
     Some {| handlers := [];
             max_handlers := max_handlers;
             history := repeat zero_record (Z.to_nat max_history);
             history_count := 0;
             max_history := max_history;
             next_exec_id := 1;
             total_executed := 0;
             total_success := 0;
             total_failed := 0;
             total_rollbacks := 0 |}).

(** *** cls_action_register, cls_action_unregister *)

Definition cls_action_register (exec : cls_action_exec_t W)
    (handler : cls_action_handler_t W) : cls_status_t * cls_action_exec_t W :=
  if handler_count exec >=? max_handlers exec then (CLS_ERR_OVERFLOW, exec)
  else if existsb (fun h => h_action_id h =? h_action_id handler)
                  (handlers exec)
  then (CLS_ERR_INVALID, exec)
  else (CLS_OK, set_handlers (handlers exec ++ [handler]) exec).

(** Removal of the first handler with the id ([memmove] of the tail). *)
Fixpoint remove_handler (hs : list (cls_action_handler_t W)) (action_id : Z)
  : option (list (cls_action_handler_t W)) :=
  match hs with
  | [] => None
  | h :: rest =>
      if h_action_id h =? action_id then Some rest
      else option_map (cons h) (remove_handler rest action_id)
  end.

Definition cls_action_unregister (exec : cls_action_exec_t W) (action_id : Z)
  : cls_status_t * cls_action_exec_t W :=
  match remove_handler (handlers exec) action_id with
  | None => (CLS_ERR_NOT_FOUND, exec)
  | Some hs => (CLS_OK, set_handlers hs exec)
  end.

(** *** find_handler, record_action *)

Fixpoint find_handler_in (hs : list (cls_action_handler_t W)) (action_id : Z)
  : option (cls_action_handler_t W) :=
  match hs with
  | [] => None
  | h :: rest =>
      if h_action_id h =? action_id then Some h
      else find_handler_in rest action_id
  end.

Definition find_handler (exec : cls_action_exec_t W) (action_id : Z)
  : option (cls_action_handler_t W) :=
  find_handler_in (handlers exec) action_id.

(** [history_count % max_history] is undefined in C when [max_history] is
    0, which [cls_action_init] lets through; the statements below that
    involve a write to the history assume [0 < max_history]. *)
Definition record_action (exec : cls_action_exec_t W)
    (rec : cls_action_record_t) : cls_action_exec_t W :=
  let idx := history_count exec mod max_history exec in
  set_history (<[Z.to_nat idx := rec]> (history exec))
              (if history_count exec <? max_history exec
               then u32 (history_count exec + 1)
               else history_count exec)
              exec.

(** *** cls_action_execute *)

Definition cls_action_execute (exec : cls_action_exec_t W)
    (action_id params params_len : Z)
  : M W (cls_status_t * cls_action_exec_t W * option cls_action_record_t) :=
  match find_handler exec action_id with
  | None => mret (CLS_ERR_NOT_FOUND, exec, None)
  | Some handler =>
      let id := next_exec_id exec in
      let exec1 := set_next_exec_id (u32 (next_exec_id exec + 1)) exec in
      started ← cls_action_time_us;
      result ← execute_fn handler action_id params params_len;
      completed ← cls_action_time_us;
      let rec :=
        {| exec_id := id;
           rec_action_id := action_id;
           rec_status := if CLS_IS_OK result then CLS_ACTION_SUCCESS
                         else CLS_ACTION_FAILED;
           rec_started_at := started;
           rec_completed_at := completed;
           duration_us := u64 (completed - started);
           result_code := status_code result;
           rolled_back := false |} in
      let exec2 :=
        if CLS_IS_OK result
        then set_totals (total_executed exec1) (u64 (total_success exec1 + 1))
                        (total_failed exec1) (total_rollbacks exec1) exec1
        else set_totals (total_executed exec1) (total_success exec1)
                        (u64 (total_failed exec1 + 1)) (total_rollbacks exec1)
                        exec1 in
      let exec3 :=
        set_totals (u64 (total_executed exec2 + 1)) (total_success exec2)
                   (total_failed exec2) (total_rollbacks exec2) exec2 in
      mret (result, record_action exec3 rec, Some rec)
  end.

(** *** cls_action_execute_task *)

Definition execute_task_begin (started : Z) (task : cls_task_t) : cls_task_t :=
  set_task_status CLS_PLAN_ACTIVE (set_started_at started task).

Definition execute_task_end (completed : Z) (status : cls_status_t)
    (task : cls_task_t) : cls_task_t :=
  set_task_status (if CLS_IS_OK status then CLS_PLAN_COMPLETE
                   else CLS_PLAN_FAILED)
                  (set_completed_at completed task).

Definition cls_action_execute_task (exec : cls_action_exec_t W)
    (task : cls_task_t)
  : M W (cls_status_t * cls_action_exec_t W * cls_task_t
         * option cls_action_record_t) :=
  started ← cls_action_time_us;
  let task1 := execute_task_begin started task in
  '(status, exec', record) ←
    cls_action_execute exec (task_action_id task1) (task_params task1)
                       (task_params_len task1);
  completed ← cls_action_time_us;
  mret (status, exec', execute_task_end completed status task1, record).

(** *** cls_action_rollback, cls_action_get_record *)

(** The slots [history[0 .. min(history_count, max_history) - 1]] the
    search loops visit. *)
Definition visible_history (exec : cls_action_exec_t W)
  : list cls_action_record_t :=
  take (Z.to_nat (Z.min (history_count exec) (max_history exec)))
       (history exec).

(** Index and content of the first record with the id, from slot [i]. *)
Fixpoint find_record (rs : list cls_action_record_t) (id : Z) (i : nat)
  : option (nat * cls_action_record_t) :=
  match rs with
  | [] => None
  | r :: rest => if exec_id r =? id then Some (i, r)
                 else find_record rest id (S i)
  end.

Definition mark_rolled_back (r : cls_action_record_t) : cls_action_record_t :=
  mk_record (exec_id r) (rec_action_id r) CLS_ACTION_ROLLEDBACK
            (rec_started_at r) (rec_completed_at r) (duration_us r)
            (result_code r) true.

Definition cls_action_rollback (exec : cls_action_exec_t W) (id : Z)
  : M W (cls_status_t * cls_action_exec_t W) :=
  match find_record (visible_history exec) id 0%nat with
  | None => mret (CLS_ERR_NOT_FOUND, exec)
  | Some (i, rec) =>
      if rolled_back rec then mret (CLS_ERR_STATE, exec)
      else
        match find_handler exec (rec_action_id rec) with
        | None => mret (CLS_ERR_INVALID, exec)
        | Some handler =>
            match rollback_fn handler with
            | None => mret (CLS_ERR_INVALID, exec)
            | Some rollback =>
                result ← rollback (rec_action_id rec) 0 0;
                if CLS_IS_OK result
                then
                  let exec1 :=
                    set_history (<[i := mark_rolled_back rec]> (history exec))
                                (history_count exec) exec in
                  mret (result,
                        set_totals (total_executed exec1) (total_success exec1)
                                   (total_failed exec1)
                                   (u64 (total_rollbacks exec1 + 1)) exec1)
                else mret (result, exec)
            end
        end
  end.

Definition cls_action_get_record (exec : cls_action_exec_t W) (id : Z)
  : cls_status_t * option cls_action_record_t :=
  match find_record (visible_history exec) id 0%nat with
  | None => (CLS_ERR_NOT_FOUND, None)
  | Some (_, rec) => (CLS_OK, Some rec)
  end.

(** *** cls_action_history_count, cls_action_stats *)

Definition cls_action_history_count (exec : cls_action_exec_t W) : Z :=
  history_count exec.

(** The four out-parameters [(executed, success, failed, rollbacks)]. *)
Definition cls_action_stats (exec : cls_action_exec_t W) : Z * Z * Z * Z :=
  (total_executed exec, total_success exec, total_failed exec,
   total_rollbacks exec).

End ActionExecutor.

(** ** Vocabulary of the statements *)

(** The decisions the conversion loop does not skip. *)
Definition accepted (d : cls_decision_t) : bool :=
  negb (Float32.ltb (dec_confidence d) Float32.c0_1).

(** "confidence >= 0.1", which no NaN satisfies, and a confidence that is a
    number. *)
Definition confident (d : cls_decision_t) : bool :=
  Float32.leb Float32.c0_1 (dec_confidence d).

Definition is_number (d : cls_decision_t) : Prop :=
  Float32.is_nan (dec_confidence d) = false.

(** The tasks the loop appends to a plan that already holds [base] tasks. *)
Fixpoint new_tasks (base : Z) (ds : list cls_decision_t) : list cls_task_t :=
  match ds with
  | [] => []
  | d :: rest =>
      if accepted d
      then task_of_decision (u32 (base + 1)) d :: new_tasks (base + 1) rest
      else new_tasks base rest
  end.

(** [clamp x lo hi], and the two readings of "priority / 25": the nearest
    integer (what the specification says; 25 is odd, so there is no tie) and
    the quotient of the unsigned division. *)
Definition clamp (x lo hi : Z) : Z := Z.min (Z.max x lo) hi.
Definition round_div (p q : Z) : Z := (2 * p + q) / (2 * q).
Definition spec_priority_rounded (p : Z) : Z := clamp (round_div p 25) 0 3.
Definition priority_truncated (p : Z) : Z := clamp (p / 25) 0 3.

(** A planner with room for [n] plans and none generated yet, as
    [cls_planner_init] leaves it. *)
Definition empty_planner (n : Z) : cls_planner_t :=
  {| plans := []; max_plans := n; plans_generated := 0 |}.

(** A dependency id is satisfied when it names a task of the plan whose
    status is Complete; a candidate is a Pending task all of whose
    dependencies are satisfied. *)
Definition dep_satisfied (plan : cls_plan_t) (dep : Z) : Prop :=
  exists tj, In tj (plan_tasks plan)
             /\ task_id tj = dep /\ task_status tj = CLS_PLAN_COMPLETE.

Definition candidate (plan : cls_plan_t) (t : cls_task_t) : Prop :=
  task_status t = CLS_PLAN_PENDING
  /\ forall dep, In dep (task_deps t) -> dep_satisfied plan dep.

(** The two tests of the scheduler's loop body, and the numeric priority. *)
Definition eligible (tasks : list cls_task_t) (t : cls_task_t) : bool :=
  plan_status_eqb (task_status t) CLS_PLAN_PENDING && deps_met tasks t.

Definition prio (t : cls_task_t) : Z := priority_to_Z (task_priority t).

(** Loop invariant of the scheduler after the first [n] tasks: [best] is the
    first eligible task of highest priority among them, if there is one. *)
Definition best_upto (tasks : list cls_task_t) (n : nat)
    (best : option (nat * cls_task_t)) : Prop :=
  match best with
  | None =>
      forall j tj, (j < n)%nat -> tasks !! j = Some tj -> eligible tasks tj = false
  | Some (b, tb) =>
      tasks !! b = Some tb /\ (b < n)%nat /\ eligible tasks tb = true
      /\ forall j tj, (j < n)%nat -> tasks !! j = Some tj ->
                      eligible tasks tj = true ->
                      prio tj <= prio tb /\ (prio tj = prio tb -> (b <= j)%nat)
  end.

(** A task is terminal when it is neither Pending nor Active. *)
Definition terminal (t : cls_task_t) : Prop :=
  task_status t <> CLS_PLAN_PENDING /\ task_status t <> CLS_PLAN_ACTIVE.

Definition failed (t : cls_task_t) : Prop := task_status t = CLS_PLAN_FAILED.

(** [t], at index [i], is the first task of the array whose id is [tid]. *)
Definition first_with_id (tasks : list cls_task_t) (tid : Z) (i : nat)
    (t : cls_task_t) : Prop :=
  tasks !! i = Some t /\ task_id t = tid
  /\ forall j tj, (j < i)%nat -> tasks !! j = Some tj -> task_id tj <> tid.

(** The plan status after the re-scan of [cls_plan_complete_task]. *)
Definition aggregated (before after : cls_plan_t) : Prop :=
  (Forall terminal (plan_tasks after) -> ~ Exists failed (plan_tasks after) ->
   plan_status after = CLS_PLAN_COMPLETE)
  /\ (Forall terminal (plan_tasks after) -> Exists failed (plan_tasks after) ->
      plan_status after = CLS_PLAN_FAILED)
  /\ (~ Forall terminal (plan_tasks after) ->
      plan_status after = plan_status before).

(** What one accepted call of [cls_plan_complete_task] on the task at index
    [i] does to the plan. *)
Definition completes (plan : cls_plan_t) (i : nat) (success : bool) (now : Z)
    (plan' : cls_plan_t) : Prop :=
  (exists t',
     plan_tasks plan' !! i = Some t'
     /\ task_status t' = (if success then CLS_PLAN_COMPLETE else CLS_PLAN_FAILED)
     /\ completed_at t' = now)
  /\ (forall j, j <> i -> plan_tasks plan' !! j = plan_tasks plan !! j)
  /\ aggregated plan plan'.

(** The two tests of the re-scan. *)
Definition terminalb (t : cls_task_t) : bool :=
  negb (plan_status_eqb (task_status t) CLS_PLAN_PENDING
        || plan_status_eqb (task_status t) CLS_PLAN_ACTIVE).

Definition failedb (t : cls_task_t) : bool :=
  plan_status_eqb (task_status t) CLS_PLAN_FAILED.

(** The tasks the replanner harvests, and the batch the specification
    describes: one decision per such task. *)
Definition unresolved (t : cls_task_t) : Prop :=
  task_status t = CLS_PLAN_PENDING \/ task_status t = CLS_PLAN_FAILED.

Definition spec_replan_batch (tasks : list cls_task_t) : list cls_decision_t :=
  map decision_of_task (List.filter pending_or_failed tasks).

(** [p'] is [p] but for its status. *)
Definition only_status_differs (p p' : cls_plan_t) : Prop :=
  plan_id p' = plan_id p
  /\ plan_tasks p' = plan_tasks p
  /\ max_tasks p' = max_tasks p
  /\ total_cost p' = total_cost p
  /\ total_reward p' = total_reward p
  /\ success_probability p' = success_probability p
  /\ created_at p' = created_at p.

(** The planner once [failed_plan->status = CLS_PLAN_CANCELLED] is done. *)
Definition cancel_plan (i : nat) (fp : cls_plan_t) (planner : cls_planner_t)
  : cls_planner_t :=
  set_plans (<[i := set_plan_status CLS_PLAN_CANCELLED fp]> (plans planner))
            planner.

(** Sample data: a task of reward 0.5, a plan holding given tasks, and a
    planner holding one plan in a table of [room] slots. *)
Definition demo_task (status : cls_plan_status_t) (k : nat) : cls_task_t :=
  {| task_id := Z.of_nat k + 1;
     task_action_id := 10;
     task_priority := CLS_PRIORITY_NORMAL;
     task_status := status;
     cost_estimate := Float32.lit 1 2;
     reward_estimate := Float32.lit 1 2;
     depends_on := repeat 0 8;
     dep_count := 0;
     task_params := 0;
     task_params_len := 0;
     deadline_us := 0;
     started_at := 0;
     completed_at := 0 |}.

Definition plan_of_tasks (status : cls_plan_status_t) (tasks : list cls_task_t)
  : cls_plan_t :=
  {| plan_id := 1;
     plan_status := status;
     plan_tasks := tasks;
     max_tasks := 2 * Z.of_nat (length tasks);
     total_cost := Float32.sum (map cost_estimate tasks);
     total_reward := Float32.sum (map reward_estimate tasks);
     success_probability := Float32.lit 1 2;
     created_at := 0 |}.

Definition planner_with (p : cls_plan_t) (room : Z) : cls_planner_t :=
  {| plans := [p]; max_plans := room; plans_generated := 1 |}.

(** [r], at index [i], is the first record of [rs] whose [exec_id] is [id]. *)
Definition first_record (rs : list cls_action_record_t) (id : Z) (i : nat)
    (r : cls_action_record_t) : Prop :=
  rs !! i = Some r /\ exec_id r = id
  /\ forall j rj, (j < i)%nat -> rs !! j = Some rj -> exec_id rj <> id.

(** The history array has its [max_history] slots, and at least one. *)
Definition history_array {W} (exec : cls_action_exec_t W) : Prop :=
  0 < max_history exec
  /\ length (history exec) = Z.to_nat (max_history exec).

(** Sample data for the executor: a world that is just the clock, which
    advances by one microsecond per reading; a handler for action 1 that
    always succeeds and can be rolled back; a handler for action 2 that always
    fails and cannot; the executor [cls_action_init] and two
    [cls_action_register] calls leave, with [cap] history slots. *)
Definition tick : M Z Z := fun w => (w, w + 1).

Definition always_ok : cls_action_fn Z := fun _ _ _ w => (CLS_OK, w).
Definition always_fail : cls_action_fn Z := fun _ _ _ w => (CLS_ERR_INTERNAL, w).

Definition handler_ok : cls_action_handler_t Z :=
  mk_handler 1 always_ok (Some always_ok) 0 CLS_PRIORITY_LOW.
Definition handler_fail : cls_action_handler_t Z :=
  mk_handler 2 always_fail None 0 CLS_PRIORITY_LOW.

Definition demo_exec (cap : Z) : cls_action_exec_t Z :=
  {| handlers := [handler_ok; handler_fail];
     max_handlers := 8;
     history := repeat zero_record (Z.to_nat cap);
     history_count := 0;
     max_history := cap;
     next_exec_id := 1;
     total_executed := 0;
     total_success := 0;
     total_failed := 0;
     total_rollbacks := 0 |}.

(** [n] executions of action 1 in a row. *)
Fixpoint execute_n (n : nat) (exec : cls_action_exec_t Z) (w : Z)
  : cls_action_exec_t Z * Z :=
  match n with
  | O => (exec, w)
  | S n' =>
      let '((_, exec', _), w') := cls_action_execute tick exec 1 0 0 w in
      execute_n n' exec' w'
  end.

(** Sample tasks with dependencies, for the scheduler. *)
Definition dep_task (id : Z) (p : cls_priority_t) (status : cls_plan_status_t)
    (deps : list Z) : cls_task_t :=
  {| task_id := id;
     task_action_id := 10;
     task_priority := p;
     task_status := status;
     cost_estimate := Float32.lit 1 2;
     reward_estimate := Float32.lit 1 2;
     depends_on := deps ++ repeat 0 (8 - length deps);
     dep_count := Z.of_nat (length deps);
     task_params := 0;
     task_params_len := 0;
     deadline_us := 0;
     started_at := 0;
     completed_at := 0 |}.

Definition scheduler_plan : cls_plan_t :=
  plan_of_tasks CLS_PLAN_ACTIVE
    [dep_task 1 CLS_PRIORITY_NORMAL CLS_PLAN_PENDING [];
     dep_task 2 CLS_PRIORITY_CRITICAL CLS_PLAN_PENDING [9];
     dep_task 3 CLS_PRIORITY_HIGH CLS_PLAN_PENDING [5];
     dep_task 4 CLS_PRIORITY_HIGH CLS_PLAN_PENDING [];
     dep_task 5 CLS_PRIORITY_LOW CLS_PLAN_COMPLETE []].

(** ** The rest of cls_planning.c

    [struct cls_planner] also holds the goal table.  The goal functions read
    and write only its fields [goals], [goal_count] and [max_goals], and the
    plan functions above never touch them, so the table is a record of its
    own: the first [goal_count] slots of [goals], and [max_goals]. *)

Record cls_goal_t : Type := mk_goal {
  goal_id : Z;
  description : Z;
  goal_priority : cls_priority_t;
  progress : Float32.float;
  utility : Float32.float;
  achieved : bool
}.

Record cls_goal_table_t : Type := mk_goal_table {
  goals : list cls_goal_t;
  max_goals : Z
}.

Definition goal_count (gt : cls_goal_table_t) : Z :=
  Z.of_nat (length (goals gt)).

(** [cls_planner_init]: the planner and its goal table, both empty. *)
Definition cls_planner_init (max_plans max_goals : Z)
  : cls_status_t * option (cls_planner_t * cls_goal_table_t) :=
  if (max_plans =? 0) || (max_goals =? 0) then (CLS_ERR_INVALID, None)
  else
    (CLS_OK,
     Some ({| plans := []; max_plans := max_plans; plans_generated := 0 |},
           {| goals := []; max_goals := max_goals |})).

Definition cls_planner_add_goal (gt : cls_goal_table_t) (goal : cls_goal_t)
  : cls_status_t * cls_goal_table_t :=
  if goal_count gt >=? max_goals gt then (CLS_ERR_OVERFLOW, gt)
  else (CLS_OK, mk_goal_table (goals gt ++ [goal]) (max_goals gt)).

(** The scan of [cls_planner_get_goal] and [cls_planner_remove_goal]: index
    of the first goal with the id, from slot [i]. *)
Fixpoint find_goal (gs : list cls_goal_t) (id : Z) (i : nat) : option nat :=
  match gs with
  | [] => None
  | g :: rest => if goal_id g =? id then Some i else find_goal rest id (S i)
  end.

(** The pointer returned is the index of the goal; NULL is [None]. *)
Definition cls_planner_get_goal (gt : cls_goal_table_t) (id : Z) : option nat :=
  find_goal (goals gt) id 0%nat.

(** [memmove] of the goals after slot [i] one slot down. *)
Definition cls_planner_remove_goal (gt : cls_goal_table_t) (id : Z)
  : cls_status_t * cls_goal_table_t :=
  match find_goal (goals gt) id 0%nat with
  | None => (CLS_ERR_NOT_FOUND, gt)
  | Some i => (CLS_OK, mk_goal_table (delete i (goals gt)) (max_goals gt))
  end.

Definition set_progress (p : Float32.float) (g : cls_goal_t) : cls_goal_t :=
  mk_goal (goal_id g) (description g) (goal_priority g) p (utility g)
          (if Float32.leb Float32.one p then true else achieved g).

Definition cls_planner_update_goal (gt : cls_goal_table_t) (id : Z)
    (p : Float32.float) : cls_status_t * cls_goal_table_t :=
  match cls_planner_get_goal gt id with
  | None => (CLS_ERR_NOT_FOUND, gt)
  | Some i =>
      (CLS_OK, mk_goal_table (alter (set_progress p) i (goals gt)) (max_goals gt))
  end.

(** [cls_planner_evaluate]; the planner argument is unused. *)
Record cls_strategy_eval_t : Type := mk_eval {
  expected_utility : Float32.float;
  risk_score : Float32.float;
  resource_cost : Float32.float;
  time_estimate_us : Float32.float;
  feasible : bool
}.

Definition c0_3 : Float32.float := Float32.lit 3 10.        (* 0.3f *)
Definition c10000 : Float32.float := Float32.of_Z 10000.    (* 10000.0f *)

Definition cls_planner_evaluate (plan : cls_plan_t)
  : cls_status_t * cls_strategy_eval_t :=
  (CLS_OK,
   {| expected_utility := Float32.sub (total_reward plan) (total_cost plan);
      risk_score := Float32.sub Float32.one (success_probability plan);
      resource_cost := total_cost plan;
      time_estimate_us := Float32.mul (Float32.of_Z (task_count plan)) c10000;
      feasible := (task_count plan >? 0)
                  && Float32.ltb c0_3 (success_probability plan) |}).

(** ** Vocabulary of the further statements *)

(** [g], at index [i], is the first goal of [gs] whose id is [id]. *)
Definition first_goal (gs : list cls_goal_t) (id : Z) (i : nat)
    (g : cls_goal_t) : Prop :=
  gs !! i = Some g /\ goal_id g = id
  /\ forall j gj, (j < i)%nat -> gs !! j = Some gj -> goal_id gj <> id.

(** The goal behind the pointer [cls_planner_get_goal] returns. *)
Definition goal_with_id (gt : cls_goal_table_t) (id : Z) : option cls_goal_t :=
  match cls_planner_get_goal gt id with
  | None => None
  | Some i => goals gt !! i
  end.

(** A run of [cls_planner_add_goal] calls, results ignored. *)
Definition add_goals (gt : cls_goal_table_t) (gs : list cls_goal_t)
  : cls_goal_table_t :=
  fold_left (fun t g => (cls_planner_add_goal t g).2) gs gt.

(** The first goal of [gs] whose id is [id]. *)
Fixpoint first_by_id (gs : list cls_goal_t) (id : Z) : option cls_goal_t :=
  match gs with
  | [] => None
  | g :: rest => if goal_id g =? id then Some g else first_by_id rest id
  end.

(** A plan as [cls_planner_generate] leaves it: every task Pending, without
    dependencies, task ids counting up from 1. *)
Definition fresh_task (k : nat) (t : cls_task_t) : Prop :=
  task_id t = Z.of_nat k + 1
  /\ task_status t = CLS_PLAN_PENDING
  /\ dep_count t = 0
  /\ started_at t = 0 /\ completed_at t = 0.

(** A run of [cls_plan_add_task] calls, results ignored. *)
Definition add_tasks (plan : cls_plan_t) (ts : list cls_task_t) : cls_plan_t :=
  fold_left (fun p t => (cls_plan_add_task p t).2) ts plan.

(** The number of Pending tasks of a plan. *)
Definition pendingb (t : cls_task_t) : bool :=
  plan_status_eqb (task_status t) CLS_PLAN_PENDING.

Definition pending_count (plan : cls_plan_t) : nat :=
  length (List.filter pendingb (plan_tasks plan)).

(** The task in slot [k] is shadowed: an earlier slot holds a task with the
    same id. *)
Definition shadowed (tasks : list cls_task_t) (k : nat) : Prop :=
  exists j tj t,
    (j < k)%nat /\ tasks !! j = Some tj /\ tasks !! k = Some t
    /\ task_id tj = task_id t.

(** [n] rounds of the scheduling loop: take the task [cls_plan_next_task]
    returns and report it to [cls_plan_complete_task], with any outcome and
    any clock reading. *)
Inductive drains : nat -> cls_plan_t -> cls_plan_t -> Prop :=
| drains_stop plan : drains 0 plan plan
| drains_round n plan i t success now plan1 plan2 :
    cls_plan_next_task plan = (CLS_OK, Some i) ->
    plan_tasks plan !! i = Some t ->
    cls_plan_complete_task plan (task_id t) success now = (CLS_OK, plan1) ->
    drains n plan1 plan2 ->
    drains (S n) plan plan2.

(** A plan whose task ids are distinct, without dependencies and without
    Active tasks: what [cls_planner_generate] makes, and what the scheduling
    loop keeps. *)
Definition independent_tasks (plan : cls_plan_t) : Prop :=
  NoDup (map task_id (plan_tasks plan))
  /\ forall t, In t (plan_tasks plan) ->
               dep_count t = 0 /\ task_status t <> CLS_PLAN_ACTIVE.

(** ** Vocabulary for the executor *)

(** The action ids in the registry, in registration order. *)
Definition handler_ids {W} (exec : cls_action_exec_t W) : list Z :=
  map h_action_id (handlers exec).

(** The counters agree: executed = success + failed, as 64-bit values. *)
Definition stats_consistent {W} (exec : cls_action_exec_t W) : Prop :=
  u64 (total_executed exec) = u64 (total_success exec + total_failed exec).

(** The history array has its slots, and [history_count] is within it. *)
Definition history_bounded {W} (exec : cls_action_exec_t W) : Prop :=
  history_array exec
  /\ 0 <= history_count exec <= max_history exec
  /\ max_history exec < 2 ^ 32.

(** The records the search loops see carry distinct ids, all issued
    already: below [next_exec_id]. *)
Definition ids_issued {W} (exec : cls_action_exec_t W) : Prop :=
  NoDup (map exec_id (visible_history exec))
  /\ forall r, In r (visible_history exec) -> exec_id r < next_exec_id exec.

(** [cls_action_execute_task] called, as in examples/main.c, with a pointer
    to slot [i] of a plan's task array: the task is updated in the plan.  A
    pointer to no slot is the NULL the function rejects. *)
Definition execute_task_at {W} (time_us : M W Z) (exec : cls_action_exec_t W)
    (plan : cls_plan_t) (i : nat)
  : M W (cls_status_t * cls_action_exec_t W * cls_plan_t
         * option cls_action_record_t) :=
  match plan_tasks plan !! i with
  | None => mret (CLS_ERR_INVALID, exec, plan, None)
  | Some task =>
      '(status, exec', task', record) ← cls_action_execute_task time_us exec task;
      mret (status, exec',
            set_plan_tasks (<[i := task']> (plan_tasks plan)) plan, record)
  end.

(** A call that changes the registry, and a sequence of such calls, as a
    caller that ignores the status codes makes them. *)
Inductive registry_op (W : Type) : Type :=
| op_register (handler : cls_action_handler_t W)
| op_unregister (action_id : Z).
Arguments op_register {W}.
Arguments op_unregister {W}.

Definition run_registry_op {W} (exec : cls_action_exec_t W)
    (op : registry_op W) : cls_action_exec_t W :=
  match op with
  | op_register handler => (cls_action_register exec handler).2
  | op_unregister action_id => (cls_action_unregister exec action_id).2
  end.

Definition run_registry_ops {W} (exec : cls_action_exec_t W)
    (ops : list (registry_op W)) : cls_action_exec_t W :=
  fold_left run_registry_op ops exec.

(** ** Properties of the plan generator *)

Lemma SFcompare_antisym x y :
  SFcompare y x = option_map CompOpp (SFcompare x y).
Proof.
  destruct x as [sx|sx| |sx mx ex], y as [sy|sy| |sy my ey]; simpl;
    try reflexivity;
    try (destruct sx; reflexivity); try (destruct sy; reflexivity);
    try (destruct sx, sy; reflexivity).
  change (Pos.compare_cont Eq my mx) with (Pos.compare my mx).
  change (Pos.compare_cont Eq mx my) with (Pos.compare mx my).
  rewrite (Z.compare_antisym ex ey), (Pos.compare_antisym mx my).
  destruct sx, sy, (ex ?= ey), (mx ?= my)%positive; reflexivity.
Qed.

Lemma not_ltb_leb x y :
  Float32.is_nan x = false -> Float32.is_nan y = false ->
  negb (Float32.ltb x y) = Float32.leb y x.
Proof.
  unfold Float32.ltb, Float32.leb, SFltb, SFleb. intros Hx Hy.
  rewrite (SFcompare_antisym x y).
  destruct (SFcompare x y) as [[]|] eqn:E; simpl; try reflexivity.
  destruct x, y; simpl in *; discriminate.
Qed.

Lemma accepted_confident d : is_number d -> accepted d = confident d.
Proof. intros H. apply not_ltb_leb; [exact H | reflexivity]. Qed.

Lemma filter_accepted_confident ds :
  Forall is_number ds -> List.filter accepted ds = List.filter confident ds.
Proof.
  induction 1 as [|d ds Hd _ IH]; [reflexivity|].
  cbn [List.filter]. rewrite IH, (accepted_confident d Hd). reflexivity.
Qed.

Lemma generate_loop_spec ds : forall plan,
  generate_loop ds plan =
  {| plan_id := plan_id plan;
     plan_status := plan_status plan;
     plan_tasks := plan_tasks plan ++ new_tasks (task_count plan) ds;
     max_tasks := max_tasks plan;
     total_cost :=
       fold_left Float32.add
         (map cost_estimate (new_tasks (task_count plan) ds)) (total_cost plan);
     total_reward :=
       fold_left Float32.add
         (map reward_estimate (new_tasks (task_count plan) ds))
         (total_reward plan);
     success_probability := success_probability plan;
     created_at := created_at plan |}.
Proof.
  induction ds as [|d ds IH]; intros plan; cbn [generate_loop new_tasks].
  - cbn [map fold_left]. rewrite app_nil_r. destruct plan; reflexivity.
  - rewrite IH. unfold generate_step, accepted.
    destruct (Float32.ltb (dec_confidence d) Float32.c0_1); cbn [negb].
    + reflexivity.
    + assert (Hc : forall a b c d0 e f g h t,
                 task_count (mk_plan a b (c ++ [t]) d0 e f g h)
                 = task_count (mk_plan a b c d0 e f g h) + 1).
      { intros. unfold task_count. cbn [plan_tasks]. rewrite length_app.
        cbn [length]. lia. }
      destruct plan as [a b c d0 e f g h].
      cbn [plan_id plan_status plan_tasks max_tasks total_cost total_reward
           success_probability created_at].
      rewrite Hc. cbn [map fold_left]. rewrite <- app_assoc. reflexivity.
Qed.

(** Each appended task comes from one accepted decision, in order. *)
Lemma new_tasks_accepted ds : forall base,
  Forall2 (fun d t => exists tid, t = task_of_decision tid d)
          (List.filter accepted ds) (new_tasks base ds).
Proof.
  induction ds as [|d ds IH]; intros base; cbn [List.filter new_tasks].
  - constructor.
  - destruct (accepted d); [|apply IH].
    constructor; [eexists; reflexivity | apply IH].
Qed.

(** The ids of the appended tasks count up from the tasks already there. *)
Lemma new_tasks_ids ds : forall base k t,
  new_tasks base ds !! k = Some t -> task_id t = u32 (base + Z.of_nat k + 1).
Proof.
  induction ds as [|d ds IH]; intros base k t; cbn [new_tasks].
  - intros H. discriminate.
  - destruct (accepted d); [|apply IH].
    destruct k as [|k]; cbn.
    + intros [= <-]. cbn. f_equal. lia.
    + intros H. rewrite (IH _ _ _ H). f_equal. lia.
Qed.

(** What [cls_planner_generate] returns on a batch it accepts. *)
Lemma generate_accepts planner decisions now :
  decisions <> [] ->
  plan_count planner < max_plans planner ->
  let ts := new_tasks 0 decisions in
  let reward := Float32.sum (map reward_estimate ts) in
  let plan :=
    {| plan_id := u32 (u32 (plans_generated planner) + 1);
       plan_status := CLS_PLAN_ACTIVE;
       plan_tasks := ts;
       max_tasks := u32 (Z.of_nat (length decisions) * 2);
       total_cost := Float32.sum (map cost_estimate ts);
       total_reward := reward;
       success_probability :=
         if Z.of_nat (length ts) >? 0
         then Float32.div reward (Float32.of_Z (Z.of_nat (length ts)))
         else Float32.zero;
       created_at := now |} in
  cls_planner_generate planner decisions now =
  (CLS_OK,
   {| plans := plans planner ++ [plan];
      max_plans := max_plans planner;
      plans_generated := u64 (plans_generated planner + 1) |},
   Some (length (plans planner))).
Proof.
  intros Hne Hroom. unfold cls_planner_generate.
  destruct (Z.eqb_spec (Z.of_nat (length decisions)) 0) as [E|_].
  { destruct decisions; [contradiction | cbn in E; lia]. }
  destruct (Z.geb_spec (plan_count planner) (max_plans planner)) as [E|_];
    [lia|].
  rewrite generate_loop_spec.
  cbn [plan_id plan_status plan_tasks max_tasks total_cost total_reward
       success_probability created_at app].
  change (task_count (mk_plan _ _ [] _ _ _ _ _)) with 0.
  unfold task_count. cbn [plan_tasks]. unfold Float32.sum.
  destruct (Z.of_nat (length (new_tasks 0 decisions)) >? 0); reflexivity.
Qed.

(** C1, as the code has it.  A batch that is not empty, offered to a planner
    whose plan table has room, is accepted with [CLS_OK]; the new plan holds
    one task per decision whose confidence is not below 0.1f (the loop's test
    is [confidence < 0.1f], which a confidence that is not a number does not
    pass, so such a decision is kept), in batch order, with
    [cost_estimate = 1 - confidence] and [reward_estimate = confidence]; when
    every confidence is a number these are the decisions with
    confidence >= 0.1.  [total_cost] and [total_reward] are the sums of these
    estimates, and [success_probability] is [total_reward / task_count], or 0
    when no decision passes the filter. *)
Theorem generate_one_task_per_accepted_decision planner decisions now :
  decisions <> [] ->
  plan_count planner < max_plans planner ->
  exists planner' plan,
    cls_planner_generate planner decisions now
    = (CLS_OK, planner', Some (length (plans planner)))
    /\ plans planner' !! length (plans planner) = Some plan
    /\ Forall2 (fun d t =>
                  task_action_id t = dec_action_id d
                  /\ cost_estimate t
                     = Float32.sub Float32.one (dec_confidence d)
                  /\ reward_estimate t = dec_confidence d)
               (List.filter accepted decisions) (plan_tasks plan)
    /\ (Forall is_number decisions ->
        List.filter accepted decisions = List.filter confident decisions)
    /\ total_cost plan = Float32.sum (map cost_estimate (plan_tasks plan))
    /\ total_reward plan = Float32.sum (map reward_estimate (plan_tasks plan))
    /\ success_probability plan
       = (if task_count plan =? 0 then Float32.zero
          else Float32.div (total_reward plan)
                           (Float32.of_Z (task_count plan))).
Proof.
  intros Hne Hroom.
  rewrite (generate_accepts planner decisions now Hne Hroom).
  eexists _, _. split; [reflexivity|].
  split; [cbn [plans]; apply list_lookup_middle; reflexivity|].
  cbn [plan_tasks total_cost total_reward success_probability].
  split; [|split; [|split; [|split]]].
  - eapply Forall2_impl; [apply new_tasks_accepted|].
    intros d t [tid ->]. repeat split.
  - apply filter_accepted_confident.
  - reflexivity.
  - reflexivity.
  - unfold task_count. cbn [plan_tasks].
    destruct (length (new_tasks 0 decisions)); reflexivity.
Qed.

(** The scenario of the specification, confidences 0.9 and 0.05: one task of
    cost 1 - 0.9f and reward 0.9f, [total_reward] 0.9f.  And a batch of 0.9,
    0.05 and 0.5: two tasks, [total_reward] 0.9f + 0.5f = 1.4f, [total_cost]
    0.6f, [success_probability] 0.7f.  The values are written as binary32
    mantissa and exponent. *)
Lemma generate_one_task_per_accepted_decision_example :
  (exists planner' plan t,
     cls_planner_generate (empty_planner 8)
       [mk_decision 10 (Float32.lit 9 10) 80 0 0;
        mk_decision 20 (Float32.lit 5 100) 10 0 0] 7
     = (CLS_OK, planner', Some 0%nat)
     /\ plans planner' !! 0%nat = Some plan
     /\ plan_tasks plan = [t]
     /\ task_action_id t = 10
     /\ reward_estimate t = S754_finite false 15099494 (-24)
     /\ cost_estimate t = S754_finite false 13421776 (-27)
     /\ total_reward plan = S754_finite false 15099494 (-24)
     /\ total_cost plan = S754_finite false 13421776 (-27)
     /\ success_probability plan = S754_finite false 15099494 (-24))
  /\ (exists planner' plan t1 t2,
        cls_planner_generate (empty_planner 8)
          [mk_decision 10 (Float32.lit 9 10) 80 0 0;
           mk_decision 20 (Float32.lit 5 100) 10 0 0;
           mk_decision 30 (Float32.lit 1 2) 40 0 0] 7
        = (CLS_OK, planner', Some 0%nat)
        /\ plans planner' !! 0%nat = Some plan
        /\ plan_tasks plan = [t1; t2]
        /\ task_action_id t1 = 10 /\ task_action_id t2 = 30
        /\ reward_estimate t2 = S754_finite false 8388608 (-24)
        /\ cost_estimate t2 = S754_finite false 8388608 (-24)
        /\ total_reward plan = S754_finite false 11744051 (-23)
        /\ total_cost plan = S754_finite false 10066330 (-24)
        /\ success_probability plan = S754_finite false 11744051 (-24)).
Proof.
  split.
  - destruct (generate_one_task_per_accepted_decision (empty_planner 8)
                [mk_decision 10 (Float32.lit 9 10) 80 0 0;
                 mk_decision 20 (Float32.lit 5 100) 10 0 0] 7)
      as (planner' & plan & Hrun & Hplan & Htasks & _ & Hcost & Hreward & Hprob).
    + discriminate.
    + reflexivity.
    + change (List.filter accepted _)
        with [mk_decision 10 (Float32.lit 9 10) 80 0 0] in Htasks.
      apply Forall2_cons_inv_l in Htasks
        as (t & ts & (Ha & Hc & Hr) & Hrest & Ht).
      apply Forall2_nil_inv_l in Hrest. subst ts.
      exists planner', plan, t. split; [exact Hrun|]. split; [exact Hplan|].
      split; [exact Ht|]. split; [exact Ha|].
      assert (Hcount : task_count plan = 1)
        by (unfold task_count; rewrite Ht; reflexivity).
      rewrite Hprob, Hcount, Hreward, Hcost, Ht. cbn [map].
      rewrite Hr, Hc. repeat split; vm_compute; reflexivity.
  - destruct (generate_one_task_per_accepted_decision (empty_planner 8)
                [mk_decision 10 (Float32.lit 9 10) 80 0 0;
                 mk_decision 20 (Float32.lit 5 100) 10 0 0;
                 mk_decision 30 (Float32.lit 1 2) 40 0 0] 7)
      as (planner' & plan & Hrun & Hplan & Htasks & _ & Hcost & Hreward & Hprob).
    + discriminate.
    + reflexivity.
    + change (List.filter accepted _)
        with [mk_decision 10 (Float32.lit 9 10) 80 0 0;
              mk_decision 30 (Float32.lit 1 2) 40 0 0] in Htasks.
      apply Forall2_cons_inv_l in Htasks
        as (t1 & ts1 & (Ha1 & Hc1 & Hr1) & Hrest & Ht).
      apply Forall2_cons_inv_l in Hrest
        as (t2 & ts2 & (Ha2 & Hc2 & Hr2) & Hrest & Ht2).
      apply Forall2_nil_inv_l in Hrest. subst ts2 ts1.
      exists planner', plan, t1, t2.
      split; [exact Hrun|]. split; [exact Hplan|].
      split; [exact Ht|]. split; [exact Ha1|]. split; [exact Ha2|].
      assert (Hcount : task_count plan = 2)
        by (unfold task_count; rewrite Ht; reflexivity).
      rewrite Hprob, Hcount, Hreward, Hcost, Ht. cbn [map].
      rewrite Hr1, Hc1, Hr2, Hc2. repeat split; vm_compute; reflexivity.
Defined.

(** C1, as the specification words it, fails on a confidence that is not a
    number: such a decision is not below 0.1f, so the loop makes a task of it,
    although it is not a decision with confidence >= 0.1.  Of the batch 0.9,
    NaN one decision has confidence >= 0.1, and the plan has two tasks; its
    totals are NaN. *)
Lemma generate_keeps_nan_confidence :
  let ds := [mk_decision 10 (Float32.lit 9 10) 80 0 0;
             mk_decision 20 S754_nan 10 0 0] in
  List.filter confident ds = [mk_decision 10 (Float32.lit 9 10) 80 0 0]
  /\ exists planner' plan,
       cls_planner_generate (empty_planner 8) ds 7
       = (CLS_OK, planner', Some 0%nat)
       /\ plans planner' !! 0%nat = Some plan
       /\ task_count plan = 2
       /\ map task_action_id (plan_tasks plan) = [10; 20]
       /\ Float32.is_nan (total_cost plan) = true
       /\ Float32.is_nan (total_reward plan) = true
       /\ ~ Forall2 (fun d t => task_action_id t = dec_action_id d)
                    (List.filter confident ds) (plan_tasks plan).
Proof.
  intros ds. split; [reflexivity|].
  eexists _, _. split; [vm_compute; reflexivity|].
  split; [reflexivity|]. split; [reflexivity|]. split; [reflexivity|].
  split; [reflexivity|]. split; [reflexivity|].
  intros H. apply Forall2_length in H. discriminate H.
Qed.

Lemma clamp_macro x lo hi : CLS_CLAMP x lo hi = clamp x lo hi.
Proof.
  unfold CLS_CLAMP, CLS_MIN, CLS_MAX, clamp.
  destruct (Z.gtb_spec x lo) as [H|H].
  - rewrite (Z.max_l x lo) by lia. destruct (Z.ltb_spec x hi); lia.
  - rewrite (Z.max_r x lo) by lia. destruct (Z.ltb_spec lo hi); lia.
Qed.

Lemma priority_cast_clamp x :
  priority_to_Z (priority_of_Z (clamp x 0 3)) = clamp x 0 3.
Proof.
  assert (H : 0 <= clamp x 0 3 <= 3) by (unfold clamp; lia).
  unfold priority_of_Z.
  destruct (Z.eqb_spec (clamp x 0 3) 0) as [->|]; [reflexivity|].
  destruct (Z.eqb_spec (clamp x 0 3) 1) as [->|]; [reflexivity|].
  destruct (Z.eqb_spec (clamp x 0 3) 2) as [->|]; [reflexivity|].
  cbn. lia.
Qed.

Lemma task_of_decision_priority tid d :
  priority_to_Z (task_priority (task_of_decision tid d))
  = priority_truncated (dec_priority d).
Proof.
  cbn [task_of_decision task_priority]. rewrite clamp_macro.
  apply priority_cast_clamp.
Qed.

(** C7, as the code has it.  On an accepted batch, the task made from each
    decision the loop keeps has priority
    [clamp(floor(decision.priority / 25), 0, 3)]: the quotient of the
    unsigned division, not the nearest integer. *)
Theorem generate_priority_is_truncated_quotient planner decisions now :
  decisions <> [] ->
  plan_count planner < max_plans planner ->
  exists planner' plan,
    cls_planner_generate planner decisions now
    = (CLS_OK, planner', Some (length (plans planner)))
    /\ plans planner' !! length (plans planner) = Some plan
    /\ Forall2 (fun d t =>
                  priority_to_Z (task_priority t)
                  = clamp (dec_priority d / 25) 0 3)
               (List.filter accepted decisions) (plan_tasks plan).
Proof.
  intros Hne Hroom.
  rewrite (generate_accepts planner decisions now Hne Hroom).
  eexists _, _. split; [reflexivity|].
  split; [cbn [plans]; apply list_lookup_middle; reflexivity|].
  cbn [plan_tasks].
  eapply Forall2_impl; [apply new_tasks_accepted|].
  intros d t [tid ->]. apply task_of_decision_priority.
Qed.

Lemma generate_priority_is_truncated_quotient_example :
  exists planner' plan,
    cls_planner_generate (empty_planner 8)
      [mk_decision 10 (Float32.lit 9 10) 80 0 0] 7
    = (CLS_OK, planner', Some 0%nat)
    /\ plans planner' !! 0%nat = Some plan
    /\ Forall2 (fun d t =>
                  priority_to_Z (task_priority t)
                  = clamp (dec_priority d / 25) 0 3)
               [mk_decision 10 (Float32.lit 9 10) 80 0 0] (plan_tasks plan).
Proof.
  apply (generate_priority_is_truncated_quotient (empty_planner 8)
           [mk_decision 10 (Float32.lit 9 10) 80 0 0] 7).
  - discriminate.
  - reflexivity.
Defined.

(** C7, as the specification words it, fails: a decision of priority 20 has
    20/25 = 0.8, which rounds to 1 (Normal), and the generator makes a task
    of priority 0 (Low). *)
Lemma generate_priority_20_not_rounded :
  exists planner' plan t,
    cls_planner_generate (empty_planner 8)
      [mk_decision 10 (Float32.lit 9 10) 20 0 0] 7
    = (CLS_OK, planner', Some 0%nat)
    /\ plans planner' !! 0%nat = Some plan
    /\ plan_tasks plan = [t]
    /\ priority_to_Z (task_priority t) = 0
    /\ spec_priority_rounded 20 = 1
    /\ priority_to_Z (task_priority t) <> spec_priority_rounded 20.
Proof.
  eexists _, _, _. split; [vm_compute; reflexivity|].
  split; [reflexivity|]. split; [reflexivity|].
  split; [reflexivity|]. split; [reflexivity|]. discriminate.
Qed.

(** ** Properties of the task scheduler *)

Lemma plan_status_eqb_eq a b : plan_status_eqb a b = true <-> a = b.
Proof. destruct a, b; cbn; split; intros H; congruence. Qed.

Lemma found_complete_iff plan dep :
  found_complete (plan_tasks plan) dep = true <-> dep_satisfied plan dep.
Proof.
  unfold found_complete, dep_satisfied. rewrite existsb_exists.
  split; intros [tj [Hin H]]; exists tj; (split; [exact Hin|]).
  - apply andb_true_iff in H as [H1 H2].
    apply Z.eqb_eq in H1. apply plan_status_eqb_eq in H2. auto.
  - destruct H as [H1 H2]. apply andb_true_iff.
    split; [apply Z.eqb_eq | apply plan_status_eqb_eq]; assumption.
Qed.

Lemma eligible_candidate plan t :
  eligible (plan_tasks plan) t = true <-> candidate plan t.
Proof.
  unfold eligible, candidate, deps_met.
  rewrite andb_true_iff, plan_status_eqb_eq, forallb_forall.
  split; intros [H1 H2]; (split; [exact H1|]); intros dep Hd;
    apply found_complete_iff, H2, Hd.
Qed.

Lemma next_task_step_eq tasks i t best :
  next_task_step tasks i t best =
  if eligible tasks t
  then match best with
       | None => Some (i, t)
       | Some (_, b) => if prio t >? prio b then Some (i, t) else best
       end
  else best.
Proof.
  unfold next_task_step, eligible, prio.
  destruct (plan_status_eqb (task_status t) CLS_PLAN_PENDING),
           (deps_met tasks t); reflexivity.
Qed.

Lemma next_task_step_upto tasks i t best :
  tasks !! i = Some t ->
  best_upto tasks i best ->
  best_upto tasks (S i) (next_task_step tasks i t best).
Proof.
  intros Hi Hbest. rewrite next_task_step_eq.
  assert (Hlast : forall j tj, (j < S i)%nat -> tasks !! j = Some tj ->
                               (j < i)%nat \/ (j = i /\ tj = t)).
  { intros j tj Hj Hl. destruct (Nat.eq_dec j i) as [->|];
      [right; split; congruence | left; lia]. }
  destruct (eligible tasks t) eqn:El; destruct best as [[b tb]|];
    cbn [best_upto] in *.
  - destruct Hbest as (Hb & Hbi & Hbe & Hmax).
    destruct (Z.gtb_spec (prio t) (prio tb)) as [Hgt|Hle]; cbn [best_upto].
    + split; [exact Hi|]. split; [lia|]. split; [exact El|].
      intros j tj Hj Hl He. destruct (Hlast j tj Hj Hl) as [Hlt|[-> ->]].
      * destruct (Hmax j tj Hlt Hl He). lia.
      * lia.
    + split; [exact Hb|]. split; [lia|]. split; [exact Hbe|].
      intros j tj Hj Hl He. destruct (Hlast j tj Hj Hl) as [Hlt|[-> ->]].
      * apply (Hmax j tj Hlt Hl He).
      * lia.
  - split; [exact Hi|]. split; [lia|]. split; [exact El|].
    intros j tj Hj Hl He. destruct (Hlast j tj Hj Hl) as [Hlt|[-> ->]].
    + rewrite (Hbest j tj Hlt Hl) in He. discriminate.
    + lia.
  - destruct Hbest as (Hb & Hbi & Hbe & Hmax).
    split; [exact Hb|]. split; [lia|]. split; [exact Hbe|].
    intros j tj Hj Hl He. destruct (Hlast j tj Hj Hl) as [Hlt|[-> ->]].
    + apply (Hmax j tj Hlt Hl He).
    + congruence.
  - intros j tj Hj Hl. destruct (Hlast j tj Hj Hl) as [Hlt|[-> ->]];
      [eauto | exact El].
Qed.

Lemma next_task_loop_upto tasks : forall rest pre best,
  tasks = pre ++ rest ->
  best_upto tasks (length pre) best ->
  best_upto tasks (length tasks) (next_task_loop tasks rest (length pre) best).
Proof.
  induction rest as [|t rest IH]; intros pre best Htasks Hbest;
    cbn [next_task_loop].
  - rewrite app_nil_r in Htasks. subst pre. exact Hbest.
  - assert (Hi : tasks !! length pre = Some t)
      by (subst tasks; apply list_lookup_middle; reflexivity).
    specialize (IH (pre ++ [t]) (next_task_step tasks (length pre) t best)).
    rewrite length_app, Nat.add_1_r in IH. apply IH.
    + rewrite <- app_assoc. exact Htasks.
    + apply next_task_step_upto; assumption.
Qed.

Lemma next_task_best plan :
  best_upto (plan_tasks plan) (length (plan_tasks plan))
            (next_task_loop (plan_tasks plan) (plan_tasks plan) 0%nat None).
Proof.
  apply (next_task_loop_upto (plan_tasks plan) (plan_tasks plan) [] None).
  - reflexivity.
  - intros j tj Hj. cbn in Hj. lia.
Qed.

(** C2.  [cls_plan_next_task] returns a task only if it is a candidate
    (Pending, and every dependency id names a task of the plan that is
    Complete, so an id naming no task rules the task out); the task returned
    has the highest priority among the candidates and is the first of those
    in array order; some task is returned whenever a candidate exists, and
    the result is [CLS_ERR_NOT_FOUND] when none does. *)
Theorem next_task_first_highest_candidate plan :
  (forall i,
     cls_plan_next_task plan = (CLS_OK, Some i) ->
     exists t,
       plan_tasks plan !! i = Some t
       /\ candidate plan t
       /\ forall j tj,
            plan_tasks plan !! j = Some tj -> candidate plan tj ->
            prio tj <= prio t /\ (prio tj = prio t -> (i <= j)%nat))
  /\ ((exists j tj, plan_tasks plan !! j = Some tj /\ candidate plan tj) ->
      exists i, cls_plan_next_task plan = (CLS_OK, Some i))
  /\ ((~ exists j tj, plan_tasks plan !! j = Some tj /\ candidate plan tj) ->
      cls_plan_next_task plan = (CLS_ERR_NOT_FOUND, None)).
Proof.
  pose proof (next_task_best plan) as Hbest. unfold cls_plan_next_task.
  destruct (next_task_loop (plan_tasks plan) (plan_tasks plan) 0%nat None)
    as [[b tb]|]; cbn [best_upto] in Hbest.
  - destruct Hbest as (Hb & _ & Hbe & Hmax). split; [|split].
    + intros i [= <-]. exists tb.
      split; [exact Hb|]. split; [apply eligible_candidate, Hbe|].
      intros j tj Hj Hc. apply (Hmax j tj).
      * apply (lookup_lt_Some _ _ _ Hj).
      * exact Hj.
      * apply eligible_candidate, Hc.
    + intros _. exists b. reflexivity.
    + intros Hno. exfalso. apply Hno. exists b, tb.
      split; [exact Hb | apply eligible_candidate, Hbe].
  - split; [|split].
    + intros i [=].
    + intros (j & tj & Hj & Hc). apply eligible_candidate in Hc.
      rewrite (Hbest j tj (lookup_lt_Some _ _ _ Hj) Hj) in Hc. discriminate.
    + reflexivity.
Qed.

(** ** Properties of the completion tracker *)

Lemma scan_tasks_from tasks : forall all_done any_failed,
  fold_left scan_step tasks (all_done, any_failed)
  = (all_done && forallb terminalb tasks, any_failed || existsb failedb tasks).
Proof.
  induction tasks as [|t tasks IH]; intros a f; cbn [fold_left forallb existsb].
  - rewrite andb_true_r, orb_false_r. reflexivity.
  - unfold scan_step at 2. rewrite IH. unfold terminalb at 2, failedb at 2.
    destruct (plan_status_eqb (task_status t) CLS_PLAN_PENDING
              || plan_status_eqb (task_status t) CLS_PLAN_ACTIVE),
             (plan_status_eqb (task_status t) CLS_PLAN_FAILED), a, f;
      reflexivity.
Qed.

Lemma scan_tasks_eq tasks :
  scan_tasks tasks = (forallb terminalb tasks, existsb failedb tasks).
Proof. unfold scan_tasks. rewrite scan_tasks_from. reflexivity. Qed.

Lemma terminalb_terminal t : terminalb t = true <-> terminal t.
Proof.
  unfold terminalb, terminal. destruct (task_status t); cbn; split;
    first [ discriminate | intros [H1 H2]; congruence
          | intros _; split; discriminate | reflexivity ].
Qed.

Lemma forallb_terminal tasks :
  forallb terminalb tasks = true <-> Forall terminal tasks.
Proof.
  rewrite forallb_forall, List.Forall_forall.
  split; intros H t Ht; apply terminalb_terminal, H, Ht.
Qed.

Lemma existsb_failed tasks :
  existsb failedb tasks = true <-> Exists failed tasks.
Proof.
  rewrite existsb_exists, List.Exists_exists.
  split; intros [t [Ht H]]; exists t; (split; [exact Ht|]);
    apply plan_status_eqb_eq, H.
Qed.

Lemma find_task_none tasks : forall tid i,
  find_task tasks tid i = None <-> (forall t, In t tasks -> task_id t <> tid).
Proof.
  induction tasks as [|t tasks IH]; intros tid i; cbn [find_task].
  - split; [intros _ t [] | reflexivity].
  - destruct (Z.eqb_spec (task_id t) tid) as [E|E].
    + split; [discriminate|]. intros H. exfalso. apply (H t); [left; reflexivity|exact E].
    + rewrite IH. split.
      * intros H t' [<-|Ht']; [exact E | apply H, Ht'].
      * intros H t' Ht'. apply H. right. exact Ht'.
Qed.

Lemma find_task_first tasks : forall tid i k t,
  first_with_id tasks tid k t -> find_task tasks tid i = Some (i + k)%nat.
Proof.
  induction tasks as [|t0 tasks IH]; intros tid i k t (Hk & Hid & Hfirst).
  - discriminate.
  - cbn [find_task]. destruct k as [|k].
    + cbn in Hk. injection Hk as ->. rewrite <- Hid, Z.eqb_refl.
      f_equal. lia.
    + destruct (Z.eqb_spec (task_id t0) tid) as [E|E].
      * exfalso. apply (Hfirst 0%nat t0); [lia | reflexivity | exact E].
      * rewrite (IH tid (S i) k t); [f_equal; lia|].
        split; [exact Hk|]. split; [exact Hid|].
        intros j tj Hj Hl. apply (Hfirst (S j) tj); [lia | exact Hl].
Qed.

Lemma complete_task_found plan tid success now i t :
  first_with_id (plan_tasks plan) tid i t ->
  exists plan',
    cls_plan_complete_task plan tid success now = (CLS_OK, plan')
    /\ plan_tasks plan' = alter (finish_task success now) i (plan_tasks plan)
    /\ aggregated plan plan'.
Proof.
  intros Hfirst. unfold cls_plan_complete_task.
  rewrite (find_task_first _ _ 0%nat i t Hfirst). cbn [Nat.add].
  cbn [plan_tasks set_plan_tasks]. rewrite scan_tasks_eq.
  set (tasks' := alter (finish_task success now) i (plan_tasks plan)).
  destruct (forallb terminalb tasks') eqn:Hall.
  - destruct (existsb failedb tasks') eqn:Hf; eexists; (split; [reflexivity|]);
      (split; [reflexivity|]); unfold aggregated;
      cbn [set_plan_status set_plan_tasks plan_tasks plan_status].
    + split; [|split].
      * intros _ Hn. exfalso. apply Hn, existsb_failed, Hf.
      * reflexivity.
      * intros Hn. exfalso. apply Hn, forallb_terminal, Hall.
    + split; [|split].
      * reflexivity.
      * intros _ He. apply existsb_failed in He. unfold tasks' in *. congruence.
      * intros Hn. exfalso. apply Hn, forallb_terminal, Hall.
  - eexists. split; [reflexivity|]. split; [reflexivity|].
    unfold aggregated. cbn [set_plan_tasks plan_tasks plan_status].
    split; [|split].
    + intros Ha. apply forallb_terminal in Ha. unfold tasks' in *. congruence.
    + intros Ha. apply forallb_terminal in Ha. unfold tasks' in *. congruence.
    + reflexivity.
Qed.

Lemma first_with_id_alter tasks tid i t f :
  (forall x, task_id (f x) = task_id x) ->
  first_with_id tasks tid i t ->
  first_with_id (alter f i tasks) tid i (f t).
Proof.
  intros Hf (Hi & Hid & Hfirst). split; [|split].
  - rewrite list_lookup_alter_eq, Hi. reflexivity.
  - rewrite Hf. exact Hid.
  - intros j tj Hj Hl. rewrite list_lookup_alter_ne in Hl by lia.
    apply (Hfirst j tj Hj Hl).
Qed.

Lemma complete_task_completes plan tid success now i t :
  first_with_id (plan_tasks plan) tid i t ->
  exists plan',
    cls_plan_complete_task plan tid success now = (CLS_OK, plan')
    /\ completes plan i success now plan'
    /\ first_with_id (plan_tasks plan') tid i (finish_task success now t).
Proof.
  intros Hfirst.
  destruct (complete_task_found plan tid success now i t Hfirst)
    as (plan' & Hcall & Htasks & Hagg).
  exists plan'. split; [exact Hcall|]. split.
  - split; [|split; [|exact Hagg]].
    + exists (finish_task success now t). rewrite Htasks, list_lookup_alter_eq.
      destruct Hfirst as (-> & _). repeat split.
    + intros j Hj. rewrite Htasks. apply list_lookup_alter_ne. congruence.
  - rewrite Htasks. apply first_with_id_alter; [reflexivity | exact Hfirst].
Qed.

(** C3.  [cls_plan_complete_task] returns [CLS_ERR_NOT_FOUND], and leaves the
    plan as it is, when no task has the id.  Otherwise it returns [CLS_OK];
    the (first) task with the id becomes Complete or Failed according to
    [success] and its [completed_at] is the clock reading; the other tasks
    are unchanged; and the plan becomes Complete when every task is terminal
    and none is Failed, Failed when every task is terminal and one is Failed,
    and keeps its status (an Active plan stays Active) otherwise.  A second
    call for the same id is accepted in the same way: it stamps
    [completed_at] again and the plan status again follows the same rule. *)
Theorem complete_task_updates_task_and_plan plan tid success now :
  ((forall t, In t (plan_tasks plan) -> task_id t <> tid) ->
   cls_plan_complete_task plan tid success now = (CLS_ERR_NOT_FOUND, plan))
  /\ (forall i t,
        first_with_id (plan_tasks plan) tid i t ->
        exists plan',
          cls_plan_complete_task plan tid success now = (CLS_OK, plan')
          /\ completes plan i success now plan'
          /\ forall success2 now2,
               exists plan'',
                 cls_plan_complete_task plan' tid success2 now2
                 = (CLS_OK, plan'')
                 /\ completes plan' i success2 now2 plan'').
Proof.
  split.
  - intros Hnone. unfold cls_plan_complete_task.
    rewrite (proj2 (find_task_none _ tid 0%nat) Hnone). reflexivity.
  - intros i t Hfirst.
    destruct (complete_task_completes plan tid success now i t Hfirst)
      as (plan' & Hcall & Hdone & Hfirst').
    exists plan'. split; [exact Hcall|]. split; [exact Hdone|].
    intros success2 now2.
    destruct (complete_task_completes plan' tid success2 now2 i _ Hfirst')
      as (plan'' & Hcall2 & Hdone2 & _).
    exists plan''. split; assumption.
Qed.

(** ** Properties of the replanner *)

Lemma pending_or_failed_unresolved t :
  pending_or_failed t = true <-> unresolved t.
Proof.
  unfold pending_or_failed, unresolved.
  rewrite orb_true_iff, !plan_status_eqb_eq. reflexivity.
Qed.

Lemma replan_collect_spec tasks : forall fallback,
  (length fallback <= 64)%nat ->
  replan_collect tasks fallback
  = take 64 (fallback ++ spec_replan_batch tasks).
Proof.
  unfold spec_replan_batch.
  induction tasks as [|t tasks IH]; intros fallback Hlen;
    cbn [replan_collect List.filter map].
  - rewrite app_nil_r, take_ge by lia. reflexivity.
  - destruct (Z.ltb_spec (Z.of_nat (length fallback)) 64) as [Hlt|Hge].
    + destruct (pending_or_failed t); cbn [map].
      * rewrite IH by (rewrite length_app; cbn; lia).
        rewrite <- app_assoc. reflexivity.
      * apply IH, Hlen.
    + rewrite take_app_le by lia. rewrite take_ge by lia. reflexivity.
Qed.

Lemma replan_collect_batch tasks :
  replan_collect tasks [] = take 64 (spec_replan_batch tasks).
Proof. apply (replan_collect_spec tasks []). cbn. lia. Qed.

Lemma replan_batch_nil tasks :
  take 64 (spec_replan_batch tasks) = [] <->
  (forall t, In t tasks -> ~ unresolved t).
Proof.
  unfold spec_replan_batch. induction tasks as [|t tasks IH];
    cbn [List.filter map].
  - split; [intros _ t [] | reflexivity].
  - destruct (pending_or_failed t) eqn:E.
    + cbn. split; [discriminate|]. intros H. exfalso.
      apply (H t); [left; reflexivity | apply pending_or_failed_unresolved, E].
    + rewrite IH. split.
      * intros H t' [<-|Ht']; [|apply H, Ht'].
        rewrite <- pending_or_failed_unresolved, E. discriminate.
      * intros H t' Ht'. apply H. right. exact Ht'.
Qed.

Lemma replan_eq planner i fp now :
  plans planner !! i = Some fp ->
  cls_planner_replan planner i now =
  match take 64 (spec_replan_batch (plan_tasks fp)) with
  | [] => (CLS_ERR_NOT_FOUND, planner, None)
  | batch => cls_planner_generate (cancel_plan i fp planner) batch now
  end.
Proof.
  intros Hi. unfold cls_planner_replan. rewrite Hi, replan_collect_batch.
  destruct (take 64 (spec_replan_batch (plan_tasks fp))) as [|d batch];
    [reflexivity|].
  destruct (Z.eqb_spec (Z.of_nat (length (d :: batch))) 0) as [E|_];
    [cbn in E; lia | reflexivity].
Qed.

Lemma generate_full planner decisions now :
  decisions <> [] ->
  max_plans planner <= plan_count planner ->
  cls_planner_generate planner decisions now = (CLS_ERR_OVERFLOW, planner, None).
Proof.
  intros Hne Hfull. unfold cls_planner_generate.
  destruct (Z.eqb_spec (Z.of_nat (length decisions)) 0) as [E|_].
  { destruct decisions; [contradiction | cbn in E; lia]. }
  destruct (Z.geb_spec (plan_count planner) (max_plans planner)) as [_|E];
    [reflexivity | lia].
Qed.

Lemma cancel_plan_lookup planner i fp :
  plans planner !! i = Some fp ->
  plans (cancel_plan i fp planner) !! i
  = Some (set_plan_status CLS_PLAN_CANCELLED fp)
  /\ (forall j, j <> i ->
        plans (cancel_plan i fp planner) !! j = plans planner !! j)
  /\ plan_count (cancel_plan i fp planner) = plan_count planner
  /\ max_plans (cancel_plan i fp planner) = max_plans planner.
Proof.
  intros Hi. unfold cancel_plan, plan_count. cbn [set_plans plans max_plans].
  split; [|split; [|split]].
  - apply list_lookup_insert_eq, (lookup_lt_Some _ _ _ Hi).
  - intros j Hj. apply list_lookup_insert_ne. congruence.
  - rewrite length_insert. reflexivity.
  - reflexivity.
Qed.

(** The generator leaves the plans already in the table as they are. *)
Lemma generate_keeps_plans planner decisions now j p :
  plans planner !! j = Some p ->
  plans (cls_planner_generate planner decisions now).1.2 !! j = Some p.
Proof.
  intros Hj. destruct decisions as [|d ds]; [exact Hj|].
  destruct (Z.ltb_spec (plan_count planner) (max_plans planner)) as [Hroom|Hfull].
  - rewrite generate_accepts; [|discriminate|exact Hroom].
    cbn [fst snd plans]. rewrite lookup_app_l; [exact Hj|].
    apply (lookup_lt_Some _ _ _ Hj).
  - rewrite generate_full; [exact Hj | discriminate | exact Hfull].
Qed.

(** The status the replanner leaves in the slot of the old plan. *)
Lemma cancel_plan_status planner i fp :
  plans planner !! i = Some fp ->
  exists fp',
    plans (cancel_plan i fp planner) = <[i := fp']> (plans planner)
    /\ plans (cancel_plan i fp planner) !! i = Some fp'
    /\ plan_status fp' = CLS_PLAN_CANCELLED
    /\ only_status_differs fp fp'.
Proof.
  intros Hi. destruct (cancel_plan_lookup planner i fp Hi) as (H1 & _).
  exists (set_plan_status CLS_PLAN_CANCELLED fp).
  split; [reflexivity|]. split; [exact H1|]. split; [reflexivity|].
  repeat split.
Qed.

(** C9.  On a planner whose plan table is full, replanning a plan that has
    at least one Pending or Failed task returns [CLS_ERR_OVERFLOW] from the
    generator and produces no new plan, yet the status of the old plan is
    now [CLS_PLAN_CANCELLED]; its other fields and everything else in the
    table are as they were. *)
Theorem replan_on_full_table_cancels_old_plan planner i fp now :
  plans planner !! i = Some fp ->
  max_plans planner <= plan_count planner ->
  Exists unresolved (plan_tasks fp) ->
  exists planner' fp',
    cls_planner_replan planner i now = (CLS_ERR_OVERFLOW, planner', None)
    /\ plans planner' !! i = Some fp'
    /\ plan_status fp' = CLS_PLAN_CANCELLED
    /\ only_status_differs fp fp'
    /\ (forall j, j <> i -> plans planner' !! j = plans planner !! j)
    /\ plan_count planner' = plan_count planner
    /\ max_plans planner' = max_plans planner
    /\ plans_generated planner' = plans_generated planner.
Proof.
  intros Hi Hfull Hex.
  destruct (cancel_plan_lookup planner i fp Hi) as (_ & H2 & H3 & H4).
  destruct (cancel_plan_status planner i fp Hi) as (fp' & _ & Hslot & Hst & Hsame).
  exists (cancel_plan i fp planner), fp'.
  rewrite (replan_eq planner i fp now Hi).
  destruct (take 64 (spec_replan_batch (plan_tasks fp))) as [|d batch] eqn:E.
  - exfalso. apply List.Exists_exists in Hex as (t & Ht & Hu).
    exact (proj1 (replan_batch_nil _) E t Ht Hu).
  - rewrite generate_full; [|discriminate|lia].
    split; [reflexivity|]. split; [exact Hslot|]. split; [exact Hst|].
    split; [exact Hsame|]. split; [exact H2|]. split; [exact H3|].
    split; reflexivity.
Qed.

Lemma decision_of_task_fields t :
  dec_action_id (decision_of_task t) = task_action_id t
  /\ dec_confidence (decision_of_task t)
     = Float32.mul (reward_estimate t) Float32.c0_8
  /\ dec_priority (decision_of_task t) = priority_to_Z (task_priority t)
  /\ dec_params (decision_of_task t) = task_params t
  /\ dec_params_len (decision_of_task t) = task_params_len t.
Proof. repeat split. Qed.

Lemma replan_single_failed_half planner i fp now t :
  plans planner !! i = Some fp ->
  plan_count planner < max_plans planner ->
  plan_tasks fp = [t] ->
  task_status t = CLS_PLAN_FAILED ->
  reward_estimate t = Float32.lit 1 2 ->
  exists planner' new t',
    cls_planner_replan planner i now
    = (CLS_OK, planner', Some (length (plans planner)))
    /\ plans planner' !! i = Some (set_plan_status CLS_PLAN_CANCELLED fp)
    /\ plans planner' !! length (plans planner) = Some new
    /\ plan_tasks new = [t']
    /\ task_action_id t' = task_action_id t
    /\ reward_estimate t' = Float32.lit 4 10.
Proof.
  intros Hi Hroom Htasks Hst Hrw.
  destruct (cancel_plan_lookup planner i fp Hi) as (H1 & H2 & H3 & H4).
  assert (Hlen : length (plans (cancel_plan i fp planner))
                 = length (plans planner)).
  { unfold plan_count in H3. lia. }
  assert (Hbatch : take 64 (spec_replan_batch (plan_tasks fp))
                   = [decision_of_task t]).
  { rewrite Htasks. unfold spec_replan_batch, pending_or_failed.
    cbn [List.filter]. rewrite Hst. reflexivity. }
  assert (Hacc : accepted (decision_of_task t) = true).
  { unfold accepted, decision_of_task. cbn [dec_confidence]. rewrite Hrw.
    vm_compute. reflexivity. }
  rewrite (replan_eq planner i fp now Hi), Hbatch.
  rewrite generate_accepts; [|discriminate|lia].
  cbn [new_tasks]. rewrite Hacc, Hlen.
  eexists _, _, _. split; [reflexivity|]. cbn [plans plan_tasks].
  split; [rewrite lookup_app_l by (rewrite Hlen; apply (lookup_lt_Some _ _ _ Hi));
          exact H1|].
  split; [apply list_lookup_middle; symmetry; exact Hlen|].
  split; [reflexivity|]. split; [reflexivity|].
  cbn [task_of_decision reward_estimate decision_of_task dec_confidence].
  rewrite Hrw. vm_compute. reflexivity.
Qed.

(** C6, as the code has it.  The replanner makes one decision per Pending or
    Failed task, in task order, with the task's action id, priority and
    params and with confidence [reward_estimate * 0.8f], but only for the
    first 64 such tasks (the size of its buffer); it returns
    [CLS_ERR_NOT_FOUND] and leaves the planner unchanged when no task
    qualifies; otherwise it sets the status of the old plan to
    [CLS_PLAN_CANCELLED] and returns what the generator returns on that
    batch, and the old plan is Cancelled in the planner it returns, whatever
    the generator's status.  A plan whose only task is Failed with reward 0.5
    yields, when the table has room, a new plan with one task of reward
    0.4f. *)
Theorem replan_discounts_first_64_unresolved planner i fp now :
  plans planner !! i = Some fp ->
  (forall t,
     dec_action_id (decision_of_task t) = task_action_id t
     /\ dec_confidence (decision_of_task t)
        = Float32.mul (reward_estimate t) Float32.c0_8
     /\ dec_priority (decision_of_task t) = priority_to_Z (task_priority t)
     /\ dec_params (decision_of_task t) = task_params t
     /\ dec_params_len (decision_of_task t) = task_params_len t)
  /\ ((forall t, In t (plan_tasks fp) -> ~ unresolved t) ->
      cls_planner_replan planner i now = (CLS_ERR_NOT_FOUND, planner, None))
  /\ (Exists unresolved (plan_tasks fp) ->
      exists planner1 fp',
        plans planner1 = <[i := fp']> (plans planner)
        /\ plan_status fp' = CLS_PLAN_CANCELLED
        /\ only_status_differs fp fp'
        /\ max_plans planner1 = max_plans planner
        /\ plans_generated planner1 = plans_generated planner
        /\ cls_planner_replan planner i now
           = cls_planner_generate planner1
               (take 64 (map decision_of_task
                           (List.filter pending_or_failed (plan_tasks fp))))
               now
        /\ plans (cls_planner_replan planner i now).1.2 !! i = Some fp')
  /\ (forall t,
        plan_count planner < max_plans planner ->
        plan_status fp = CLS_PLAN_FAILED ->
        plan_tasks fp = [t] ->
        task_status t = CLS_PLAN_FAILED ->
        reward_estimate t = Float32.lit 1 2 ->
        exists planner' fp' new t',
          cls_planner_replan planner i now
          = (CLS_OK, planner', Some (length (plans planner)))
          /\ plans planner' !! i = Some fp'
          /\ plan_status fp' = CLS_PLAN_CANCELLED
          /\ only_status_differs fp fp'
          /\ plans planner' !! length (plans planner) = Some new
          /\ plan_tasks new = [t']
          /\ task_action_id t' = task_action_id t
          /\ reward_estimate t' = Float32.lit 4 10).
Proof.
  intros Hi. split; [exact decision_of_task_fields|]. split; [|split].
  - intros Hnone. rewrite (replan_eq planner i fp now Hi).
    rewrite (proj2 (replan_batch_nil _) Hnone). reflexivity.
  - intros Hex.
    destruct (cancel_plan_status planner i fp Hi)
      as (fp' & Hplans & Hslot & Hst & Hsame).
    assert (Hrun : cls_planner_replan planner i now
                   = cls_planner_generate (cancel_plan i fp planner)
                       (take 64 (spec_replan_batch (plan_tasks fp))) now).
    { rewrite (replan_eq planner i fp now Hi).
      destruct (take 64 (spec_replan_batch (plan_tasks fp))) as [|d batch] eqn:E;
        [|reflexivity].
      exfalso. apply List.Exists_exists in Hex as (t & Ht & Hu).
      exact (proj1 (replan_batch_nil _) E t Ht Hu). }
    exists (cancel_plan i fp planner), fp'.
    split; [exact Hplans|]. split; [exact Hst|]. split; [exact Hsame|].
    split; [reflexivity|]. split; [reflexivity|]. split; [exact Hrun|].
    rewrite Hrun. apply generate_keeps_plans, Hslot.
  - intros t Hroom _ Htasks Hst Hrw.
    destruct (replan_single_failed_half planner i fp now t Hi Hroom Htasks Hst Hrw)
      as (planner' & new & t' & Hrun & Hold & Hnew & Hts & Hact & Hreward).
    exists planner', (set_plan_status CLS_PLAN_CANCELLED fp), new, t'.
    split; [exact Hrun|]. split; [exact Hold|]. split; [reflexivity|].
    split; [repeat split|]. repeat split; assumption.
Qed.

Lemma replan_discounts_first_64_unresolved_example :
  exists planner' fp' new t',
    cls_planner_replan
      (planner_with (plan_of_tasks CLS_PLAN_FAILED [demo_task CLS_PLAN_FAILED 0]) 8)
      0%nat 7
    = (CLS_OK, planner', Some 1%nat)
    /\ plans planner' !! 0%nat = Some fp'
    /\ plan_status fp' = CLS_PLAN_CANCELLED
    /\ plan_tasks fp' = [demo_task CLS_PLAN_FAILED 0]
    /\ plans planner' !! 1%nat = Some new
    /\ plan_tasks new = [t']
    /\ task_action_id t' = 10
    /\ reward_estimate t' = S754_finite false 13421773 (-25).
Proof.
  destruct (proj2 (proj2 (proj2
              (replan_discounts_first_64_unresolved
                 (planner_with
                    (plan_of_tasks CLS_PLAN_FAILED [demo_task CLS_PLAN_FAILED 0]) 8)
                 0%nat
                 (plan_of_tasks CLS_PLAN_FAILED [demo_task CLS_PLAN_FAILED 0])
                 7 eq_refl)))
              (demo_task CLS_PLAN_FAILED 0))
    as (planner' & fp' & new & t' & Hrun & Hold & Hst & Hsame & Hnew & Hts
        & Hact & Hreward); try reflexivity.
  exists planner', fp', new, t'.
  split; [exact Hrun|]. split; [exact Hold|]. split; [exact Hst|].
  split; [exact (proj1 (proj2 Hsame))|]. split; [exact Hnew|].
  split; [exact Hts|]. split; [exact Hact|].
  rewrite Hreward. vm_compute. reflexivity.
Defined.

(** C6, as the specification words it, fails on two inputs.  Of 65 Failed
    tasks the replanner feeds 64 to the generator, so the new plan has 64
    tasks where a batch of one decision per qualifying task gives 65.  And on
    a planner whose table is full, replanning the Failed plan whose single
    Failed task has reward 0.5 yields no new plan: the generator returns
    [CLS_ERR_OVERFLOW], the table still holds one plan, and that plan is
    Cancelled. *)
Lemma replan_leaves_out_65th_task_and_needs_room :
  (let tasks := map (demo_task CLS_PLAN_FAILED) (seq 0 65) in
   let fp := plan_of_tasks CLS_PLAN_FAILED tasks in
   let planner := planner_with fp 8 in
   Forall unresolved tasks
   /\ length (spec_replan_batch tasks) = 65%nat
   /\ (exists planner' new,
         cls_planner_replan planner 0%nat 7 = (CLS_OK, planner', Some 1%nat)
         /\ plans planner' !! 1%nat = Some new
         /\ task_count new = 64)
   /\ (exists planner' new,
         cls_planner_generate (cancel_plan 0%nat fp planner)
                              (spec_replan_batch tasks) 7
         = (CLS_OK, planner', Some 1%nat)
         /\ plans planner' !! 1%nat = Some new
         /\ task_count new = 65)
   /\ cls_planner_replan planner 0%nat 7
      <> cls_planner_generate (cancel_plan 0%nat fp planner)
                              (spec_replan_batch tasks) 7)
  /\ (let t := demo_task CLS_PLAN_FAILED 0 in
      let fp := plan_of_tasks CLS_PLAN_FAILED [t] in
      let planner := planner_with fp 1 in
      reward_estimate t = S754_finite false 8388608 (-24)
      /\ task_status t = CLS_PLAN_FAILED
      /\ plan_status fp = CLS_PLAN_FAILED
      /\ plan_count planner = max_plans planner
      /\ exists planner' fp',
           cls_planner_replan planner 0%nat 7
           = (CLS_ERR_OVERFLOW, planner', None)
           /\ plans planner' = [fp']
           /\ plan_status fp' = CLS_PLAN_CANCELLED
           /\ plan_tasks fp' = [t]).
Proof.
  split.
  - intros tasks fp planner.
    assert (H64 : exists planner' new,
               cls_planner_replan planner 0%nat 7 = (CLS_OK, planner', Some 1%nat)
               /\ plans planner' !! 1%nat = Some new /\ task_count new = 64).
    { eexists _, _. split; [vm_compute; reflexivity|]. split; reflexivity. }
    assert (H65 : exists planner' new,
               cls_planner_generate (cancel_plan 0%nat fp planner)
                                    (spec_replan_batch tasks) 7
               = (CLS_OK, planner', Some 1%nat)
               /\ plans planner' !! 1%nat = Some new /\ task_count new = 65).
    { eexists _, _. split; [vm_compute; reflexivity|]. split; reflexivity. }
    split; [|split; [|split; [|split]]]; try assumption.
    + apply Forall_forall. intros t Ht. apply list_elem_of_In, in_map_iff in Ht.
      destruct Ht as (k & <- & _). right. reflexivity.
    + reflexivity.
    + destruct H64 as (p1 & n1 & E1 & L1 & C1), H65 as (p2 & n2 & E2 & L2 & C2).
      rewrite E1, E2. intros [= ->]. rewrite L1 in L2. injection L2 as ->. lia.
  - intros t fp planner.
    split; [vm_compute; reflexivity|]. split; [reflexivity|].
    split; [reflexivity|]. split; [reflexivity|].
    eexists _, _. split; [vm_compute; reflexivity|].
    split; [reflexivity|]. split; reflexivity.
Qed.

Lemma replan_on_full_table_cancels_old_plan_example :
  exists planner' fp',
    cls_planner_replan
      (planner_with (plan_of_tasks CLS_PLAN_FAILED [demo_task CLS_PLAN_FAILED 0]) 1)
      0%nat 7
    = (CLS_ERR_OVERFLOW, planner', None)
    /\ plan_status (plan_of_tasks CLS_PLAN_FAILED [demo_task CLS_PLAN_FAILED 0])
       = CLS_PLAN_FAILED
    /\ plans planner' !! 0%nat = Some fp'
    /\ plan_status fp' = CLS_PLAN_CANCELLED
    /\ plan_tasks fp' = [demo_task CLS_PLAN_FAILED 0]
    /\ (forall j, j <> 0%nat ->
          plans planner' !! j
          = plans (planner_with
                     (plan_of_tasks CLS_PLAN_FAILED
                        [demo_task CLS_PLAN_FAILED 0]) 1) !! j)
    /\ plan_count planner' = 1.
Proof.
  destruct (replan_on_full_table_cancels_old_plan
              (planner_with
                 (plan_of_tasks CLS_PLAN_FAILED [demo_task CLS_PLAN_FAILED 0]) 1)
              0%nat
              (plan_of_tasks CLS_PLAN_FAILED [demo_task CLS_PLAN_FAILED 0]) 7)
    as (planner' & fp' & Hrun & Hslot & Hst & Hsame & Hrest & Hcount & _).
  - reflexivity.
  - apply Z.leb_le. reflexivity.
  - constructor. right. reflexivity.
  - exists planner', fp'. split; [exact Hrun|]. split; [reflexivity|].
    split; [exact Hslot|]. split; [exact Hst|].
    split; [exact (proj1 (proj2 Hsame))|]. split; [exact Hrest|].
    exact Hcount.
Defined.

(** ** Properties of the action executor *)

Section ExecutorProperties.
Context {W : Type} (time_us : M W Z).

Lemma find_record_none rs : forall id i,
  find_record rs id i = None <-> (forall r, In r rs -> exec_id r <> id).
Proof.
  induction rs as [|r0 rs IH]; intros id i; cbn [find_record].
  - split; [intros _ r [] | reflexivity].
  - destruct (Z.eqb_spec (exec_id r0) id) as [E|E].
    + split; [discriminate|]. intros H. exfalso.
      apply (H r0); [left; reflexivity | exact E].
    + rewrite IH. split.
      * intros H r [<-|Hr]; [exact E | apply H, Hr].
      * intros H r Hr. apply H. right. exact Hr.
Qed.

Lemma find_record_first rs : forall id i k r,
  first_record rs id k r -> find_record rs id i = Some ((i + k)%nat, r).
Proof.
  induction rs as [|r0 rs IH]; intros id i k r (Hk & Hid & Hfirst).
  - discriminate.
  - cbn [find_record]. destruct k as [|k].
    + cbn in Hk. injection Hk as ->. rewrite <- Hid, Z.eqb_refl.
      do 2 f_equal. lia.
    + destruct (Z.eqb_spec (exec_id r0) id) as [E|E].
      * exfalso. apply (Hfirst 0%nat r0); [lia | reflexivity | exact E].
      * rewrite (IH id (S i) k r); [do 2 f_equal; lia|].
        split; [exact Hk|]. split; [exact Hid|].
        intros j rj Hj Hl. apply (Hfirst (S j) rj); [lia | exact Hl].
Qed.

Lemma find_record_some rs : forall id i k r,
  find_record rs id i = Some (k, r) ->
  exists k', k = (i + k')%nat /\ first_record rs id k' r.
Proof.
  induction rs as [|r0 rs IH]; intros id i k r; cbn [find_record].
  - discriminate.
  - destruct (Z.eqb_spec (exec_id r0) id) as [E|E].
    + intros [= <- <-]. exists 0%nat. split; [lia|].
      split; [reflexivity|]. split; [exact E|]. intros j rj Hj. lia.
    + intros H. destruct (IH _ _ _ _ H) as (k' & -> & Hk & Hid & Hfirst).
      exists (S k'). split; [lia|]. split; [exact Hk|]. split; [exact Hid|].
      intros [|j] rj Hj Hl.
      * cbn in Hl. injection Hl as <-. exact E.
      * apply (Hfirst j rj); [lia | exact Hl].
Qed.

(** The outcome of [cls_action_execute] when a handler is found. *)
Lemma execute_found exec action_id params params_len w h
      started w1 result w2 completed w3 :
  find_handler exec action_id = Some h ->
  time_us w = (started, w1) ->
  execute_fn h action_id params params_len w1 = (result, w2) ->
  time_us w2 = (completed, w3) ->
  let rec :=
    {| exec_id := next_exec_id exec;
       rec_action_id := action_id;
       rec_status := if CLS_IS_OK result then CLS_ACTION_SUCCESS
                     else CLS_ACTION_FAILED;
       rec_started_at := started;
       rec_completed_at := completed;
       duration_us := u64 (completed - started);
       result_code := status_code result;
       rolled_back := false |} in
  cls_action_execute time_us exec action_id params params_len w
  = ((result,
      {| handlers := handlers exec;
         max_handlers := max_handlers exec;
         history :=
           <[Z.to_nat (history_count exec mod max_history exec) := rec]>
             (history exec);
         history_count :=
           if history_count exec <? max_history exec
           then u32 (history_count exec + 1) else history_count exec;
         max_history := max_history exec;
         next_exec_id := u32 (next_exec_id exec + 1);
         total_executed := u64 (total_executed exec + 1);
         total_success :=
           if CLS_IS_OK result then u64 (total_success exec + 1)
           else total_success exec;
         total_failed :=
           if CLS_IS_OK result then total_failed exec
           else u64 (total_failed exec + 1);
         total_rollbacks := total_rollbacks exec |},
      Some rec), w3).
Proof.
  intros Hh H1 H2 H3. unfold cls_action_execute. rewrite Hh.
  unfold mbind, M_bind, mret, M_ret. rewrite H1, H2, H3.
  destruct (CLS_IS_OK result); reflexivity.
Qed.

Lemma execute_not_found exec action_id params params_len w :
  find_handler exec action_id = None ->
  cls_action_execute time_us exec action_id params params_len w
  = ((CLS_ERR_NOT_FOUND, exec, None), w).
Proof. intros Hh. unfold cls_action_execute. rewrite Hh. reflexivity. Qed.

(** However calls are counted in the world, one execution is one call of
    the handler's [execute_fn]. *)
Lemma execute_calls_handler_once exec action_id params params_len w h
      (calls : W -> nat) :
  find_handler exec action_id = Some h ->
  (forall w', calls (time_us w').2 = calls w') ->
  (forall w', calls (execute_fn h action_id params params_len w').2
              = S (calls w')) ->
  calls (cls_action_execute time_us exec action_id params params_len w).2
  = S (calls w).
Proof.
  intros Hh Hclock Hcall.
  destruct (time_us w) as [started w1] eqn:E1.
  destruct (execute_fn h action_id params params_len w1) as [result w2] eqn:E2.
  destruct (time_us w2) as [completed w3] eqn:E3.
  rewrite (execute_found exec action_id params params_len w h _ _ _ _ _ _
             Hh E1 E2 E3).
  cbn [snd].
  pose proof (Hclock w) as H1. rewrite E1 in H1.
  pose proof (Hcall w1) as H2. rewrite E2 in H2.
  pose proof (Hclock w2) as H3. rewrite E3 in H3.
  cbn [snd] in H1, H2, H3. congruence.
Qed.

(** The shape of the history array is kept by every write. *)
Lemma record_action_history_array (exec : cls_action_exec_t W) rec :
  history_array exec -> history_array (record_action exec rec).
Proof.
  intros [Hpos Hlen]. unfold history_array, record_action.
  cbn [set_history max_history history]. rewrite length_insert. auto.
Qed.

Lemma init_history_array mh mhist (exec : cls_action_exec_t W) :
  cls_action_init mh mhist = (CLS_OK, Some exec) ->
  0 < mhist -> history_array exec.
Proof.
  unfold cls_action_init. destruct (mh =? 0); [discriminate|].
  intros [= <-] Hpos. split; [exact Hpos|].
  cbn [history max_history]. apply repeat_length.
Qed.

(** The scenario: one handler that always succeeds, one that always fails. *)
Lemma execute_ok_then_fail mh mhist exec0 h1 h2 w params params_len :
  cls_action_init mh mhist = (CLS_OK, Some exec0) ->
  2 <= mh -> 0 < mhist ->
  h_action_id h1 = 1 -> h_action_id h2 = 2 ->
  (forall a p l w', (execute_fn h1 a p l w').1 = CLS_OK) ->
  (forall a p l w', (execute_fn h2 a p l w').1 <> CLS_OK) ->
  exists exec1 exec2 exec3 exec4 r1 r2 res2 w1 w2,
    cls_action_register exec0 h1 = (CLS_OK, exec1)
    /\ cls_action_register exec1 h2 = (CLS_OK, exec2)
    /\ cls_action_execute time_us exec2 1 params params_len w
       = ((CLS_OK, exec3, Some r1), w1)
    /\ rec_status r1 = CLS_ACTION_SUCCESS
    /\ cls_action_execute time_us exec3 2 params params_len w1
       = ((res2, exec4, Some r2), w2)
    /\ res2 <> CLS_OK
    /\ rec_status r2 = CLS_ACTION_FAILED
    /\ cls_action_stats exec4 = (2, 1, 1, 0).
Proof.
  intros Hinit Hmh Hhist Hid1 Hid2 Hok Hfail.
  unfold cls_action_init in Hinit.
  destruct (Z.eqb_spec mh 0) as [|_]; [lia|]. injection Hinit as <-.
  assert (Hr1 : cls_action_register
                  (mk_exec [] mh (repeat zero_record (Z.to_nat mhist)) 0
                           mhist 1 0 0 0 0) h1
                = (CLS_OK,
                   mk_exec [h1] mh (repeat zero_record (Z.to_nat mhist)) 0
                           mhist 1 0 0 0 0)).
  { unfold cls_action_register, handler_count. cbn [handlers length max_handlers].
    destruct (Z.geb_spec (Z.of_nat 0) mh); [lia | reflexivity]. }
  assert (Hr2 : cls_action_register
                  (mk_exec [h1] mh (repeat zero_record (Z.to_nat mhist)) 0
                           mhist 1 0 0 0 0) h2
                = (CLS_OK,
                   mk_exec [h1; h2] mh (repeat zero_record (Z.to_nat mhist)) 0
                           mhist 1 0 0 0 0)).
  { unfold cls_action_register, handler_count.
    cbn [handlers length max_handlers existsb].
    destruct (Z.geb_spec (Z.of_nat 1) mh); [lia|].
    rewrite Hid1, Hid2. reflexivity. }
  set (exec2 := mk_exec [h1; h2] mh (repeat zero_record (Z.to_nat mhist)) 0
                        mhist 1 0 0 0 0) in *.
  assert (Hf1 : find_handler exec2 1 = Some h1).
  { unfold find_handler. cbn. rewrite Hid1. reflexivity. }
  destruct (time_us w) as [s1 wa] eqn:Ea.
  destruct (execute_fn h1 1 params params_len wa) as [res1 wb] eqn:Eb.
  destruct (time_us wb) as [c1 w1] eqn:Ec.
  assert (res1 = CLS_OK) as -> by (rewrite <- (Hok 1 params params_len wa), Eb; reflexivity).
  pose proof (execute_found exec2 1 params params_len w h1 _ _ _ _ _ _
                Hf1 Ea Eb Ec) as Hx1.
  cbv zeta in Hx1. cbn [CLS_IS_OK] in Hx1.
  match type of Hx1 with _ = ((_, ?e, _), _) => set (exec3 := e) in * end.
  assert (Hf2 : find_handler exec3 2 = Some h2).
  { unfold find_handler. cbn. rewrite Hid1, Hid2. reflexivity. }
  destruct (time_us w1) as [s2 wc] eqn:Ed.
  destruct (execute_fn h2 2 params params_len wc) as [res2 wd] eqn:Ee.
  destruct (time_us wd) as [c2 w2] eqn:Ef.
  assert (Hres2 : res2 <> CLS_OK).
  { intros ->. apply (Hfail 2 params params_len wc). rewrite Ee. reflexivity. }
  pose proof (execute_found exec3 2 params params_len w1 h2 _ _ _ _ _ _
                Hf2 Ed Ee Ef) as Hx2.
  cbv zeta in Hx2.
  assert (Hnok : CLS_IS_OK res2 = false)
    by (destruct res2; try reflexivity; contradiction).
  rewrite Hnok in Hx2.
  eexists _, _, _, _, _, _, _, _, _.
  split; [exact Hr1|]. split; [exact Hr2|]. split; [exact Hx1|].
  split; [reflexivity|]. split; [exact Hx2|]. split; [exact Hres2|].
  split; reflexivity.
Qed.

(** C4.  [cls_action_execute] returns [CLS_ERR_NOT_FOUND] and leaves the
    executor and the world as they are when no handler has the action id.
    Otherwise (on an executor whose history array has its slots) it reads
    the clock, runs the handler's [execute_fn] once (however calls are
    counted in the world, the count grows by one), reads the clock again,
    and returns the handler's result; the record it writes to the history
    has status Success when that result is [CLS_OK] and Failed otherwise;
    [total_executed] and exactly one of [total_success], [total_failed]
    grow by one.  After registering a handler that always succeeds for
    action 1 and one that always fails for action 2 and executing each
    once, the statistics are executed=2, success=1, failed=1. *)
Theorem execute_records_handler_result exec action_id params params_len w :
  (find_handler exec action_id = None ->
   cls_action_execute time_us exec action_id params params_len w
   = ((CLS_ERR_NOT_FOUND, exec, None), w))
  /\ (forall h started w1 result w2 completed w3,
        find_handler exec action_id = Some h ->
        history_array exec ->
        time_us w = (started, w1) ->
        execute_fn h action_id params params_len w1 = (result, w2) ->
        time_us w2 = (completed, w3) ->
        exists exec' rec,
          cls_action_execute time_us exec action_id params params_len w
          = ((result, exec', Some rec), w3)
          /\ exec_id rec = next_exec_id exec
          /\ rec_action_id rec = action_id
          /\ rec_status rec = (if CLS_IS_OK result then CLS_ACTION_SUCCESS
                               else CLS_ACTION_FAILED)
          /\ rec_started_at rec = started
          /\ rec_completed_at rec = completed
          /\ result_code rec = status_code result
          /\ rolled_back rec = false
          /\ history exec'
               !! Z.to_nat (history_count exec mod max_history exec)
             = Some rec
          /\ (forall j,
                j <> Z.to_nat (history_count exec mod max_history exec) ->
                history exec' !! j = history exec !! j)
          /\ history_count exec'
             = (if history_count exec <? max_history exec
                then u32 (history_count exec + 1) else history_count exec)
          /\ total_executed exec' = u64 (total_executed exec + 1)
          /\ (result = CLS_OK ->
                total_success exec' = u64 (total_success exec + 1)
                /\ total_failed exec' = total_failed exec)
          /\ (result <> CLS_OK ->
                total_failed exec' = u64 (total_failed exec + 1)
                /\ total_success exec' = total_success exec)
          /\ total_rollbacks exec' = total_rollbacks exec
          /\ handlers exec' = handlers exec)
  /\ (forall h (calls : W -> nat),
        find_handler exec action_id = Some h ->
        (forall w', calls (time_us w').2 = calls w') ->
        (forall w', calls (execute_fn h action_id params params_len w').2
                    = S (calls w')) ->
        calls (cls_action_execute time_us exec action_id params params_len w).2
        = S (calls w))
  /\ (forall mh mhist exec0 h1 h2,
        cls_action_init mh mhist = (CLS_OK, Some exec0) ->
        2 <= mh -> 0 < mhist ->
        h_action_id h1 = 1 -> h_action_id h2 = 2 ->
        (forall a p l w', (execute_fn h1 a p l w').1 = CLS_OK) ->
        (forall a p l w', (execute_fn h2 a p l w').1 <> CLS_OK) ->
        exists exec1 exec2 exec3 exec4 r1 r2 res2 w1 w2,
          cls_action_register exec0 h1 = (CLS_OK, exec1)
          /\ cls_action_register exec1 h2 = (CLS_OK, exec2)
          /\ cls_action_execute time_us exec2 1 params params_len w
             = ((CLS_OK, exec3, Some r1), w1)
          /\ rec_status r1 = CLS_ACTION_SUCCESS
          /\ cls_action_execute time_us exec3 2 params params_len w1
             = ((res2, exec4, Some r2), w2)
          /\ res2 <> CLS_OK
          /\ rec_status r2 = CLS_ACTION_FAILED
          /\ cls_action_stats exec4 = (2, 1, 1, 0)).
Proof.
  split; [apply execute_not_found|]. split.
  - intros h started w1 result w2 completed w3 Hh [Hpos Hlen] H1 H2 H3.
    rewrite (execute_found exec action_id params params_len w h _ _ _ _ _ _
               Hh H1 H2 H3).
    eexists _, _. split; [reflexivity|].
    cbn [exec_id rec_action_id rec_status rec_started_at rec_completed_at
         result_code rolled_back history history_count total_executed
         total_success total_failed total_rollbacks handlers].
    repeat (split; [reflexivity|]).
    split.
    { apply list_lookup_insert_eq. rewrite Hlen.
      pose proof (Z.mod_pos_bound (history_count exec) (max_history exec) Hpos).
      lia. }
    split.
    { intros j Hj. apply list_lookup_insert_ne. congruence. }
    split; [reflexivity|]. split; [reflexivity|].
    split; [intros ->; split; reflexivity|].
    split; [|split; reflexivity].
    intros Hne. destruct result; try contradiction; split; reflexivity.
  - split; [apply execute_calls_handler_once|].
    intros mh mhist exec0 h1 h2. apply execute_ok_then_fail.
Qed.

Lemma first_record_insert rs id i r r' :
  exec_id r' = exec_id r ->
  first_record rs id i r -> first_record (<[i := r']> rs) id i r'.
Proof.
  intros He (Hi & Hid & Hfirst). split; [|split].
  - apply list_lookup_insert_eq, (lookup_lt_Some _ _ _ Hi).
  - congruence.
  - intros j rj Hj Hl. rewrite list_lookup_insert_ne in Hl by lia.
    apply (Hfirst j rj Hj Hl).
Qed.

Lemma rollback_not_found exec id (w : W) :
  (forall r, In r (visible_history exec) -> exec_id r <> id) ->
  cls_action_rollback exec id w = ((CLS_ERR_NOT_FOUND, exec), w).
Proof.
  intros Hnone. unfold cls_action_rollback.
  rewrite (proj2 (find_record_none _ id 0%nat) Hnone). reflexivity.
Qed.

Lemma rollback_already_done exec id (w : W) i r :
  first_record (visible_history exec) id i r ->
  rolled_back r = true ->
  cls_action_rollback exec id w = ((CLS_ERR_STATE, exec), w).
Proof.
  intros Hfirst Hrb. unfold cls_action_rollback.
  rewrite (find_record_first _ id 0%nat i r Hfirst), Hrb. reflexivity.
Qed.

Lemma rollback_no_rollback_fn exec id (w : W) i r h :
  first_record (visible_history exec) id i r ->
  rolled_back r = false ->
  find_handler exec (rec_action_id r) = Some h ->
  rollback_fn h = None ->
  cls_action_rollback exec id w = ((CLS_ERR_INVALID, exec), w).
Proof.
  intros Hfirst Hrb Hh Hfn. unfold cls_action_rollback.
  rewrite (find_record_first _ id 0%nat i r Hfirst), Hrb, Hh, Hfn.
  reflexivity.
Qed.

(** A rollback that returns [CLS_OK] has marked the first record with the
    id, which stays the first record with the id. *)
Lemma rollback_ok_marks exec id (w : W) exec' w' :
  cls_action_rollback exec id w = ((CLS_OK, exec'), w') ->
  exists i r,
    first_record (visible_history exec') id i r /\ rolled_back r = true.
Proof.
  unfold cls_action_rollback.
  destruct (find_record (visible_history exec) id 0%nat) as [[i r]|] eqn:Ef;
    [|intros [=]].
  destruct (find_record_some _ _ _ _ _ Ef) as (k & -> & Hfirst).
  cbn [Nat.add].
  destruct (rolled_back r); [intros [=]|].
  destruct (find_handler exec (rec_action_id r)) as [h|]; [|intros [=]].
  destruct (rollback_fn h) as [f|]; [|intros [=]].
  unfold mbind, M_bind, mret, M_ret.
  destruct (f (rec_action_id r) 0 0 w) as [res w1].
  destruct res; cbn [CLS_IS_OK]; intros [= <- <-];
    try match goal with H : _ = CLS_OK |- _ => discriminate H end.
  exists k, (mark_rolled_back r). split; [|reflexivity].
  unfold visible_history.
  cbn [set_totals set_history history history_count max_history].
  fold (visible_history exec).
  assert (Hk : (k < length (visible_history exec))%nat)
    by (destruct Hfirst as (Hk & _); apply (lookup_lt_Some _ _ _ Hk)).
  unfold visible_history in Hk |- *. rewrite length_take in Hk.
  rewrite take_insert_lt by lia.
  apply (first_record_insert _ _ _ r); [reflexivity | exact Hfirst].
Qed.

(** C5.  [cls_action_rollback] returns [CLS_ERR_NOT_FOUND] when no record
    of the history has the id, [CLS_ERR_STATE] when the record with the id
    is already rolled back, and [CLS_ERR_INVALID] when the handler of the
    record's action has no [rollback_fn]; after an execution that returned
    [CLS_OK] and one rollback of its [exec_id] that returned [CLS_OK], a
    second rollback of that id returns [CLS_ERR_STATE]. *)
Theorem rollback_refusals exec id w :
  ((forall r, In r (visible_history exec) -> exec_id r <> id) ->
   cls_action_rollback exec id w = ((CLS_ERR_NOT_FOUND, exec), w))
  /\ (forall i r,
        first_record (visible_history exec) id i r ->
        rolled_back r = true ->
        cls_action_rollback exec id w = ((CLS_ERR_STATE, exec), w))
  /\ (forall i r h,
        first_record (visible_history exec) id i r ->
        rolled_back r = false ->
        find_handler exec (rec_action_id r) = Some h ->
        rollback_fn h = None ->
        cls_action_rollback exec id w = ((CLS_ERR_INVALID, exec), w))
  /\ (forall action_id params params_len exec1 rec w1 exec2 w2 w3,
        cls_action_execute time_us exec action_id params params_len w
        = ((CLS_OK, exec1, Some rec), w1) ->
        exec_id rec = id ->
        cls_action_rollback exec1 id w1 = ((CLS_OK, exec2), w2) ->
        cls_action_rollback exec2 id w3 = ((CLS_ERR_STATE, exec2), w3)).
Proof.
  split; [apply rollback_not_found|].
  split; [apply rollback_already_done|].
  split; [apply rollback_no_rollback_fn|].
  intros action_id params params_len exec1 rec w1 exec2 w2 w3 _ _ Hrb.
  destruct (rollback_ok_marks _ _ _ _ _ Hrb) as (i & r & Hfirst & Hdone).
  apply (rollback_already_done exec2 id w3 i r Hfirst Hdone).
Qed.

(** C10.  When no handler has the task's action id,
    [cls_action_execute_task] returns [CLS_ERR_NOT_FOUND]; the task is made
    Active with [started_at] stamped, and then Failed with [completed_at]
    stamped; the executor (history, counters) is returned as it was and no
    record is produced. *)
Theorem execute_task_unregistered_fails_task exec task w
        started w1 completed w2 :
  find_handler exec (task_action_id task) = None ->
  time_us w = (started, w1) ->
  time_us w1 = (completed, w2) ->
  exists exec' task',
    cls_action_execute_task time_us exec task w
    = ((CLS_ERR_NOT_FOUND, exec', task', None), w2)
    /\ task_status (execute_task_begin started task) = CLS_PLAN_ACTIVE
    /\ task' = execute_task_end completed CLS_ERR_NOT_FOUND
                 (execute_task_begin started task)
    /\ task_status task' = CLS_PLAN_FAILED
    /\ started_at task' = started
    /\ completed_at task' = completed
    /\ exec' = exec
    /\ history exec' = history exec
    /\ history_count exec' = history_count exec
    /\ cls_action_stats exec' = cls_action_stats exec.
Proof.
  intros Hh H1 H2. exists exec. eexists. split; [|repeat split].
  unfold cls_action_execute_task, mbind, M_bind, mret, M_ret.
  rewrite H1.
  change (task_action_id (execute_task_begin started task))
    with (task_action_id task).
  rewrite (execute_not_found exec _ _ _ w1 Hh), H2. reflexivity.
Qed.
End ExecutorProperties.

(** ** The history at capacity *)

(** Once [history_count] has reached [max_history] it stays there, so the
    write index [history_count % max_history] is 0 from then on. *)
Lemma record_action_at_capacity {W} (exec : cls_action_exec_t W) rec :
  0 < max_history exec ->
  history_count exec = max_history exec ->
  record_action exec rec
  = set_history (<[0%nat := rec]> (history exec)) (history_count exec) exec.
Proof.
  intros Hpos Hfull. unfold record_action.
  rewrite Hfull, Z.mod_same, Z.ltb_irrefl by lia. reflexivity.
Qed.

(** So of two records written to a full history, the second overwrites the
    first, whatever the capacity. *)
Lemma record_action_twice_at_capacity {W} (exec : cls_action_exec_t W) r1 r2 :
  0 < max_history exec ->
  history_count exec = max_history exec ->
  history (record_action (record_action exec r1) r2)
  = <[0%nat := r2]> (history exec).
Proof.
  intros Hpos Hfull.
  rewrite (record_action_at_capacity exec r1 Hpos Hfull).
  rewrite record_action_at_capacity by assumption.
  cbn [set_history history]. apply list_insert_insert_eq.
Qed.

(** C8 on the code.  With two history slots, the third execution overwrites
    the first record, as the specification's scenario says; the fourth
    overwrites the third, the newest, and the second, the oldest retained
    record, stays. *)
Theorem fourth_execute_evicts_newest_record :
  (let exec3 := (execute_n 3 (demo_exec 2) 0).1 in
   cls_action_get_record exec3 1 = (CLS_ERR_NOT_FOUND, None)
   /\ (cls_action_get_record exec3 2).1 = CLS_OK
   /\ (cls_action_get_record exec3 3).1 = CLS_OK)
  /\ (let exec4 := (execute_n 4 (demo_exec 2) 0).1 in
      map exec_id (history exec4) = [4; 2]
      /\ (cls_action_get_record exec4 2).1 = CLS_OK
      /\ cls_action_get_record exec4 3 = (CLS_ERR_NOT_FOUND, None)
      /\ (cls_action_get_record exec4 4).1 = CLS_OK).
Proof. vm_compute. repeat split. Qed.

(** ** Instances of the statements on sample data *)

Lemma next_task_first_highest_candidate_example :
  exists t,
    plan_tasks scheduler_plan !! 2%nat = Some t
    /\ candidate scheduler_plan t
    /\ forall j tj,
         plan_tasks scheduler_plan !! j = Some tj ->
         candidate scheduler_plan tj ->
         prio tj <= prio t /\ (prio tj = prio t -> (2 <= j)%nat).
Proof.
  apply (proj1 (next_task_first_highest_candidate scheduler_plan) 2%nat).
  reflexivity.
Defined.

Lemma complete_task_updates_task_and_plan_example :
  exists plan',
    cls_plan_complete_task scheduler_plan 4 true 7 = (CLS_OK, plan')
    /\ completes scheduler_plan 3%nat true 7 plan'
    /\ forall success2 now2,
         exists plan'',
           cls_plan_complete_task plan' 4 success2 now2 = (CLS_OK, plan'')
           /\ completes plan' 3%nat success2 now2 plan''.
Proof.
  apply (proj2 (complete_task_updates_task_and_plan scheduler_plan 4 true 7)
               3%nat (dep_task 4 CLS_PRIORITY_HIGH CLS_PLAN_PENDING [])).
  split; [reflexivity|]. split; [reflexivity|].
  intros [|[|[|j]]] tj Hj; [intros [= <-]; discriminate ..|lia].
Defined.

Lemma execute_records_handler_result_example :
  exists exec' rec,
    cls_action_execute tick (demo_exec 2) 1 0 0 5
    = ((CLS_OK, exec', Some rec), 7)
    /\ rec_status rec = CLS_ACTION_SUCCESS
    /\ history exec' !! 0%nat = Some rec
    /\ cls_action_stats exec' = (1, 1, 0, 0).
Proof.
  destruct (proj1 (proj2 (execute_records_handler_result
                            tick (demo_exec 2) 1 0 0 5))
                  handler_ok 5 6 CLS_OK 6 6 7)
    as (exec' & rec & Hrun & _ & _ & Hst & _ & _ & _ & _ & Hslot & _ & _
        & Hex & Hok & _ & Hrb & _).
  - reflexivity.
  - split; reflexivity.
  - reflexivity.
  - reflexivity.
  - reflexivity.
  - exists exec', rec. split; [exact Hrun|]. split; [exact Hst|].
    split; [exact Hslot|]. unfold cls_action_stats.
    destruct (Hok eq_refl) as [Hs Hf]. rewrite Hex, Hs, Hf, Hrb. reflexivity.
Defined.

Lemma rollback_refusals_example :
  cls_action_rollback
    (cls_action_rollback (execute_n 1 (demo_exec 2) 0).1 1 2).1.2 1 2
  = ((CLS_ERR_STATE,
      (cls_action_rollback (execute_n 1 (demo_exec 2) 0).1 1 2).1.2), 2).
Proof.
  apply (proj2 (proj2 (proj2 (rollback_refusals tick (demo_exec 2) 1 0)))
               1 0 0 (execute_n 1 (demo_exec 2) 0).1
               (mk_record 1 1 CLS_ACTION_SUCCESS 0 1 1 0 false) 2 _ 2 2).
  - reflexivity.
  - reflexivity.
  - reflexivity.
Defined.

Lemma execute_task_unregistered_fails_task_example :
  exists exec' task',
    cls_action_execute_task tick (demo_exec 2)
      (dep_task 1 CLS_PRIORITY_NORMAL CLS_PLAN_PENDING []) 5
    = ((CLS_ERR_NOT_FOUND, exec', task', None), 7)
    /\ task_status task' = CLS_PLAN_FAILED
    /\ started_at task' = 5
    /\ completed_at task' = 6
    /\ exec' = demo_exec 2.
Proof.
  destruct (execute_task_unregistered_fails_task tick (demo_exec 2)
              (dep_task 1 CLS_PRIORITY_NORMAL CLS_PLAN_PENDING []) 5 5 6 6 7)
    as (exec' & task' & Hrun & _ & _ & Hst & Hs & Hc & He & _).
  - reflexivity.
  - reflexivity.
  - reflexivity.
  - exists exec', task'. repeat split; assumption.
Defined.

(** * Further properties *)

(** ** The goal table *)

Lemma find_goal_none gs : forall id i,
  find_goal gs id i = None <-> (forall g, In g gs -> goal_id g <> id).
Proof.
  induction gs as [|g0 gs IH]; intros id i; cbn [find_goal].
  - split; [intros _ g [] | reflexivity].
  - destruct (Z.eqb_spec (goal_id g0) id) as [E|E].
    + split; [discriminate|]. intros H. exfalso.
      apply (H g0); [left; reflexivity | exact E].
    + rewrite IH. split.
      * intros H g [<-|Hg]; [exact E | apply H, Hg].
      * intros H g Hg. apply H. right. exact Hg.
Qed.

Lemma find_goal_first gs : forall id i k g,
  first_goal gs id k g -> find_goal gs id i = Some (i + k)%nat.
Proof.
  induction gs as [|g0 gs IH]; intros id i k g (Hk & Hid & Hfirst).
  - discriminate.
  - cbn [find_goal]. destruct k as [|k].
    + cbn in Hk. injection Hk as ->. rewrite <- Hid, Z.eqb_refl.
      f_equal. lia.
    + destruct (Z.eqb_spec (goal_id g0) id) as [E|E].
      * exfalso. apply (Hfirst 0%nat g0); [lia | reflexivity | exact E].
      * rewrite (IH id (S i) k g); [f_equal; lia|].
        split; [exact Hk|]. split; [exact Hid|].
        intros j gj Hj Hl. apply (Hfirst (S j) gj); [lia | exact Hl].
Qed.

Lemma find_goal_some gs : forall id i k,
  find_goal gs id i = Some k ->
  exists k' g, k = (i + k')%nat /\ first_goal gs id k' g.
Proof.
  induction gs as [|g0 gs IH]; intros id i k; cbn [find_goal].
  - discriminate.
  - destruct (Z.eqb_spec (goal_id g0) id) as [E|E].
    + intros [= <-]. exists 0%nat, g0. split; [lia|].
      split; [reflexivity|]. split; [exact E|]. intros j gj Hj. lia.
    + intros H. destruct (IH _ _ _ H) as (k' & g & -> & Hk & Hid & Hfirst).
      exists (S k'), g. split; [lia|]. split; [exact Hk|]. split; [exact Hid|].
      intros [|j] gj Hj Hl.
      * cbn in Hl. injection Hl as <-. exact E.
      * apply (Hfirst j gj); [lia | exact Hl].
Qed.

Lemma find_goal_app gs1 gs2 id i :
  find_goal (gs1 ++ gs2) id i
  = match find_goal gs1 id i with
    | Some k => Some k
    | None => find_goal gs2 id (i + length gs1)
    end.
Proof.
  revert i. induction gs1 as [|g gs1 IH]; intros i; cbn [app find_goal length].
  - f_equal. lia.
  - destruct (goal_id g =? id); [reflexivity|].
    rewrite IH. destruct (find_goal gs1 id (S i)); [reflexivity|].
    f_equal. lia.
Qed.

(** X1.  A run of [cls_planner_add_goal] calls on a table that is within its
    capacity keeps the goals already there, appends the new ones in order
    until the table holds [max_goals] goals, and drops every later one. *)
Theorem add_goals_fills_to_capacity gt gs :
  goal_count gt <= max_goals gt ->
  goals (add_goals gt gs)
  = take (Z.to_nat (max_goals gt)) (goals gt ++ gs)
  /\ max_goals (add_goals gt gs) = max_goals gt.
Proof.
  unfold add_goals. revert gt.
  induction gs as [|g gs IH]; intros gt Hcap; cbn [fold_left].
  - rewrite app_nil_r, take_ge by (unfold goal_count in Hcap; lia). auto.
  - unfold cls_planner_add_goal at 2 4.
    destruct (Z.geb_spec (goal_count gt) (max_goals gt)) as [Hfull|Hroom];
      cbn [snd].
    + destruct (IH gt Hcap) as [IH1 IH2]. split; [|exact IH2].
      rewrite IH1. unfold goal_count in *.
      rewrite !take_app_le by lia. reflexivity.
    + destruct (IH (mk_goal_table (goals gt ++ [g]) (max_goals gt)))
        as [IH1 IH2].
      { unfold goal_count in *. cbn [goals max_goals].
        rewrite length_app. cbn [length]. lia. }
      cbn [goals max_goals] in IH1, IH2. split; [|exact IH2].
      rewrite IH1, <- app_assoc. reflexivity.
Qed.

Lemma add_goals_fills_to_capacity_example :
  goals (add_goals (mk_goal_table [] 2)
           [mk_goal 1 0 CLS_PRIORITY_LOW Float32.zero Float32.zero false;
            mk_goal 2 0 CLS_PRIORITY_LOW Float32.zero Float32.zero false;
            mk_goal 3 0 CLS_PRIORITY_LOW Float32.zero Float32.zero false])
  = [mk_goal 1 0 CLS_PRIORITY_LOW Float32.zero Float32.zero false;
     mk_goal 2 0 CLS_PRIORITY_LOW Float32.zero Float32.zero false].
Proof.
  apply (add_goals_fills_to_capacity (mk_goal_table [] 2)).
  apply Z.leb_le. reflexivity.
Defined.

(** X2.  After a successful [cls_planner_add_goal], looking the new goal's
    id up returns the new goal, unless an older goal already has that id:
    then the older goal is still the one returned ([cls_planner_add_goal]
    does not check ids).  Lookups of other ids are unchanged. *)
Theorem add_goal_then_get gt g gt' :
  cls_planner_add_goal gt g = (CLS_OK, gt') ->
  goal_with_id gt' (goal_id g)
  = match goal_with_id gt (goal_id g) with
    | Some older => Some older
    | None => Some g
    end
  /\ (forall id, id <> goal_id g -> goal_with_id gt' id = goal_with_id gt id).
Proof.
  unfold cls_planner_add_goal.
  destruct (goal_count gt >=? max_goals gt); [discriminate|].
  intros [= <-]. unfold goal_with_id, cls_planner_get_goal. cbn [goals].
  split.
  - rewrite find_goal_app.
    destruct (find_goal (goals gt) (goal_id g) 0%nat) as [k|] eqn:E.
    + destruct (find_goal_some _ _ _ _ E) as (k' & g0 & -> & Hk & _).
      cbn [Nat.add]. rewrite lookup_app_l by (apply (lookup_lt_Some _ _ _ Hk)).
      rewrite Hk. reflexivity.
    + cbn [find_goal Nat.add]. rewrite Z.eqb_refl.
      apply list_lookup_middle. reflexivity.
  - intros id Hid. rewrite find_goal_app.
    destruct (find_goal (goals gt) id 0%nat) as [k|] eqn:E.
    + destruct (find_goal_some _ _ _ _ E) as (k' & g0 & -> & Hk & _).
      cbn [Nat.add]. apply lookup_app_l, (lookup_lt_Some _ _ _ Hk).
    + cbn [find_goal]. destruct (Z.eqb_spec (goal_id g) id); [congruence|].
      reflexivity.
Qed.

Lemma add_goal_then_get_example :
  goal_with_id
    (mk_goal_table
       [mk_goal 1 0 CLS_PRIORITY_LOW Float32.zero Float32.zero false;
        mk_goal 1 7 CLS_PRIORITY_HIGH Float32.zero Float32.zero false] 4) 1
  = Some (mk_goal 1 0 CLS_PRIORITY_LOW Float32.zero Float32.zero false).
Proof.
  destruct (add_goal_then_get
              (mk_goal_table
                 [mk_goal 1 0 CLS_PRIORITY_LOW Float32.zero Float32.zero false]
                 4)
              (mk_goal 1 7 CLS_PRIORITY_HIGH Float32.zero Float32.zero false)
              _ eq_refl) as [H _].
  exact H.
Defined.

(** X3.  [cls_planner_update_goal] returns [CLS_ERR_NOT_FOUND] and changes
    nothing when no goal has the id.  Otherwise the first goal with the id
    gets the new progress, and [achieved] becomes true when the progress is
    >= 1.0f; it is never cleared, so a goal once achieved stays achieved
    whatever progress is written later.  No other goal changes. *)
Theorem update_goal_never_clears_achieved gt id p :
  ((forall g, In g (goals gt) -> goal_id g <> id) ->
   cls_planner_update_goal gt id p = (CLS_ERR_NOT_FOUND, gt))
  /\ (forall i g,
        first_goal (goals gt) id i g ->
        exists gt' g',
          cls_planner_update_goal gt id p = (CLS_OK, gt')
          /\ goals gt' !! i = Some g'
          /\ progress g' = p
          /\ achieved g' = (Float32.leb Float32.one p || achieved g)
          /\ goal_id g' = goal_id g
          /\ (forall j, j <> i -> goals gt' !! j = goals gt !! j)
          /\ goal_count gt' = goal_count gt
          /\ max_goals gt' = max_goals gt).
Proof.
  unfold cls_planner_update_goal, cls_planner_get_goal. split.
  - intros Hnone. rewrite (proj2 (find_goal_none _ id 0%nat) Hnone).
    reflexivity.
  - intros i g Hfirst. rewrite (find_goal_first _ id 0%nat i g Hfirst).
    cbn [Nat.add]. destruct Hfirst as (Hi & _).
    eexists _, (set_progress p g). split; [reflexivity|]. cbn [goals max_goals].
    split; [rewrite list_lookup_alter_eq, Hi; reflexivity|].
    split; [reflexivity|].
    split; [cbn [set_progress achieved];
            destruct (Float32.leb Float32.one p); reflexivity|].
    split; [reflexivity|].
    split; [intros j Hj; apply list_lookup_alter_ne; congruence|].
    split; [unfold goal_count; cbn [goals]; rewrite length_alter; reflexivity|].
    reflexivity.
Qed.

Lemma update_goal_never_clears_achieved_example :
  exists gt' g',
    cls_planner_update_goal
      (mk_goal_table
         [mk_goal 1 0 CLS_PRIORITY_LOW Float32.one Float32.zero true] 4)
      1 (Float32.lit 1 2)
    = (CLS_OK, gt')
    /\ goals gt' !! 0%nat = Some g'
    /\ progress g' = Float32.lit 1 2
    /\ achieved g' = true.
Proof.
  destruct (proj2 (update_goal_never_clears_achieved
                     (mk_goal_table
                        [mk_goal 1 0 CLS_PRIORITY_LOW Float32.one Float32.zero
                                 true] 4)
                     1 (Float32.lit 1 2))
                  0%nat
                  (mk_goal 1 0 CLS_PRIORITY_LOW Float32.one Float32.zero true))
    as (gt' & g' & Hcall & Hl & Hp & Ha & _).
  - split; [reflexivity|]. split; [reflexivity|]. intros j gj Hj. lia.
  - exists gt', g'. repeat split; assumption.
Defined.

Lemma find_goal_shift gs : forall id i,
  find_goal gs id i = option_map (Nat.add i) (find_goal gs id 0%nat).
Proof.
  induction gs as [|g gs IH]; intros id i; cbn [find_goal].
  - reflexivity.
  - destruct (goal_id g =? id); [cbn; f_equal; lia|].
    rewrite (IH id (S i)), (IH id 1%nat).
    destruct (find_goal gs id 0%nat); cbn; [f_equal; lia | reflexivity].
Qed.

Lemma goal_with_id_first gs m id :
  goal_with_id (mk_goal_table gs m) id = first_by_id gs id.
Proof.
  unfold goal_with_id, cls_planner_get_goal. cbn [goals].
  induction gs as [|g gs IH]; cbn [find_goal first_by_id]; [reflexivity|].
  destruct (goal_id g =? id); [reflexivity|].
  rewrite find_goal_shift. destruct (find_goal gs id 0%nat); exact IH.
Qed.

Lemma first_by_id_delete gs : forall id i id',
  find_goal gs id 0%nat = Some i ->
  first_by_id (delete i gs) id'
  = if id' =? id
    then first_by_id (drop (S i) gs) id
    else first_by_id gs id'.
Proof.
  induction gs as [|g gs IH]; intros id i id'; cbn [find_goal].
  - discriminate.
  - destruct (Z.eqb_spec (goal_id g) id) as [E|E].
    + intros [= <-]. cbn [delete list_delete drop first_by_id].
      destruct (Z.eqb_spec id' id) as [->|Hne]; [reflexivity|].
      destruct (Z.eqb_spec (goal_id g) id'); [congruence | reflexivity].
    + rewrite find_goal_shift.
      destruct (find_goal gs id 0%nat) as [k|] eqn:Ek; [|discriminate].
      intros [= <-].
      change (delete (S k) (g :: gs)) with (g :: delete k gs).
      change (drop (S (S k)) (g :: gs)) with (drop (S k) gs).
      cbn [first_by_id]. rewrite (IH id k id' Ek).
      destruct (Z.eqb_spec id' id) as [->|Hne].
      * destruct (Z.eqb_spec (goal_id g) id); [contradiction | reflexivity].
      * destruct (goal_id g =? id'); reflexivity.
Qed.

Lemma first_by_id_none gs id :
  first_by_id gs id = None <-> (forall g, In g gs -> goal_id g <> id).
Proof.
  induction gs as [|g gs IH]; cbn [first_by_id].
  - split; [intros _ g [] | reflexivity].
  - destruct (Z.eqb_spec (goal_id g) id) as [E|E].
    + split; [discriminate|]. intros H. exfalso.
      apply (H g); [left; reflexivity | exact E].
    + rewrite IH. split.
      * intros H g' [<-|Hg]; [exact E | apply H, Hg].
      * intros H g' Hg. apply H. right. exact Hg.
Qed.

(** With distinct ids, no goal after the first one with an id has it. *)
Lemma first_by_id_drop_nodup gs : forall id i,
  NoDup (map goal_id gs) ->
  find_goal gs id 0%nat = Some i ->
  first_by_id (drop (S i) gs) id = None.
Proof.
  induction gs as [|g gs IH]; intros id i Hnd; cbn [find_goal].
  - discriminate.
  - cbn [map] in Hnd. apply NoDup_cons in Hnd as [Hnotin Hnd].
    destruct (Z.eqb_spec (goal_id g) id) as [E|E].
    + intros [= <-]. cbn [drop]. apply first_by_id_none.
      intros g' Hg' Heq. apply Hnotin. rewrite E, <- Heq.
      apply list_elem_of_In, in_map, Hg'.
    + rewrite find_goal_shift.
      destruct (find_goal gs id 0%nat) as [k|] eqn:Ek; [|discriminate].
      intros [= <-]. change (drop (S (S k)) (g :: gs)) with (drop (S k) gs).
      apply (IH id k Hnd Ek).
Qed.

(** X4.  [cls_planner_remove_goal] returns [CLS_ERR_NOT_FOUND] and changes
    nothing when no goal has the id.  Otherwise it removes the first goal
    with the id and keeps the others in order: the table holds one goal
    less, every other id still leads to the goal it led to, and, when the ids
    in the table are distinct, the removed id is no longer found. *)
Theorem remove_goal_removes_first gt id :
  ((forall g, In g (goals gt) -> goal_id g <> id) ->
   cls_planner_remove_goal gt id = (CLS_ERR_NOT_FOUND, gt))
  /\ (forall i g,
        first_goal (goals gt) id i g ->
        exists gt',
          cls_planner_remove_goal gt id = (CLS_OK, gt')
          /\ goals gt' = take i (goals gt) ++ drop (S i) (goals gt)
          /\ goal_count gt' = goal_count gt - 1
          /\ max_goals gt' = max_goals gt
          /\ (forall id', id' <> id ->
                goal_with_id gt' id' = goal_with_id gt id')
          /\ (NoDup (map goal_id (goals gt)) ->
                goal_with_id gt' id = None)).
Proof.
  unfold cls_planner_remove_goal. split.
  - intros Hnone. rewrite (proj2 (find_goal_none _ id 0%nat) Hnone).
    reflexivity.
  - intros i g Hfirst.
    pose proof (find_goal_first _ id 0%nat i g Hfirst) as Hfind.
    cbn [Nat.add] in Hfind. rewrite Hfind. destruct Hfirst as (Hi & _).
    eexists. split; [reflexivity|]. cbn [goals max_goals].
    split; [apply delete_take_drop|].
    split.
    { unfold goal_count. cbn [goals]. rewrite length_delete by eauto.
      pose proof (lookup_lt_Some _ _ _ Hi). lia. }
    split; [reflexivity|].
    destruct gt as [gs m]. cbn [goals max_goals] in *.
    split.
    + intros id' Hne. rewrite !goal_with_id_first.
      rewrite (first_by_id_delete gs id i id' Hfind).
      destruct (Z.eqb_spec id' id); [contradiction | reflexivity].
    + intros Hnd. rewrite goal_with_id_first.
      rewrite (first_by_id_delete gs id i id Hfind), Z.eqb_refl.
      apply (first_by_id_drop_nodup gs id i Hnd Hfind).
Qed.

Lemma remove_goal_removes_first_example :
  exists gt',
    cls_planner_remove_goal
      (mk_goal_table
         [mk_goal 1 0 CLS_PRIORITY_LOW Float32.zero Float32.zero false;
          mk_goal 2 0 CLS_PRIORITY_LOW Float32.zero Float32.zero false] 4) 1
    = (CLS_OK, gt')
    /\ goals gt'
       = [mk_goal 2 0 CLS_PRIORITY_LOW Float32.zero Float32.zero false]
    /\ goal_with_id gt' 1 = None.
Proof.
  destruct (proj2 (remove_goal_removes_first
                     (mk_goal_table
                        [mk_goal 1 0 CLS_PRIORITY_LOW Float32.zero Float32.zero
                                 false;
                         mk_goal 2 0 CLS_PRIORITY_LOW Float32.zero Float32.zero
                                 false] 4) 1)
                  0%nat
                  (mk_goal 1 0 CLS_PRIORITY_LOW Float32.zero Float32.zero false))
    as (gt' & Hcall & Hgs & _ & _ & _ & Hgone).
  - split; [reflexivity|]. split; [reflexivity|]. intros j gj Hj. lia.
  - exists gt'. split; [exact Hcall|]. split; [exact Hgs|].
    apply Hgone. refine (bool_decide_unpack _ _). reflexivity.
Defined.

(** ** The plan generator and the plan table *)

Lemma generate_ok_inv planner decisions now planner' k :
  cls_planner_generate planner decisions now = (CLS_OK, planner', Some k) ->
  decisions <> [] /\ plan_count planner < max_plans planner.
Proof.
  intros Hgen. destruct decisions as [|d ds]; [discriminate|].
  split; [discriminate|].
  destruct (Z.lt_ge_cases (plan_count planner) (max_plans planner))
    as [Hroom|Hfull]; [exact Hroom|].
  rewrite generate_full in Hgen by (discriminate || assumption). discriminate.
Qed.

(** X5.  [cls_planner_generate] fails without touching the planner, and in a
    fixed order: an empty batch is [CLS_ERR_INVALID] even when the plan table
    is full, and a full table is [CLS_ERR_OVERFLOW] for every other batch;
    it returns [CLS_OK] exactly when the batch is not empty and the table has
    room. *)
Theorem generate_fails_without_effect planner decisions now :
  (decisions = [] ->
   cls_planner_generate planner decisions now
   = (CLS_ERR_INVALID, planner, None))
  /\ (decisions <> [] -> max_plans planner <= plan_count planner ->
      cls_planner_generate planner decisions now
      = (CLS_ERR_OVERFLOW, planner, None))
  /\ ((cls_planner_generate planner decisions now).1.1 = CLS_OK
      <-> decisions <> [] /\ plan_count planner < max_plans planner).
Proof.
  split; [intros ->; reflexivity|]. split; [apply generate_full|].
  destruct decisions as [|d ds].
  - cbn. split; [discriminate | intros [H _]; contradiction].
  - destruct (Z.lt_ge_cases (plan_count planner) (max_plans planner))
      as [Hroom|Hfull].
    + rewrite generate_accepts by (discriminate || assumption). cbn [fst].
      split; [intros _; split; [discriminate | exact Hroom] | reflexivity].
    + rewrite generate_full by (discriminate || assumption). cbn [fst].
      split; [discriminate | intros [_ H]; lia].
Qed.

Lemma generate_fails_without_effect_example :
  cls_planner_generate (empty_planner 0) [] 7
  = (CLS_ERR_INVALID, empty_planner 0, None).
Proof.
  apply (proj1 (generate_fails_without_effect (empty_planner 0) [] 7)).
  reflexivity.
Defined.

Lemma new_tasks_length ds : forall base,
  (length (new_tasks base ds) <= length ds)%nat.
Proof.
  induction ds as [|d ds IH]; intros base; cbn [new_tasks length]; [lia|].
  destruct (accepted d); cbn [length]; [specialize (IH (base + 1)) | specialize (IH base)]; lia.
Qed.

Lemma new_tasks_fresh ds : forall base k t,
  new_tasks base ds !! k = Some t ->
  task_status t = CLS_PLAN_PENDING /\ dep_count t = 0
  /\ started_at t = 0 /\ completed_at t = 0.
Proof.
  intros base k t Hk.
  pose proof (new_tasks_accepted ds base) as HF.
  destruct (Forall2_lookup_r _ _ _ _ _ HF Hk) as (d & _ & tid & ->).
  repeat split.
Qed.

(** X6.  A successful [cls_planner_generate] appends the new plan to the
    table: the plans already there are unchanged and keep their slots, the
    new plan is in the next slot, [plan_count] grows by one and stays within
    [max_plans], and [plans_generated] grows by one.  The new plan is Active,
    stamped with the clock reading, numbered [plans_generated + 1], and has
    room for twice the batch. *)
Theorem generate_appends_plan planner decisions now planner' k :
  cls_planner_generate planner decisions now = (CLS_OK, planner', Some k) ->
  k = length (plans planner)
  /\ (forall j, (j < k)%nat -> plans planner' !! j = plans planner !! j)
  /\ plan_count planner' = plan_count planner + 1
  /\ plan_count planner' <= max_plans planner'
  /\ max_plans planner' = max_plans planner
  /\ plans_generated planner' = u64 (plans_generated planner + 1)
  /\ exists plan,
       plans planner' !! k = Some plan
       /\ plan_status plan = CLS_PLAN_ACTIVE
       /\ plan_id plan = u32 (u32 (plans_generated planner) + 1)
       /\ created_at plan = now
       /\ max_tasks plan = u32 (2 * Z.of_nat (length decisions))
       /\ task_count plan <= Z.of_nat (length decisions).
Proof.
  intros Hgen.
  destruct (generate_ok_inv _ _ _ _ _ Hgen) as [Hne Hroom].
  rewrite (generate_accepts planner decisions now Hne Hroom) in Hgen.
  injection Hgen as <- <-. cbn [plans max_plans plans_generated].
  split; [reflexivity|].
  split; [intros j Hj; apply lookup_app_l, Hj|].
  split; [unfold plan_count; cbn [plans]; rewrite length_app; cbn; lia|].
  split; [unfold plan_count in *; cbn [plans]; rewrite length_app; cbn; lia|].
  split; [reflexivity|]. split; [reflexivity|].
  eexists. split; [apply list_lookup_middle; reflexivity|].
  cbn [plan_status plan_id created_at max_tasks].
  split; [reflexivity|]. split; [reflexivity|]. split; [reflexivity|].
  split; [f_equal; lia|].
  unfold task_count. cbn [plan_tasks].
  pose proof (new_tasks_length decisions 0). lia.
Qed.

Lemma generate_appends_plan_example :
  exists planner',
    cls_planner_generate (empty_planner 8)
      [mk_decision 10 (Float32.lit 9 10) 80 0 0] 7
    = (CLS_OK, planner', Some 0%nat)
    /\ plan_count planner' = 1
    /\ plans_generated planner' = 1.
Proof.
  eexists. split; [reflexivity|].
  destruct (generate_appends_plan (empty_planner 8)
              [mk_decision 10 (Float32.lit 9 10) 80 0 0] 7 _ 0%nat eq_refl)
    as (_ & _ & Hc & _ & _ & Hg & _).
  split; [exact Hc | exact Hg].
Defined.

Lemma generated_tasks_fresh planner decisions now planner' k plan :
  cls_planner_generate planner decisions now = (CLS_OK, planner', Some k) ->
  plans planner' !! k = Some plan ->
  Z.of_nat (length decisions) < 2 ^ 32 ->
  forall j t, plan_tasks plan !! j = Some t -> fresh_task j t.
Proof.
  intros Hgen Hk Hlen.
  destruct (generate_ok_inv _ _ _ _ _ Hgen) as [Hne Hroom].
  rewrite (generate_accepts planner decisions now Hne Hroom) in Hgen.
  injection Hgen as <- <-. cbn [plans] in Hk.
  rewrite list_lookup_middle in Hk by reflexivity. injection Hk as <-.
  cbn [plan_tasks].
  intros j t Hj. split; [|apply (new_tasks_fresh decisions 0 j t Hj)].
  rewrite (new_tasks_ids decisions 0 j t Hj).
  pose proof (lookup_lt_Some _ _ _ Hj).
  pose proof (new_tasks_length decisions 0).
  unfold u32. rewrite Z.mod_small by lia. lia.
Qed.

Lemma fresh_tasks_nodup tasks :
  (forall j t, tasks !! j = Some t -> fresh_task j t) ->
  NoDup (map task_id tasks).
Proof.
  intros Hfresh. apply NoDup_alt. intros i j x Hi Hj.
  rewrite list_lookup_fmap in Hi, Hj.
  destruct (tasks !! i) as [ti|] eqn:Ei; [|discriminate].
  destruct (tasks !! j) as [tj|] eqn:Ej; [|discriminate].
  cbn in Hi, Hj. destruct (Hfresh i ti Ei) as [Hi' _].
  destruct (Hfresh j tj Ej) as [Hj' _]. injection Hi as Hi. injection Hj as Hj.
  lia.
Qed.

(** X7.  In a plan made by [cls_planner_generate] from a batch of fewer than
    2^32 decisions, the task in slot [k] has id [k + 1], is Pending, has no
    dependencies and no time stamps; so the task ids of the plan are
    pairwise distinct. *)
Theorem generate_numbers_tasks_from_one planner decisions now planner' k plan :
  cls_planner_generate planner decisions now = (CLS_OK, planner', Some k) ->
  plans planner' !! k = Some plan ->
  Z.of_nat (length decisions) < 2 ^ 32 ->
  (forall j t, plan_tasks plan !! j = Some t -> fresh_task j t)
  /\ NoDup (map task_id (plan_tasks plan)).
Proof.
  intros Hgen Hk Hlen.
  pose proof (generated_tasks_fresh _ _ _ _ _ _ Hgen Hk Hlen) as Hfresh.
  split; [exact Hfresh|]. apply (fresh_tasks_nodup _ Hfresh).
Qed.

Lemma generate_numbers_tasks_from_one_example :
  exists planner' plan,
    cls_planner_generate (empty_planner 8)
      [mk_decision 10 (Float32.lit 9 10) 80 0 0;
       mk_decision 20 (Float32.lit 7 10) 60 0 0] 7
    = (CLS_OK, planner', Some 0%nat)
    /\ plans planner' !! 0%nat = Some plan
    /\ NoDup (map task_id (plan_tasks plan)).
Proof.
  eexists _, _. split; [reflexivity|]. split; [reflexivity|].
  apply (generate_numbers_tasks_from_one (empty_planner 8)
           [mk_decision 10 (Float32.lit 9 10) 80 0 0;
            mk_decision 20 (Float32.lit 7 10) 60 0 0] 7 _ 0%nat _
           eq_refl eq_refl).
  reflexivity.
Defined.

(** ** cls_plan_add_task *)

Lemma add_tasks_spec ts : forall plan,
  task_count plan <= max_tasks plan ->
  add_tasks plan ts =
  let added := take (Z.to_nat (max_tasks plan - task_count plan)) ts in
  {| plan_id := plan_id plan;
     plan_status := plan_status plan;
     plan_tasks := plan_tasks plan ++ added;
     max_tasks := max_tasks plan;
     total_cost :=
       fold_left Float32.add (map cost_estimate added) (total_cost plan);
     total_reward :=
       fold_left Float32.add (map reward_estimate added) (total_reward plan);
     success_probability := success_probability plan;
     created_at := created_at plan |}.
Proof.
  unfold add_tasks.
  induction ts as [|t ts IH]; intros plan Hcap; cbn [fold_left].
  - rewrite take_nil. cbn [map fold_left]. rewrite app_nil_r.
    destruct plan; reflexivity.
  - unfold cls_plan_add_task at 2.
    destruct (Z.geb_spec (task_count plan) (max_tasks plan)) as [Hfull|Hroom];
      cbn [snd].
    + rewrite (IH plan Hcap).
      replace (Z.to_nat (max_tasks plan - task_count plan)) with 0%nat by lia.
      reflexivity.
    + rewrite IH.
      2:{ unfold task_count in *. cbn [plan_tasks max_tasks].
          rewrite length_app. cbn [length]. lia. }
      assert (Hc : task_count (mk_plan (plan_id plan) (plan_status plan)
                                 (plan_tasks plan ++ [t]) (max_tasks plan)
                                 (Float32.add (total_cost plan) (cost_estimate t))
                                 (Float32.add (total_reward plan)
                                              (reward_estimate t))
                                 (success_probability plan) (created_at plan))
                   = task_count plan + 1).
      { unfold task_count. cbn [plan_tasks]. rewrite length_app.
        cbn [length]. lia. }
      cbv zeta. rewrite Hc.
      cbn [plan_id plan_status plan_tasks max_tasks total_cost total_reward
           success_probability created_at].
      replace (Z.to_nat (max_tasks plan - task_count plan))
        with (S (Z.to_nat (max_tasks plan - (task_count plan + 1)))) by lia.
      cbn [take map fold_left]. rewrite <- app_assoc. reflexivity.
Qed.

(** X8.  A run of [cls_plan_add_task] calls on a plan within its capacity
    appends the tasks in order until the plan holds [max_tasks] tasks and
    drops every later one; the totals grow by the estimates of the tasks
    appended, while the plan's status and [success_probability] are left as
    they were (the mean is not refreshed). *)
Theorem add_tasks_fills_to_capacity plan ts :
  task_count plan <= max_tasks plan ->
  let added := take (Z.to_nat (max_tasks plan - task_count plan)) ts in
  plan_tasks (add_tasks plan ts) = plan_tasks plan ++ added
  /\ total_cost (add_tasks plan ts)
     = fold_left Float32.add (map cost_estimate added) (total_cost plan)
  /\ total_reward (add_tasks plan ts)
     = fold_left Float32.add (map reward_estimate added) (total_reward plan)
  /\ plan_status (add_tasks plan ts) = plan_status plan
  /\ success_probability (add_tasks plan ts) = success_probability plan
  /\ task_count (add_tasks plan ts) <= max_tasks (add_tasks plan ts).
Proof.
  intros Hcap added. rewrite (add_tasks_spec ts plan Hcap). fold added.
  cbn [plan_tasks total_cost total_reward plan_status success_probability
       max_tasks].
  repeat (split; [reflexivity|]).
  unfold task_count in *. cbn [plan_tasks]. rewrite length_app.
  subst added. rewrite length_take. lia.
Qed.

Lemma add_tasks_fills_to_capacity_example :
  plan_tasks (add_tasks (plan_of_tasks CLS_PLAN_ACTIVE [demo_task CLS_PLAN_PENDING 0])
                [demo_task CLS_PLAN_PENDING 1; demo_task CLS_PLAN_PENDING 2])
  = [demo_task CLS_PLAN_PENDING 0; demo_task CLS_PLAN_PENDING 1].
Proof.
  apply (add_tasks_fills_to_capacity
           (plan_of_tasks CLS_PLAN_ACTIVE [demo_task CLS_PLAN_PENDING 0])
           [demo_task CLS_PLAN_PENDING 1; demo_task CLS_PLAN_PENDING 2]).
  apply Z.leb_le. reflexivity.
Defined.

(** ** The scheduler on the plans the code builds *)

Lemma next_task_none_iff plan :
  cls_plan_next_task plan = (CLS_ERR_NOT_FOUND, None)
  <-> (forall j tj, plan_tasks plan !! j = Some tj ->
                    eligible (plan_tasks plan) tj = false).
Proof.
  pose proof (next_task_best plan) as Hbest. unfold cls_plan_next_task.
  destruct (next_task_loop (plan_tasks plan) (plan_tasks plan) 0%nat None)
    as [[b tb]|]; cbn [best_upto] in Hbest.
  - destruct Hbest as (Hb & _ & Hbe & _). split; [discriminate|].
    intros H. rewrite (H b tb Hb) in Hbe. discriminate.
  - split; [|reflexivity]. intros _ j tj Hj.
    apply (Hbest j tj (lookup_lt_Some _ _ _ Hj) Hj).
Qed.

Lemma fresh_task_eligible tasks k t : fresh_task k t -> eligible tasks t = true.
Proof.
  intros (_ & Hst & Hdep & _). unfold eligible, deps_met, task_deps.
  rewrite Hst, Hdep. reflexivity.
Qed.

(** X9.  On a plan just made by [cls_planner_generate] (from fewer than 2^32
    decisions), [cls_plan_next_task] returns [CLS_ERR_NOT_FOUND] exactly when
    no decision passed the filter; otherwise it returns the first task, in
    batch order, among those of highest priority in the whole plan. *)
Theorem next_task_on_generated_plan planner decisions now planner' k plan :
  cls_planner_generate planner decisions now = (CLS_OK, planner', Some k) ->
  plans planner' !! k = Some plan ->
  Z.of_nat (length decisions) < 2 ^ 32 ->
  (plan_tasks plan = [] ->
   cls_plan_next_task plan = (CLS_ERR_NOT_FOUND, None))
  /\ (plan_tasks plan <> [] ->
      exists i t,
        cls_plan_next_task plan = (CLS_OK, Some i)
        /\ plan_tasks plan !! i = Some t
        /\ forall j tj,
             plan_tasks plan !! j = Some tj ->
             prio tj <= prio t /\ (prio tj = prio t -> (i <= j)%nat)).
Proof.
  intros Hgen Hk Hlen.
  pose proof (generated_tasks_fresh _ _ _ _ _ _ Hgen Hk Hlen) as Hfresh.
  split.
  - intros Hnil. apply next_task_none_iff. intros j tj Hj.
    rewrite Hnil in Hj. discriminate.
  - intros Hne. pose proof (next_task_best plan) as Hbest.
    unfold cls_plan_next_task.
    destruct (next_task_loop (plan_tasks plan) (plan_tasks plan) 0%nat None)
      as [[b tb]|]; cbn [best_upto] in Hbest.
    + destruct Hbest as (Hb & _ & _ & Hmax). exists b, tb.
      split; [reflexivity|]. split; [exact Hb|].
      intros j tj Hj. apply (Hmax j tj (lookup_lt_Some _ _ _ Hj) Hj).
      apply (fresh_task_eligible _ j), Hfresh, Hj.
    + exfalso. destruct (plan_tasks plan) as [|t0 ts] eqn:Et; [contradiction|].
      assert (H0 : (t0 :: ts) !! 0%nat = Some t0) by reflexivity.
      pose proof (Hbest 0%nat t0 ltac:(cbn; lia) H0) as Hel.
      rewrite (fresh_task_eligible _ 0%nat t0 (Hfresh _ _ H0)) in Hel.
      discriminate.
Qed.

Lemma next_task_on_generated_plan_example :
  exists planner' plan,
    cls_planner_generate (empty_planner 8)
      [mk_decision 10 (Float32.lit 7 10) 60 0 0;
       mk_decision 20 (Float32.lit 9 10) 80 0 0] 7
    = (CLS_OK, planner', Some 0%nat)
    /\ plans planner' !! 0%nat = Some plan
    /\ exists i t,
         cls_plan_next_task plan = (CLS_OK, Some i)
         /\ plan_tasks plan !! i = Some t.
Proof.
  eexists _, _. split; [reflexivity|]. split; [reflexivity|].
  destruct (proj2 (next_task_on_generated_plan (empty_planner 8)
                     [mk_decision 10 (Float32.lit 7 10) 60 0 0;
                      mk_decision 20 (Float32.lit 9 10) 80 0 0] 7 _ 0%nat _
                     eq_refl eq_refl eq_refl))
    as (i & t & H1 & H2 & _); [discriminate|].
  exists i, t. split; assumption.
Defined.

(** ** One step of the scheduling loop *)

Lemma nodup_first_with_id tasks i t :
  NoDup (map task_id tasks) ->
  tasks !! i = Some t ->
  first_with_id tasks (task_id t) i t.
Proof.
  intros Hnd Hi. split; [exact Hi|]. split; [reflexivity|].
  intros j tj Hj Hl Heq.
  assert (j = i); [|lia].
  apply (NoDup_lookup _ _ _ (task_id t) Hnd);
    rewrite list_lookup_fmap; [rewrite Hl; cbn; congruence | rewrite Hi; reflexivity].
Qed.

Lemma filter_length_alter {A} (P : A -> bool) (f : A -> A) l : forall i x,
  l !! i = Some x -> P x = true -> P (f x) = false ->
  (length (List.filter P (alter f i l)) + 1 = length (List.filter P l))%nat.
Proof.
  induction l as [|y l IH]; intros i x Hi Hp Hf; [discriminate|].
  destruct i as [|i].
  - cbn in Hi. injection Hi as ->. cbn [alter list_alter List.filter].
    rewrite Hp, Hf. cbn [length]. lia.
  - cbn in Hi. change (alter f (S i) (y :: l)) with (y :: alter f i l).
    cbn [List.filter]. specialize (IH i x Hi Hp Hf).
    destruct (P y); cbn [length]; lia.
Qed.

Lemma next_task_returns_pending plan i t :
  cls_plan_next_task plan = (CLS_OK, Some i) ->
  plan_tasks plan !! i = Some t ->
  task_status t = CLS_PLAN_PENDING.
Proof.
  pose proof (next_task_best plan) as Hbest. unfold cls_plan_next_task.
  destruct (next_task_loop (plan_tasks plan) (plan_tasks plan) 0%nat None)
    as [[b tb]|]; cbn [best_upto] in Hbest; [|discriminate].
  destruct Hbest as (Hb & _ & Hbe & _). intros [= <-] Hi.
  assert (tb = t) by congruence. subst tb.
  apply eligible_candidate in Hbe. apply Hbe.
Qed.

Lemma scheduling_round plan i t success now :
  NoDup (map task_id (plan_tasks plan)) ->
  cls_plan_next_task plan = (CLS_OK, Some i) ->
  plan_tasks plan !! i = Some t ->
  exists plan',
    cls_plan_complete_task plan (task_id t) success now = (CLS_OK, plan')
    /\ plan_tasks plan' !! i = Some (finish_task success now t)
    /\ (forall j, j <> i -> plan_tasks plan' !! j = plan_tasks plan !! j)
    /\ (pending_count plan' + 1 = pending_count plan)%nat
    /\ NoDup (map task_id (plan_tasks plan'))
    /\ cls_plan_next_task plan' <> (CLS_OK, Some i).
Proof.
  intros Hnd Hnext Hi.
  pose proof (next_task_returns_pending plan i t Hnext Hi) as Hpend.
  pose proof (nodup_first_with_id _ i t Hnd Hi) as Hfirst.
  destruct (complete_task_found plan (task_id t) success now i t Hfirst)
    as (plan' & Hcall & Htasks & _).
  exists plan'. split; [exact Hcall|]. rewrite Htasks.
  split; [rewrite list_lookup_alter_eq, Hi; reflexivity|].
  split; [intros j Hj; apply list_lookup_alter_ne; congruence|].
  split.
  { unfold pending_count. rewrite Htasks.
    apply (filter_length_alter pendingb _ _ i t Hi).
    - unfold pendingb. rewrite Hpend. reflexivity.
    - unfold pendingb, finish_task. cbn. destruct success; reflexivity. }
  split.
  { replace (map task_id (alter (finish_task success now) i (plan_tasks plan)))
      with (map task_id (plan_tasks plan)); [exact Hnd|].
    apply list_eq. intros j. rewrite !list_lookup_fmap.
    destruct (Nat.eq_dec j i) as [->|Hj].
    - rewrite list_lookup_alter_eq, Hi. reflexivity.
    - rewrite list_lookup_alter_ne by congruence. reflexivity. }
  intros Hagain.
  assert (Hl : plan_tasks plan' !! i = Some (finish_task success now t))
    by (rewrite Htasks, list_lookup_alter_eq, Hi; reflexivity).
  pose proof (next_task_returns_pending plan' i _ Hagain Hl) as Hp.
  unfold finish_task in Hp. cbn in Hp. destruct success; discriminate.
Qed.

(** X10.  One step of the scheduling loop makes progress.  In a plan whose
    task ids are distinct, completing the task [cls_plan_next_task] returned
    (with either outcome) is accepted, makes that very task Complete or
    Failed, lowers the number of Pending tasks by one, and the scheduler
    does not return that task again. *)
Theorem completing_next_task_makes_progress plan i t success now :
  NoDup (map task_id (plan_tasks plan)) ->
  cls_plan_next_task plan = (CLS_OK, Some i) ->
  plan_tasks plan !! i = Some t ->
  exists plan' t',
    cls_plan_complete_task plan (task_id t) success now = (CLS_OK, plan')
    /\ task_status t = CLS_PLAN_PENDING
    /\ plan_tasks plan' !! i = Some t'
    /\ task_id t' = task_id t
    /\ task_status t'
       = (if success then CLS_PLAN_COMPLETE else CLS_PLAN_FAILED)
    /\ completed_at t' = now
    /\ (forall j, j <> i -> plan_tasks plan' !! j = plan_tasks plan !! j)
    /\ (pending_count plan' + 1 = pending_count plan)%nat
    /\ NoDup (map task_id (plan_tasks plan'))
    /\ cls_plan_next_task plan' <> (CLS_OK, Some i).
Proof.
  intros Hnd Hnext Hi.
  destruct (scheduling_round plan i t success now Hnd Hnext Hi)
    as (plan' & Hcall & Hslot & Hrest).
  exists plan', (finish_task success now t).
  split; [exact Hcall|].
  split; [exact (next_task_returns_pending plan i t Hnext Hi)|].
  split; [exact Hslot|]. split; [reflexivity|].
  split; [destruct success; reflexivity|]. split; [reflexivity|].
  exact Hrest.
Qed.

Lemma completing_next_task_makes_progress_example :
  exists plan' t',
    cls_plan_complete_task scheduler_plan 3 true 7 = (CLS_OK, plan')
    /\ plan_tasks plan' !! 2%nat = Some t'
    /\ task_status t' = CLS_PLAN_COMPLETE
    /\ (pending_count plan' + 1 = pending_count scheduler_plan)%nat.
Proof.
  destruct (completing_next_task_makes_progress scheduler_plan 2%nat
              (dep_task 3 CLS_PRIORITY_HIGH CLS_PLAN_PENDING [5]) true 7)
    as (plan' & t' & Hcall & _ & Hslot & _ & Hst & _ & _ & Hcount & _).
  - refine (bool_decide_unpack _ _). reflexivity.
  - reflexivity.
  - reflexivity.
  - exists plan', t'. repeat split; assumption.
Defined.

(** ** The completion tracker *)

Lemma find_task_some tasks : forall tid i k,
  find_task tasks tid i = Some k ->
  exists k' t, k = (i + k')%nat /\ first_with_id tasks tid k' t.
Proof.
  induction tasks as [|t0 tasks IH]; intros tid i k; cbn [find_task].
  - discriminate.
  - destruct (Z.eqb_spec (task_id t0) tid) as [E|E].
    + intros [= <-]. exists 0%nat, t0. split; [lia|].
      split; [reflexivity|]. split; [exact E|]. intros j tj Hj. lia.
    + intros H. destruct (IH _ _ _ H) as (k' & t & -> & Hk & Hid & Hfirst).
      exists (S k'), t. split; [lia|]. split; [exact Hk|]. split; [exact Hid|].
      intros [|j] tj Hj Hl.
      * cbn in Hl. injection Hl as <-. exact E.
      * apply (Hfirst j tj); [lia | exact Hl].
Qed.

Lemma complete_task_cases plan tid success now :
  (cls_plan_complete_task plan tid success now = (CLS_ERR_NOT_FOUND, plan)
   /\ forall t, In t (plan_tasks plan) -> task_id t <> tid)
  \/ exists i t plan',
       first_with_id (plan_tasks plan) tid i t
       /\ cls_plan_complete_task plan tid success now = (CLS_OK, plan')
       /\ plan_tasks plan' = alter (finish_task success now) i (plan_tasks plan)
       /\ aggregated plan plan'.
Proof.
  destruct (find_task (plan_tasks plan) tid 0%nat) as [k|] eqn:E.
  - right. destruct (find_task_some _ _ _ _ E) as (i & t & _ & Hfirst).
    destruct (complete_task_found plan tid success now i t Hfirst)
      as (plan' & H1 & H2 & H3).
    exists i, t, plan'. auto.
  - left. split; [|apply (find_task_none _ tid 0%nat), E].
    unfold cls_plan_complete_task. rewrite E. reflexivity.
Qed.

Lemma finish_task_terminal success now t : terminal (finish_task success now t).
Proof. unfold terminal, finish_task. cbn. destruct success; split; discriminate. Qed.

(** X11.  Completing the task that the rest of the plan was waiting for
    settles the plan, whatever its status was before (a plan that
    [cls_planner_replan] has Cancelled included): when every other task is
    neither Pending nor Active, the plan becomes Failed if the outcome
    reported is a failure or some other task is Failed, and Complete
    otherwise. *)
Theorem completing_last_task_settles_plan plan tid i t success now :
  first_with_id (plan_tasks plan) tid i t ->
  (forall j tj, j <> i -> plan_tasks plan !! j = Some tj -> terminal tj) ->
  exists plan',
    cls_plan_complete_task plan tid success now = (CLS_OK, plan')
    /\ (success = true ->
        (forall j tj, j <> i -> plan_tasks plan !! j = Some tj -> ~ failed tj) ->
        plan_status plan' = CLS_PLAN_COMPLETE)
    /\ ((success = false
         \/ exists j tj, j <> i /\ plan_tasks plan !! j = Some tj /\ failed tj) ->
        plan_status plan' = CLS_PLAN_FAILED).
Proof.
  intros Hfirst Hothers.
  destruct (complete_task_found plan tid success now i t Hfirst)
    as (plan' & Hcall & Htasks & Hc & Hf & _).
  destruct Hfirst as (Hi & _).
  assert (Hall : Forall terminal (plan_tasks plan')).
  { rewrite Htasks. apply Forall_lookup. intros j x Hj.
    destruct (Nat.eq_dec j i) as [->|Hne].
    - rewrite list_lookup_alter_eq, Hi in Hj. injection Hj as <-.
      apply finish_task_terminal.
    - rewrite list_lookup_alter_ne in Hj by congruence.
      apply (Hothers j x Hne Hj). }
  exists plan'. split; [exact Hcall|]. split.
  - intros -> Hnone. apply (Hc Hall). intros Hex.
    apply Exists_exists in Hex as (x & Hx & Hfx).
    apply list_elem_of_lookup in Hx as [j Hj]. rewrite Htasks in Hj.
    destruct (Nat.eq_dec j i) as [->|Hne].
    + rewrite list_lookup_alter_eq, Hi in Hj. injection Hj as <-.
      discriminate Hfx.
    + rewrite list_lookup_alter_ne in Hj by congruence.
      exact (Hnone j x Hne Hj Hfx).
  - intros Hsome. apply (Hf Hall). apply Exists_exists.
    destruct Hsome as [-> | (j & tj & Hne & Hj & Hfj)].
    + exists (finish_task false now t). split; [|reflexivity].
      apply list_elem_of_lookup. exists i.
      rewrite Htasks, list_lookup_alter_eq, Hi. reflexivity.
    + exists tj. split; [|exact Hfj]. apply list_elem_of_lookup. exists j.
      rewrite Htasks, list_lookup_alter_ne by congruence. exact Hj.
Qed.

Lemma completing_last_task_settles_plan_example :
  exists plan',
    cls_plan_complete_task
      (plan_of_tasks CLS_PLAN_CANCELLED
         [demo_task CLS_PLAN_COMPLETE 0; demo_task CLS_PLAN_FAILED 1]) 2 true 7
    = (CLS_OK, plan')
    /\ plan_status plan' = CLS_PLAN_COMPLETE.
Proof.
  destruct (completing_last_task_settles_plan
              (plan_of_tasks CLS_PLAN_CANCELLED
                 [demo_task CLS_PLAN_COMPLETE 0; demo_task CLS_PLAN_FAILED 1])
              2 1%nat (demo_task CLS_PLAN_FAILED 1) true 7)
    as (plan' & Hcall & Hc & _).
  - split; [reflexivity|]. split; [reflexivity|].
    intros [|j] tj Hj; [intros [= <-]; discriminate | lia].
  - intros [|[|j]] tj Hne; [intros [= <-]; split; discriminate | contradiction
                            | discriminate].
  - exists plan'. split; [exact Hcall|]. apply Hc; [reflexivity|].
    intros [|[|j]] tj Hne; [intros [= <-]; discriminate | contradiction
                            | discriminate].
Defined.

Lemma find_task_alter f tasks : forall tid i k,
  (forall x, task_id (f x) = task_id x) ->
  find_task (alter f i tasks) tid k = find_task tasks tid k.
Proof.
  induction tasks as [|t tasks IH]; intros tid i k Hf; [reflexivity|].
  destruct i as [|i].
  - cbn [alter list_alter find_task]. rewrite Hf. reflexivity.
  - change (alter f (S i) (t :: tasks)) with (t :: alter f i tasks).
    cbn [find_task]. rewrite IH by exact Hf. reflexivity.
Qed.

Lemma scan_alter_finish tasks : forall i s1 n1 s2 n2,
  forallb terminalb (alter (finish_task s1 n1) i tasks)
  = forallb terminalb (alter (finish_task s2 n2) i tasks).
Proof.
  induction tasks as [|t tasks IH]; intros i s1 n1 s2 n2; [reflexivity|].
  destruct i as [|i].
  - cbn [alter list_alter forallb]. f_equal.
    unfold terminalb, finish_task. cbn. destruct s1, s2; reflexivity.
  - change (alter ?f (S i) (t :: tasks)) with (t :: alter f i tasks).
    cbn [forallb]. f_equal. apply IH.
Qed.

(** X12.  Of two [cls_plan_complete_task] calls for the same task id, the
    second wins entirely: the plan after both is the plan the second call
    alone would have produced (status of the task, [completed_at], and the
    status of the plan), and the result code is the same.  With equal
    arguments the call is therefore idempotent. *)
Theorem complete_task_last_call_wins plan tid s1 now1 s2 now2 :
  cls_plan_complete_task (cls_plan_complete_task plan tid s1 now1).2 tid s2 now2
  = cls_plan_complete_task plan tid s2 now2.
Proof.
  unfold cls_plan_complete_task.
  destruct (find_task (plan_tasks plan) tid 0%nat) as [i|] eqn:E.
  2:{ cbn [snd]. rewrite E. reflexivity. }
  cbn [plan_tasks set_plan_tasks]. rewrite !scan_tasks_eq.
  set (tasks1 := alter (finish_task s1 now1) i (plan_tasks plan)).
  set (tasks2 := alter (finish_task s2 now2) i (plan_tasks plan)).
  assert (Hf1 : find_task tasks1 tid 0%nat = Some i)
    by (unfold tasks1; rewrite find_task_alter; [exact E | reflexivity]).
  assert (Hall : forallb terminalb tasks1 = forallb terminalb tasks2)
    by apply scan_alter_finish.
  assert (H12 : alter (finish_task s2 now2) i tasks1 = tasks2).
  { unfold tasks1, tasks2. rewrite list_alter_alter_eq.
    apply list_alter_ext; [|reflexivity]. intros x _. reflexivity. }
  destruct (forallb terminalb tasks1) eqn:H1; cbn [snd];
    cbn [plan_tasks set_plan_status set_plan_tasks]; rewrite Hf1, H12;
    rewrite scan_tasks_eq, <- Hall; reflexivity.
Qed.

Lemma shadowed_not_first tasks k t tid i ti :
  shadowed tasks k -> tasks !! k = Some t ->
  first_with_id tasks tid i ti -> i <> k.
Proof.
  intros (j & tj & t' & Hjk & Hj & Hk & Hid) Hkt (Hi & Hti & Hfirst) ->.
  assert (t' = t) by congruence. subst t'.
  assert (ti = t) by congruence. subst ti.
  apply (Hfirst j tj Hjk Hj). congruence.
Qed.

(** X13.  [cls_plan_complete_task] only ever reaches the first task with a
    given id.  A task in a later slot with the same id (which
    [cls_plan_add_task] accepts, since it does not check ids) is left
    exactly as it is by every call, for any id and outcome, and stays
    shadowed; as long as that task is Pending or Active the call cannot
    change the status of the plan either. *)
Theorem shadowed_task_is_never_completed plan k t tid success now :
  shadowed (plan_tasks plan) k ->
  plan_tasks plan !! k = Some t ->
  let plan' := (cls_plan_complete_task plan tid success now).2 in
  plan_tasks plan' !! k = Some t
  /\ shadowed (plan_tasks plan') k
  /\ (~ terminal t -> plan_status plan' = plan_status plan).
Proof.
  intros Hsh Hk plan'. subst plan'.
  destruct (complete_task_cases plan tid success now)
    as [[-> _] | (i & ti & plan1 & Hfirst & -> & Htasks & _ & _ & Hkeep)];
    cbn [snd]; [auto|].
  pose proof (shadowed_not_first _ _ _ _ _ _ Hsh Hk Hfirst) as Hik.
  assert (Hk' : plan_tasks plan1 !! k = Some t)
    by (rewrite Htasks, list_lookup_alter_ne by exact Hik; exact Hk).
  split; [exact Hk'|]. split.
  - destruct Hsh as (j & tj & t' & Hjk & Hj & Hkt & Hid).
    assert (exists tj', plan_tasks plan1 !! j = Some tj'
                        /\ task_id tj' = task_id tj) as (tj' & Hj' & Hid').
    { rewrite Htasks. destruct (Nat.eq_dec i j) as [->|Hne].
      - rewrite list_lookup_alter_eq, Hj. eexists. split; reflexivity.
      - rewrite list_lookup_alter_ne by exact Hne. eauto. }
    exists j, tj', t. repeat split; try assumption. congruence.
  - intros Hnt. apply Hkeep. intros Hall.
    apply Hnt. rewrite Forall_lookup in Hall. apply (Hall k t Hk').
Qed.

Lemma shadowed_task_is_never_completed_example :
  exists plan1,
    cls_plan_add_task
      (plan_of_tasks CLS_PLAN_ACTIVE [demo_task CLS_PLAN_PENDING 0])
      (demo_task CLS_PLAN_PENDING 0)
    = (CLS_OK, plan1)
    /\ plan_tasks (cls_plan_complete_task plan1 1 true 7).2 !! 1%nat
       = Some (demo_task CLS_PLAN_PENDING 0)
    /\ plan_status (cls_plan_complete_task plan1 1 true 7).2 = CLS_PLAN_ACTIVE.
Proof.
  eexists. split; [reflexivity|].
  destruct (shadowed_task_is_never_completed
              (cls_plan_add_task
                 (plan_of_tasks CLS_PLAN_ACTIVE [demo_task CLS_PLAN_PENDING 0])
                 (demo_task CLS_PLAN_PENDING 0)).2
              1%nat (demo_task CLS_PLAN_PENDING 0) 1 true 7)
    as (H1 & _ & H3).
  - exists 0%nat, (demo_task CLS_PLAN_PENDING 0), (demo_task CLS_PLAN_PENDING 0).
    split; [lia|]. repeat split.
  - reflexivity.
  - split; [exact H1|]. apply H3. intros [Hp _]. apply Hp. reflexivity.
Defined.

(** ** The scheduling loop *)

Lemma filter_length_zero {A} (P : A -> bool) l :
  length (List.filter P l) = 0%nat -> forall x, In x l -> P x = false.
Proof.
  induction l as [|y l IH]; cbn [List.filter]; intros H x [].
  - subst y. destruct (P x); [discriminate | reflexivity].
  - apply IH; [|assumption]. destruct (P y); [discriminate | exact H].
Qed.

Lemma filter_length_pos {A} (P : A -> bool) l :
  (0 < length (List.filter P l))%nat -> exists x, In x l /\ P x = true.
Proof.
  induction l as [|y l IH]; cbn [List.filter]; [cbn; lia|].
  destruct (P y) eqn:E.
  - intros _. exists y. split; [left; reflexivity | exact E].
  - intros H. destruct (IH H) as (x & Hx & Hp). exists x.
    split; [right; exact Hx | exact Hp].
Qed.

Lemma independent_round plan i t success now plan1 :
  independent_tasks plan ->
  cls_plan_next_task plan = (CLS_OK, Some i) ->
  plan_tasks plan !! i = Some t ->
  cls_plan_complete_task plan (task_id t) success now = (CLS_OK, plan1) ->
  independent_tasks plan1
  /\ (pending_count plan1 + 1 = pending_count plan)%nat
  /\ aggregated plan plan1.
Proof.
  intros [Hnd Hdeps] Hnext Hi Hcall.
  destruct (scheduling_round plan i t success now Hnd Hnext Hi)
    as (plan' & Hcall' & Hl & Hother & Hcount & Hnd' & _).
  assert (plan' = plan1) by congruence. subst plan'.
  split; [split; [exact Hnd'|]|split; [exact Hcount|]].
  - intros x Hx. apply list_elem_of_In, list_elem_of_lookup in Hx as [j Hj].
    destruct (Nat.eq_dec j i) as [->|Hne].
    + rewrite Hl in Hj. injection Hj as <-.
      destruct (Hdeps t) as [Hd _];
        [apply list_elem_of_In, list_elem_of_lookup; eauto|].
      split; [exact Hd|]. unfold finish_task. cbn.
      destruct success; discriminate.
    + rewrite (Hother j Hne) in Hj. apply Hdeps.
      apply list_elem_of_In, list_elem_of_lookup. eauto.
  - pose proof (nodup_first_with_id _ i t Hnd Hi) as Hfirst.
    destruct (complete_task_found plan (task_id t) success now i t Hfirst)
      as (plan' & Hc & _ & Hagg).
    assert (plan' = plan1) by congruence. subst plan'. exact Hagg.
Qed.

Lemma independent_progress plan :
  independent_tasks plan -> (0 < pending_count plan)%nat ->
  exists i t, cls_plan_next_task plan = (CLS_OK, Some i)
              /\ plan_tasks plan !! i = Some t.
Proof.
  intros [_ Hdeps] Hpos.
  destruct (filter_length_pos _ _ Hpos) as (x & Hx & Hp).
  pose proof (next_task_best plan) as Hbest.
  pose proof (next_task_none_iff plan) as Hnone.
  unfold cls_plan_next_task in *.
  destruct (next_task_loop (plan_tasks plan) (plan_tasks plan) 0%nat None)
    as [[b tb]|]; cbn [best_upto] in Hbest.
  - destruct Hbest as (Hb & _). eauto.
  - exfalso. assert (Hl := Hx).
    apply list_elem_of_In, list_elem_of_lookup in Hl as [j Hj].
    pose proof (proj1 Hnone eq_refl j x Hj) as Hel.
    unfold eligible, deps_met, task_deps in Hel.
    destruct (Hdeps x Hx) as [Hd _]. rewrite Hd in Hel.
    unfold pendingb in Hp. rewrite Hp in Hel. discriminate.
Qed.

Lemma no_pending_settled plan :
  independent_tasks plan -> pending_count plan = 0%nat ->
  Forall terminal (plan_tasks plan)
  /\ cls_plan_next_task plan = (CLS_ERR_NOT_FOUND, None).
Proof.
  intros [_ Hdeps] Hzero.
  pose proof (filter_length_zero _ _ Hzero) as Hnp. split.
  - apply List.Forall_forall. intros x Hx. split.
    + intros Hs. specialize (Hnp x Hx). unfold pendingb in Hnp.
      rewrite Hs in Hnp. discriminate.
    + apply (Hdeps x Hx).
  - apply next_task_none_iff. intros j tj Hj.
    assert (Hin : In tj (plan_tasks plan))
      by (apply list_elem_of_In, list_elem_of_lookup; eauto).
    specialize (Hnp tj Hin). unfold eligible. unfold pendingb in Hnp.
    rewrite Hnp. reflexivity.
Qed.

Lemma drains_counts m plan plan' :
  drains m plan plan' ->
  independent_tasks plan ->
  independent_tasks plan'
  /\ (pending_count plan' + m = pending_count plan)%nat.
Proof.
  induction 1 as [p | n p i t s now p1 p2 Hnext Hi Hcall _ IH]; intros Hind.
  - split; [exact Hind | lia].
  - destruct (independent_round p i t s now p1 Hind Hnext Hi Hcall)
      as (Hind1 & Hc & _).
    destruct (IH Hind1) as [Hind2 Hc2]. split; [exact Hind2 | lia].
Qed.

Lemma drains_settles m plan plan' :
  drains m plan plan' ->
  independent_tasks plan -> (0 < m)%nat -> pending_count plan' = 0%nat ->
  (Exists failed (plan_tasks plan') -> plan_status plan' = CLS_PLAN_FAILED)
  /\ (~ Exists failed (plan_tasks plan') ->
      plan_status plan' = CLS_PLAN_COMPLETE).
Proof.
  induction 1 as [p | n p i t s now p1 p2 Hnext Hi Hcall Hrest IH];
    intros Hind Hpos Hzero; [lia|].
  destruct (independent_round p i t s now p1 Hind Hnext Hi Hcall)
    as (Hind1 & _ & Hc & Hf & _).
  destruct n as [|n].
  - inversion Hrest; subst.
    destruct (no_pending_settled p2 Hind1 Hzero) as [Hall _].
    split; [apply Hf | apply Hc]; exact Hall.
  - apply IH; [exact Hind1 | lia | exact Hzero].
Qed.


Lemma generated_plan_independent planner decisions now planner' k plan :
  cls_planner_generate planner decisions now = (CLS_OK, planner', Some k) ->
  plans planner' !! k = Some plan ->
  Z.of_nat (length decisions) < 2 ^ 32 ->
  independent_tasks plan
  /\ pending_count plan = length (plan_tasks plan).
Proof.
  intros Hgen Hk Hlen.
  pose proof (generated_tasks_fresh _ _ _ _ _ _ Hgen Hk Hlen) as Hfresh.
  split; [split; [apply (fresh_tasks_nodup _ Hfresh)|]|].
  - intros t Ht. apply list_elem_of_In, list_elem_of_lookup in Ht as [j Hj].
    destruct (Hfresh j t Hj) as (_ & Hst & Hd & _).
    split; [exact Hd | rewrite Hst; discriminate].
  - unfold pending_count.
    assert (Hall : forall t, In t (plan_tasks plan) -> pendingb t = true).
    { intros t Ht. apply list_elem_of_In, list_elem_of_lookup in Ht as [j Hj].
      destruct (Hfresh j t Hj) as (_ & Hst & _).
      unfold pendingb. rewrite Hst. reflexivity. }
    clear Hfresh Hk. induction (plan_tasks plan) as [|t ts IH]; [reflexivity|].
    cbn [List.filter]. rewrite (Hall t) by (left; reflexivity).
    cbn [length]. f_equal. apply IH. intros x Hx. apply Hall. right. exact Hx.
Qed.


(** ** The replanner *)

Lemma new_tasks_from ds : forall base t,
  In t (new_tasks base ds) ->
  exists d tid, In d ds /\ accepted d = true /\ t = task_of_decision tid d.
Proof.
  induction ds as [|d ds IH]; intros base t; cbn [new_tasks]; [intros []|].
  destruct (accepted d) eqn:E.
  - intros [<-|Ht].
    + exists d, (u32 (base + 1)). split; [left; reflexivity | auto].
    + destruct (IH _ _ Ht) as (d' & tid & Hd & Ha & ->).
      exists d', tid. split; [right; exact Hd | auto].
  - intros Ht. destruct (IH _ _ Ht) as (d' & tid & Hd & Ha & ->).
    exists d', tid. split; [right; exact Hd | auto].
Qed.

Lemma replan_ok_inv planner i now planner' k :
  cls_planner_replan planner i now = (CLS_OK, planner', Some k) ->
  exists fp,
    plans planner !! i = Some fp
    /\ cls_planner_generate (cancel_plan i fp planner)
         (take 64 (spec_replan_batch (plan_tasks fp))) now
       = (CLS_OK, planner', Some k).
Proof.
  intros Hre. destruct (plans planner !! i) as [fp|] eqn:Hi.
  - exists fp. split; [reflexivity|].
    rewrite (replan_eq planner i fp now Hi) in Hre.
    destruct (take 64 (spec_replan_batch (plan_tasks fp))); [discriminate|].
    exact Hre.
  - unfold cls_planner_replan in Hre. rewrite Hi in Hre. discriminate.
Qed.

Lemma generated_tasks planner decisions now planner' k plan :
  cls_planner_generate planner decisions now = (CLS_OK, planner', Some k) ->
  plans planner' !! k = Some plan ->
  plan_tasks plan = new_tasks 0 decisions.
Proof.
  intros Hgen Hk.
  destruct (generate_ok_inv _ _ _ _ _ Hgen) as [Hne Hroom].
  rewrite (generate_accepts planner decisions now Hne Hroom) in Hgen.
  injection Hgen as <- <-. cbn [plans] in Hk.
  rewrite list_lookup_middle in Hk by reflexivity. injection Hk as <-.
  reflexivity.
Qed.

Lemma generate_ok_shape planner decisions now planner' k :
  cls_planner_generate planner decisions now = (CLS_OK, planner', Some k) ->
  exists plan,
    k = length (plans planner)
    /\ plans planner' = plans planner ++ [plan]
    /\ plan_tasks plan = new_tasks 0 decisions
    /\ max_plans planner' = max_plans planner.
Proof.
  intros Hgen.
  destruct (generate_ok_inv _ _ _ _ _ Hgen) as [Hne Hroom].
  rewrite (generate_accepts planner decisions now Hne Hroom) in Hgen.
  injection Hgen as <- <-. eexists. repeat split.
Qed.

Lemma priority_level_is_low p :
  priority_of_Z (CLS_CLAMP (priority_to_Z p / 25) 0 3) = CLS_PRIORITY_LOW.
Proof. destruct p; reflexivity. Qed.

(** X15.  A plan made by [cls_planner_replan] forgets priorities and
    dependencies: the task's priority level (0 to 3) is handed to the
    generator as a decision priority on the 0-100 scale, so every task of
    the new plan has priority Low; every task is Pending again and has no
    dependencies, whatever the harvested tasks depended on. *)
Theorem replan_resets_priorities_and_dependencies planner i now planner' k new :
  cls_planner_replan planner i now = (CLS_OK, planner', Some k) ->
  plans planner' !! k = Some new ->
  Forall (fun t => task_priority t = CLS_PRIORITY_LOW
                   /\ dep_count t = 0
                   /\ task_status t = CLS_PLAN_PENDING)
         (plan_tasks new).
Proof.
  intros Hre Hk. destruct (replan_ok_inv _ _ _ _ _ Hre) as (fp & Hi & Hgen).
  rewrite (generated_tasks _ _ _ _ _ _ Hgen Hk).
  apply List.Forall_forall. intros t Ht.
  destruct (new_tasks_from _ _ _ Ht) as (d & tid & Hd & _ & ->).
  apply list_elem_of_In, elem_of_take in Hd as (j & Hj & _).
  unfold spec_replan_batch in Hj. rewrite list_lookup_fmap in Hj.
  destruct (List.filter pending_or_failed (plan_tasks fp) !! j) as [t0|];
    [|discriminate].
  injection Hj as <-. split; [|split; reflexivity].
  cbn [task_of_decision task_priority decision_of_task dec_priority].
  apply priority_level_is_low.
Qed.

Lemma replan_resets_priorities_and_dependencies_example :
  exists planner' new,
    cls_planner_replan
      (planner_with
         (plan_of_tasks CLS_PLAN_FAILED
            [dep_task 1 CLS_PRIORITY_CRITICAL CLS_PLAN_FAILED [3]]) 8)
      0%nat 7
    = (CLS_OK, planner', Some 1%nat)
    /\ plans planner' !! 1%nat = Some new
    /\ Forall (fun t => task_priority t = CLS_PRIORITY_LOW
                        /\ dep_count t = 0
                        /\ task_status t = CLS_PLAN_PENDING)
              (plan_tasks new).
Proof.
  eexists _, _. split; [reflexivity|]. split; [reflexivity|].
  apply (replan_resets_priorities_and_dependencies
           (planner_with
              (plan_of_tasks CLS_PLAN_FAILED
                 [dep_task 1 CLS_PRIORITY_CRITICAL CLS_PLAN_FAILED [3]]) 8)
           0%nat 7 _ 1%nat _ eq_refl eq_refl).
Defined.

Lemma new_tasks_none ds : forall base,
  Forall (fun d => accepted d = false) ds -> new_tasks base ds = [].
Proof.
  induction ds as [|d ds IH]; intros base Hall; [reflexivity|].
  apply Forall_cons in Hall as [Hd Hall]. cbn [new_tasks]. rewrite Hd.
  apply IH, Hall.
Qed.



(** X17.  [cls_planner_replan] does not look at the status of the plan it is
    given and does not change its tasks, so a plan can be replanned again
    after it has been Cancelled: while the table has room, the second call
    succeeds as the first did and makes one more new plan with the same
    tasks (same action ids, estimates and params) as the first new plan. *)
Theorem replan_can_be_repeated planner i now1 planner1 k1 now2 :
  cls_planner_replan planner i now1 = (CLS_OK, planner1, Some k1) ->
  plan_count planner1 < max_plans planner1 ->
  exists planner2 new1 new2,
    cls_planner_replan planner1 i now2 = (CLS_OK, planner2, Some (S k1))
    /\ plans planner1 !! k1 = Some new1
    /\ plans planner2 !! k1 = Some new1
    /\ plans planner2 !! S k1 = Some new2
    /\ plan_tasks new2 = plan_tasks new1.
Proof.
  intros Hre Hroom1.
  destruct (replan_ok_inv _ _ _ _ _ Hre) as (fp & Hi & Hgen).
  destruct (generate_ok_inv _ _ _ _ _ Hgen) as [Hne _].
  destruct (generate_ok_shape _ _ _ _ _ Hgen)
    as (new1 & -> & Hplans1 & Htasks1 & _).
  destruct (cancel_plan_lookup planner i fp Hi) as (H1 & _ & H3 & _).
  assert (Hlen : length (plans (cancel_plan i fp planner))
                 = length (plans planner))
    by (unfold plan_count in H3; lia).
  pose proof (lookup_lt_Some _ _ _ Hi) as Hlt.
  assert (Hi1 : plans planner1 !! i
                = Some (set_plan_status CLS_PLAN_CANCELLED fp)).
  { rewrite Hplans1, lookup_app_l by lia. exact H1. }
  assert (Hk1 : plans planner1 !! length (plans (cancel_plan i fp planner))
                = Some new1)
    by (rewrite Hplans1; apply list_lookup_middle; reflexivity).
  destruct (cancel_plan_lookup planner1 i _ Hi1) as (_ & H2' & H3' & H4').
  assert (Hlen1 : length (plans planner1)
                  = S (length (plans (cancel_plan i fp planner))))
    by (rewrite Hplans1, length_app; cbn; lia).
  assert (Hgen2 : exists planner2,
             cls_planner_generate
               (cancel_plan i (set_plan_status CLS_PLAN_CANCELLED fp) planner1)
               (take 64 (spec_replan_batch (plan_tasks fp))) now2
             = (CLS_OK, planner2,
                Some (S (length (plans (cancel_plan i fp planner)))))).
  { rewrite generate_accepts; [|exact Hne|lia].
    unfold plan_count in H3'. apply Nat2Z.inj in H3'. rewrite H3', Hlen1.
    eexists. reflexivity. }
  destruct Hgen2 as [planner2 Hgen2].
  destruct (generate_ok_shape _ _ _ _ _ Hgen2)
    as (new2 & Hk2 & Hplans2 & Htasks2 & _).
  exists planner2, new1, new2.
  split.
  { rewrite (replan_eq planner1 i _ now2 Hi1).
    change (plan_tasks (set_plan_status CLS_PLAN_CANCELLED fp))
      with (plan_tasks fp).
    destruct (take 64 (spec_replan_batch (plan_tasks fp))); [contradiction|].
    exact Hgen2. }
  split; [exact Hk1|].
  split.
  { rewrite Hplans2, lookup_app_l by lia.
    rewrite H2' by lia. exact Hk1. }
  split; [rewrite Hplans2, Hk2; apply list_lookup_middle; reflexivity|].
  congruence.
Qed.

Lemma replan_can_be_repeated_example :
  exists planner1 planner2 new1 new2,
    cls_planner_replan
      (planner_with (plan_of_tasks CLS_PLAN_FAILED [demo_task CLS_PLAN_FAILED 0]) 8)
      0%nat 7
    = (CLS_OK, planner1, Some 1%nat)
    /\ cls_planner_replan planner1 0%nat 9 = (CLS_OK, planner2, Some 2%nat)
    /\ plans planner2 !! 1%nat = Some new1
    /\ plans planner2 !! 2%nat = Some new2
    /\ plan_tasks new2 = plan_tasks new1.
Proof.
  eexists. 
  destruct (replan_can_be_repeated
              (planner_with
                 (plan_of_tasks CLS_PLAN_FAILED [demo_task CLS_PLAN_FAILED 0]) 8)
              0%nat 7 _ 1%nat 9 eq_refl)
    as (planner2 & new1 & new2 & H1 & _ & H3 & H4 & H5).
  - reflexivity.
  - exists planner2, new1, new2. split; [reflexivity|]. auto.
Defined.

(** ** cls_planner_evaluate and cls_planner_init *)

(** [cls_planner_evaluate] reads the totals, the success probability and
    the task count of the plan, which [cls_plan_complete_task] leaves as
    they are. *)
Lemma evaluate_after_complete_task plan tid success now :
  cls_planner_evaluate (cls_plan_complete_task plan tid success now).2
  = cls_planner_evaluate plan.
Proof.
  unfold cls_plan_complete_task.
  destruct (find_task (plan_tasks plan) tid 0%nat) as [i|]; [|reflexivity].
  cbv zeta.
  destruct (scan_tasks _) as [all_done any_failed].
  unfold cls_planner_evaluate, task_count.
  destruct all_done;
    cbn [snd set_plan_status set_plan_tasks plan_tasks total_cost total_reward
         success_probability];
    rewrite length_alter; reflexivity.
Qed.

(** X18.  A batch in which every confidence is below 0.1f is still accepted:
    the plan generated has no task, and [cls_planner_evaluate] reports it as
    not feasible, with expected utility 0, risk 1, resource cost 0 and time
    estimate 0.  And the evaluation of a plan is blind to the outcomes of
    its tasks: it is the same after any [cls_plan_complete_task] call as
    before. *)
Theorem evaluate_of_rejected_batch planner decisions now :
  decisions <> [] ->
  plan_count planner < max_plans planner ->
  Forall (fun d => Float32.ltb (dec_confidence d) Float32.c0_1 = true)
         decisions ->
  (exists planner' plan,
     cls_planner_generate planner decisions now
     = (CLS_OK, planner', Some (length (plans planner)))
     /\ plans planner' !! length (plans planner) = Some plan
     /\ plan_tasks plan = []
     /\ cls_planner_evaluate plan
        = (CLS_OK,
           {| expected_utility := Float32.zero;
              risk_score := Float32.one;
              resource_cost := Float32.zero;
              time_estimate_us := Float32.zero;
              feasible := false |}))
  /\ (forall plan tid success now',
        cls_planner_evaluate (cls_plan_complete_task plan tid success now').2
        = cls_planner_evaluate plan).
Proof.
  intros Hne Hroom Hlow. split; [|exact evaluate_after_complete_task].
  assert (Hrej : Forall (fun d => accepted d = false) decisions).
  { eapply Forall_impl; [exact Hlow|]. intros d Hd. unfold accepted.
    rewrite Hd. reflexivity. }
  rewrite (generate_accepts planner decisions now Hne Hroom).
  rewrite (new_tasks_none _ 0 Hrej).
  eexists _, _. split; [reflexivity|].
  split; [cbn [plans]; apply list_lookup_middle; reflexivity|].
  split; reflexivity.
Qed.

Lemma evaluate_of_rejected_batch_example :
  exists planner' plan,
    cls_planner_generate (empty_planner 8)
      [mk_decision 20 (Float32.lit 5 100) 10 0 0] 7
    = (CLS_OK, planner', Some 0%nat)
    /\ plans planner' !! 0%nat = Some plan
    /\ plan_tasks plan = []
    /\ feasible (cls_planner_evaluate plan).2 = false.
Proof.
  destruct (evaluate_of_rejected_batch (empty_planner 8)
              [mk_decision 20 (Float32.lit 5 100) 10 0 0] 7)
    as [(planner' & plan & Hgen & Hl & Ht & He) _].
  - discriminate.
  - reflexivity.
  - repeat constructor.
  - exists planner', plan. split; [exact Hgen|]. split; [exact Hl|].
    split; [exact Ht|]. rewrite He. reflexivity.
Defined.

(** X19.  [cls_planner_init] rejects a zero plan capacity or a zero goal
    capacity with [CLS_ERR_INVALID] and otherwise returns an empty planner:
    no goal is found under any id, and the first batch generated (if not
    empty) becomes the plan in slot 0, with plan id 1. *)
Theorem init_gives_empty_planner mp mg :
  ((mp = 0 \/ mg = 0) ->
   cls_planner_init mp mg = (CLS_ERR_INVALID, None))
  /\ (0 < mp -> 0 < mg ->
      exists planner gt,
        cls_planner_init mp mg = (CLS_OK, Some (planner, gt))
        /\ plan_count planner = 0
        /\ goal_count gt = 0
        /\ (forall id, cls_planner_get_goal gt id = None)
        /\ (forall g, (cls_planner_add_goal gt g).1 = CLS_OK)
        /\ forall decisions now,
             decisions <> [] ->
             exists planner' plan,
               cls_planner_generate planner decisions now
               = (CLS_OK, planner', Some 0%nat)
               /\ plans planner' !! 0%nat = Some plan
               /\ plan_id plan = 1).
Proof.
  unfold cls_planner_init. split.
  - intros [-> | ->]; [reflexivity|]. rewrite orb_true_r. reflexivity.
  - intros Hp' Hg'.
    destruct (Z.eqb_spec mp 0); [lia|].
    destruct (Z.eqb_spec mg 0); [lia|]. cbn [orb].
    eexists _, _. split; [reflexivity|].
    split; [reflexivity|]. split; [reflexivity|]. split; [reflexivity|].
    split.
    { intros g. unfold cls_planner_add_goal, goal_count.
      cbn [goals max_goals length].
      destruct (Z.geb_spec (Z.of_nat 0) mg); [lia | reflexivity]. }
    intros decisions now Hne.
    rewrite generate_accepts; [|exact Hne|unfold plan_count; cbn; lia].
    eexists _, _. split; [reflexivity|]. split; reflexivity.
Qed.

Lemma init_gives_empty_planner_example :
  exists planner gt,
    cls_planner_init 8 4 = (CLS_OK, Some (planner, gt))
    /\ plan_count planner = 0
    /\ goal_count gt = 0.
Proof.
  destruct (proj2 (init_gives_empty_planner 8 4) ltac:(lia) ltac:(lia))
    as (planner & gt & H1 & H2 & H3 & _).
  exists planner, gt. auto.
Defined.

(** ** The handler registry *)

Section RegistryProperties.
Context {W : Type}.
Implicit Types (exec : cls_action_exec_t W) (h : cls_action_handler_t W).
Implicit Types hs : list (cls_action_handler_t W).

Lemma existsb_find_handler hs id :
  existsb (fun h' => h_action_id h' =? id) hs
  = match find_handler_in hs id with Some _ => true | None => false end.
Proof.
  induction hs as [|h0 hs IH]; cbn [existsb find_handler_in]; [reflexivity|].
  destruct (h_action_id h0 =? id); [reflexivity | exact IH].
Qed.

Lemma find_handler_in_app hs h id :
  find_handler_in (hs ++ [h]) id
  = match find_handler_in hs id with
    | Some h' => Some h'
    | None => if h_action_id h =? id then Some h else None
    end.
Proof.
  induction hs as [|h0 hs IH]; cbn [app find_handler_in]; [reflexivity|].
  destruct (h_action_id h0 =? id); [reflexivity | exact IH].
Qed.

Lemma find_handler_in_none hs id :
  find_handler_in hs id = None <-> ~ In id (map h_action_id hs).
Proof.
  induction hs as [|h0 hs IH]; cbn [find_handler_in map In].
  - split; [intros _ [] | reflexivity].
  - destruct (Z.eqb_spec (h_action_id h0) id) as [E|E].
    + split; [discriminate|]. intros H. exfalso. apply H. left. exact E.
    + rewrite IH. split; [intros H [?|?]; contradiction | intros H ?; apply H; right; assumption].
Qed.

Lemma find_handler_in_some hs id h :
  find_handler_in hs id = Some h -> h_action_id h = id /\ In h hs.
Proof.
  induction hs as [|h0 hs IH]; cbn [find_handler_in]; [discriminate|].
  destruct (Z.eqb_spec (h_action_id h0) id) as [E|E].
  - intros [= <-]. split; [exact E | left; reflexivity].
  - intros H. destruct (IH H). split; [assumption | right; assumption].
Qed.


Lemma remove_handler_none hs id :
  remove_handler hs id = None <-> find_handler_in hs id = None.
Proof.
  induction hs as [|h0 hs IH]; cbn [remove_handler find_handler_in];
    [tauto|].
  destruct (h_action_id h0 =? id); [split; discriminate|].
  rewrite <- IH. destruct (remove_handler hs id); cbn; split; congruence.
Qed.

Lemma remove_handler_some hs : forall id hs',
  remove_handler hs id = Some hs' ->
  S (length hs') = length hs
  /\ (forall id', id' <> id ->
                  find_handler_in hs' id' = find_handler_in hs id')
  /\ (NoDup (map h_action_id hs) ->
      find_handler_in hs' id = None /\ NoDup (map h_action_id hs')).
Proof.
  induction hs as [|h0 hs IH]; intros id hs'; cbn [remove_handler];
    [discriminate|].
  destruct (Z.eqb_spec (h_action_id h0) id) as [E|E].
  - intros [= <-]. split; [reflexivity|]. split.
    + intros id' Hne. cbn [find_handler_in].
      destruct (Z.eqb_spec (h_action_id h0) id'); [congruence | reflexivity].
    + cbn [map]. intros Hnd. apply NoDup_cons in Hnd as [Hnotin Hnd].
      split; [|exact Hnd]. apply find_handler_in_none. intros Hin.
      apply Hnotin. rewrite E. apply list_elem_of_In, Hin.
  - destruct (remove_handler hs id) as [hs1|] eqn:Er; [|discriminate].
    intros [= <-]. destruct (IH id hs1 Er) as (Hlen & Hother & Hnd).
    split; [cbn [length]; lia|]. split.
    + intros id' Hne. cbn [find_handler_in].
      destruct (h_action_id h0 =? id'); [reflexivity | apply Hother, Hne].
    + cbn [map]. intros Hnd0. apply NoDup_cons in Hnd0 as [Hnotin Hnd0].
      destruct (Hnd Hnd0) as [Hnone Hnd1]. split.
      * cbn [find_handler_in].
        destruct (Z.eqb_spec (h_action_id h0) id); [contradiction|exact Hnone].
      * apply NoDup_cons. split; [|exact Hnd1]. intros Hin. apply Hnotin.
        apply list_elem_of_In in Hin. apply list_elem_of_In.
        destruct (find_handler_in hs (h_action_id h0)) as [hx|] eqn:Ex.
        -- apply find_handler_in_some in Ex as [Hid Hx].
           rewrite <- Hid. apply in_map, Hx.
        -- exfalso. rewrite <- (Hother (h_action_id h0)) in Ex by congruence.
           apply find_handler_in_none in Ex. contradiction.
Qed.

(** X21.  [cls_action_unregister] returns [CLS_ERR_NOT_FOUND] and changes
    nothing when the id is not registered.  Otherwise it removes the first
    handler with the id: the registry holds one handler less, every other id
    is found as before, history and counters are untouched, and, the ids in
    the registry being distinct, the id is no longer found. *)
Theorem unregister_removes_action exec id :
  (find_handler exec id = None ->
   cls_action_unregister exec id = (CLS_ERR_NOT_FOUND, exec))
  /\ (forall h,
        find_handler exec id = Some h ->
        exists exec',
          cls_action_unregister exec id = (CLS_OK, exec')
          /\ handler_count exec' = handler_count exec - 1
          /\ (forall id', id' <> id ->
                          find_handler exec' id' = find_handler exec id')
          /\ (NoDup (handler_ids exec) ->
              find_handler exec' id = None /\ NoDup (handler_ids exec'))
          /\ history exec' = history exec
          /\ history_count exec' = history_count exec
          /\ cls_action_stats exec' = cls_action_stats exec).
Proof.
  unfold cls_action_unregister, find_handler. split.
  - intros Hn. rewrite (proj2 (remove_handler_none _ _) Hn). reflexivity.
  - intros h Hh.
    destruct (remove_handler (handlers exec) id) as [hs'|] eqn:Er.
    2:{ apply remove_handler_none in Er. congruence. }
    destruct (remove_handler_some _ _ _ Er) as (Hlen & Hother & Hnd).
    eexists. split; [reflexivity|]. unfold handler_ids, set_handlers.
    cbn [handlers].
    split; [unfold handler_count; cbn [handlers]; lia|].
    split; [exact Hother|]. split; [exact Hnd|]. repeat split.
Qed.

(** X22.  Registering a handler and unregistering its id again gives back
    the executor as it was. *)
Theorem register_unregister_round_trip exec h exec1 :
  cls_action_register exec h = (CLS_OK, exec1) ->
  cls_action_unregister exec1 (h_action_id h) = (CLS_OK, exec).
Proof.
  unfold cls_action_register. rewrite existsb_find_handler.
  destruct (handler_count exec >=? max_handlers exec); [discriminate|].
  destruct (find_handler_in (handlers exec) (h_action_id h)) eqn:E;
    [discriminate|].
  intros [= <-]. unfold cls_action_unregister. cbn [set_handlers handlers].
  assert (Hrm : forall hs, find_handler_in hs (h_action_id h) = None ->
                           remove_handler (hs ++ [h]) (h_action_id h) = Some hs).
  { induction hs as [|h0 hs IH]; cbn [app remove_handler find_handler_in].
    - rewrite Z.eqb_refl. reflexivity.
    - destruct (h_action_id h0 =? h_action_id h); [discriminate|].
      intros Hn. rewrite (IH Hn). reflexivity. }
  rewrite (Hrm _ E). destruct exec; reflexivity.
Qed.

Lemma register_keeps_registry exec h :
  NoDup (handler_ids exec) ->
  handler_count exec <= max_handlers exec ->
  NoDup (handler_ids (cls_action_register exec h).2)
  /\ handler_count (cls_action_register exec h).2
     <= max_handlers (cls_action_register exec h).2
  /\ max_handlers (cls_action_register exec h).2 = max_handlers exec.
Proof.
  intros Hnd Hle. unfold cls_action_register. rewrite existsb_find_handler.
  destruct (Z.geb_spec (handler_count exec) (max_handlers exec)) as [Hfull|Hroom];
    cbn [snd]; [auto|].
  destruct (find_handler_in (handlers exec) (h_action_id h)) eqn:E;
    cbn [snd]; [auto|].
  unfold handler_ids, handler_count, set_handlers in *.
  cbn [handlers max_handlers]. split; [|split; [|reflexivity]].
  - rewrite map_app. cbn [map]. apply NoDup_app. split; [exact Hnd|].
    split; [|apply NoDup_singleton].
    intros x Hx Hx'. apply list_elem_of_singleton in Hx'. subst x.
    apply find_handler_in_none in E. apply E, list_elem_of_In, Hx.
  - rewrite length_app. cbn [length]. lia.
Qed.

Lemma unregister_keeps_registry exec id :
  NoDup (handler_ids exec) ->
  handler_count exec <= max_handlers exec ->
  NoDup (handler_ids (cls_action_unregister exec id).2)
  /\ handler_count (cls_action_unregister exec id).2
     <= max_handlers (cls_action_unregister exec id).2
  /\ max_handlers (cls_action_unregister exec id).2 = max_handlers exec.
Proof.
  intros Hnd Hle. unfold cls_action_unregister.
  destruct (remove_handler (handlers exec) id) as [hs'|] eqn:Er;
    cbn [snd]; [|auto].
  destruct (remove_handler_some _ _ _ Er) as (Hlen & _ & Hnd').
  unfold handler_ids, handler_count, set_handlers in *.
  cbn [handlers max_handlers]. split; [apply Hnd', Hnd|].
  split; [lia | reflexivity].
Qed.

End RegistryProperties.


Lemma unregister_removes_action_example :
  exists exec',
    cls_action_unregister (demo_exec 2) 1 = (CLS_OK, exec')
    /\ find_handler exec' 1 = None.
Proof.
  destruct (proj2 (unregister_removes_action (demo_exec 2) 1) handler_ok eq_refl)
    as (exec' & Hcall & _ & _ & Hnd & _).
  exists exec'. split; [exact Hcall|].
  apply Hnd. refine (bool_decide_unpack _ _). reflexivity.
Defined.

Lemma register_unregister_round_trip_example :
  cls_action_unregister
    (cls_action_register (demo_exec 2)
       (mk_handler 3 always_ok None 0 CLS_PRIORITY_LOW)).2 3
  = (CLS_OK, demo_exec 2).
Proof.
  apply (register_unregister_round_trip (demo_exec 2)
           (mk_handler 3 always_ok None 0 CLS_PRIORITY_LOW)).
  reflexivity.
Defined.


(** ** The executor's invariants *)

Section ExecutorInvariants.
Context {W : Type} (time_us : M W Z).
Implicit Types exec : cls_action_exec_t W.


(** The slots the search loops see after one write to the history: the new
    record is appended while there is room, and replaces slot 0 after. *)
Lemma visible_after_write (hist : list cls_action_record_t) count max rec :
  0 < max -> length hist = Z.to_nat max -> 0 <= count <= max -> max < 2 ^ 32 ->
  take (Z.to_nat (Z.min (if count <? max then u32 (count + 1) else count) max))
       (<[Z.to_nat (count mod max) := rec]> hist)
  = if count <? max
    then take (Z.to_nat (Z.min count max)) hist ++ [rec]
    else rec :: drop 1 (take (Z.to_nat (Z.min count max)) hist).
Proof.
  intros Hpos Hlen Hcount Hmax.
  destruct (Z.ltb_spec count max) as [Hlt|Hge].
  - rewrite Z.mod_small by lia. unfold u32. rewrite Z.mod_small by lia.
    rewrite Z.min_l, Z.min_l by lia.
    replace (Z.to_nat (count + 1)) with (S (Z.to_nat count)) by lia.
    rewrite (take_S_r _ _ rec)
      by (apply list_lookup_insert_eq; lia).
    rewrite take_insert_ge by lia. reflexivity.
  - assert (count = max) as -> by lia.
    rewrite Z.mod_same, Z.min_id by lia. change (Z.to_nat 0) with 0%nat.
    rewrite take_ge by (rewrite length_insert; lia).
    rewrite take_ge by lia.
    destruct hist as [|r0 hist]; [cbn [length] in Hlen; lia | reflexivity].
Qed.

(** The executor [cls_action_execute] returns when a handler is found, as
    the counters and one write to the history. *)
Lemma execute_found_visible exec action_id params params_len w h :
  find_handler exec action_id = Some h ->
  history_bounded exec ->
  exists result rec exec' w',
    cls_action_execute time_us exec action_id params params_len w
    = ((result, exec', Some rec), w')
    /\ exec_id rec = next_exec_id exec
    /\ rec_action_id rec = action_id
    /\ rolled_back rec = false
    /\ visible_history exec'
       = (if history_count exec <? max_history exec
          then visible_history exec ++ [rec]
          else rec :: drop 1 (visible_history exec))
    /\ history_count exec'
       = Z.min (history_count exec + 1) (max_history exec)
    /\ length (history exec') = length (history exec)
    /\ max_history exec' = max_history exec
    /\ next_exec_id exec' = u32 (next_exec_id exec + 1)
    /\ handlers exec' = handlers exec
    /\ total_executed exec' = u64 (total_executed exec + 1)
    /\ total_success exec' + total_failed exec'
       = (if CLS_IS_OK result
          then u64 (total_success exec + 1) + total_failed exec
          else total_success exec + u64 (total_failed exec + 1))
    /\ total_rollbacks exec' = total_rollbacks exec.
Proof.
  intros Hh ([Hpos Hlen] & Hcount & Hmax).
  destruct (time_us w) as [started w1] eqn:E1.
  destruct (execute_fn h action_id params params_len w1) as [result w2] eqn:E2.
  destruct (time_us w2) as [completed w3] eqn:E3.
  rewrite (execute_found time_us exec action_id params params_len w h
             _ _ _ _ _ _ Hh E1 E2 E3).
  eexists _, _, _, _. split; [reflexivity|].
  unfold visible_history.
  cbn [exec_id rec_action_id rolled_back history history_count max_history
       next_exec_id handlers total_executed total_success total_failed
       total_rollbacks].
  split; [reflexivity|]. split; [reflexivity|]. split; [reflexivity|].
  split; [apply visible_after_write; assumption|].
  split.
  { destruct (Z.ltb_spec (history_count exec) (max_history exec)).
    - unfold u32. rewrite Z.mod_small by lia. lia.
    - lia. }
  split; [apply length_insert|].
  repeat (split; [reflexivity|]).
  split; [destruct (CLS_IS_OK result); reflexivity | reflexivity].
Qed.

Lemma stats_step te ts tf :
  u64 te = u64 (ts + tf) ->
  u64 (u64 (te + 1)) = u64 (u64 (ts + 1) + tf)
  /\ u64 (u64 (te + 1)) = u64 (ts + u64 (tf + 1)).
Proof.
  unfold u64. intros H. rewrite Zmod_mod, Zplus_mod_idemp_l, Zplus_mod_idemp_r.
  rewrite <- (Zplus_mod_idemp_l te), H, Zplus_mod_idemp_l.
  split; f_equal; lia.
Qed.

(** X25.  [cls_action_execute] keeps the executor well formed: the history
    array keeps its slots and [history_count] stays within it; [total_executed]
    stays the sum of [total_success] and [total_failed]; and, as long as
    [next_exec_id] does not wrap around, the records the search loops see keep
    distinct ids below [next_exec_id].  The registry is not touched. *)
Theorem execute_keeps_executor_consistent exec action_id params params_len w :
  let exec' :=
    (cls_action_execute time_us exec action_id params params_len w).1.1.2 in
  history_bounded exec ->
  history_bounded exec'
  /\ handlers exec' = handlers exec
  /\ (stats_consistent exec -> stats_consistent exec')
  /\ (ids_issued exec -> 0 <= next_exec_id exec < 2 ^ 32 - 1 ->
      ids_issued exec' /\ next_exec_id exec <= next_exec_id exec').
Proof.
  intros exec' Hb. subst exec'.
  destruct (find_handler exec action_id) as [h|] eqn:Hh.
  2:{ rewrite (execute_not_found time_us exec _ _ _ w Hh). cbn [fst snd].
      split; [exact Hb|]. split; [reflexivity|]. split; [auto|].
      intros Hi _. split; [exact Hi | lia]. }
  destruct (execute_found_visible exec action_id params params_len w h Hh Hb)
    as (result & rec & exec' & w' & -> & Hid & _ & _ & Hvis & Hcnt & Hlen
        & Hmax & Hnext & Hhs & Hte & Hsf & _).
  cbn [fst snd]. destruct Hb as ([Hpos Hl] & Hcount & Hlim).
  split; [|split; [exact Hhs|split]].
  - unfold history_bounded, history_array. rewrite Hmax, Hlen, Hcnt.
    repeat split; try assumption; lia.
  - unfold stats_consistent. intros Hs. rewrite Hte, Hsf.
    destruct (stats_step _ _ _ Hs) as [Hok Hfail].
    destruct (CLS_IS_OK result); assumption.
  - intros [Hnd Hlt] Hrange.
    assert (Hn : next_exec_id exec' = next_exec_id exec + 1)
      by (rewrite Hnext; unfold u32; apply Z.mod_small; lia).
    split; [|lia]. unfold ids_issued. rewrite Hvis, Hn.
    destruct (history_count exec <? max_history exec).
    + split.
      * rewrite map_app. cbn [map]. apply NoDup_app. split; [exact Hnd|].
        split; [|apply NoDup_singleton].
        intros x Hx Hx'. apply list_elem_of_singleton in Hx'. subst x.
        apply list_elem_of_In, in_map_iff in Hx as (r & Hr & Hin).
        specialize (Hlt r Hin). lia.
      * intros r Hin. apply in_app_iff in Hin as [Hin|[<-|[]]];
          [specialize (Hlt r Hin); lia | lia].
    + assert (Htl : forall r, In r (drop 1 (visible_history exec)) ->
                              In r (visible_history exec)).
      { intros r Hin. apply list_elem_of_In. apply list_elem_of_In in Hin.
        destruct (visible_history exec); [exact Hin | right; exact Hin]. }
      split.
      * cbn [map]. apply NoDup_cons. split.
        -- intros Hx. apply list_elem_of_In, in_map_iff in Hx as (r & Hr & Hin).
           specialize (Hlt r (Htl r Hin)). lia.
        -- destruct (visible_history exec) as [|r0 rs]; [exact Hnd|].
           cbn [drop]. cbn [map] in Hnd. apply NoDup_cons in Hnd. apply Hnd.
      * intros r [<-|Hin]; [lia | specialize (Hlt r (Htl r Hin)); lia].
Qed.

(** X26.  The record of an execution can be read back at once:
    [cls_action_get_record] with the id the execution was given returns the
    record the execution returned. *)
Theorem execute_then_get_record exec action_id params params_len w
        result exec' rec w' :
  history_bounded exec ->
  ids_issued exec ->
  cls_action_execute time_us exec action_id params params_len w
  = ((result, exec', Some rec), w') ->
  exec_id rec = next_exec_id exec
  /\ cls_action_get_record exec' (exec_id rec) = (CLS_OK, Some rec).
Proof.
  intros Hb [Hnd Hlt] Hrun.
  destruct (find_handler exec action_id) as [h|] eqn:Hh.
  2:{ rewrite (execute_not_found time_us exec _ _ _ w Hh) in Hrun.
      discriminate. }
  destruct (execute_found_visible exec action_id params params_len w h Hh Hb)
    as (result0 & rec0 & exec0 & w0 & Hrun0 & Hid & _ & _ & Hvis & _).
  rewrite Hrun0 in Hrun. injection Hrun as -> -> -> ->.
  split; [exact Hid|]. unfold cls_action_get_record. rewrite Hvis, Hid.
  destruct (history_count exec <? max_history exec).
  - rewrite (find_record_first _ (next_exec_id exec) 0%nat
               (length (visible_history exec)) rec); [reflexivity|].
    split; [apply list_lookup_middle; reflexivity|]. split; [exact Hid|].
    intros j rj Hj Hl Hrj. rewrite lookup_app_l in Hl by exact Hj.
    apply list_elem_of_lookup_2, list_elem_of_In, Hlt in Hl. lia.
  - cbn [find_record]. rewrite Hid, Z.eqb_refl. reflexivity.
Qed.

(** *** Rollback *)

(** What [cls_action_rollback] returns once the record is found, not rolled
    back yet, and its handler has a [rollback_fn]. *)
Lemma rollback_found exec id (w : W) i r h f result w' :
  first_record (visible_history exec) id i r ->
  rolled_back r = false ->
  find_handler exec (rec_action_id r) = Some h ->
  rollback_fn h = Some f ->
  f (rec_action_id r) 0 0 w = (result, w') ->
  cls_action_rollback exec id w
  = ((result,
      if CLS_IS_OK result
      then {| handlers := handlers exec;
              max_handlers := max_handlers exec;
              history := <[i := mark_rolled_back r]> (history exec);
              history_count := history_count exec;
              max_history := max_history exec;
              next_exec_id := next_exec_id exec;
              total_executed := total_executed exec;
              total_success := total_success exec;
              total_failed := total_failed exec;
              total_rollbacks := u64 (total_rollbacks exec + 1) |}
      else exec), w').
Proof.
  intros Hfirst Hrb Hh Hfn Hf. unfold cls_action_rollback.
  rewrite (find_record_first _ id 0%nat i r Hfirst), Hrb, Hh, Hfn.
  unfold mbind, M_bind, mret, M_ret. rewrite Hf.
  destruct (CLS_IS_OK result); reflexivity.
Qed.

(** Either the executor is returned as it was, or one record was marked. *)
Lemma rollback_cases exec id (w : W) :
  ((cls_action_rollback exec id w).1.1 <> CLS_OK
   /\ (cls_action_rollback exec id w).1.2 = exec)
  \/ exists i r,
       first_record (visible_history exec) id i r
       /\ rolled_back r = false
       /\ (cls_action_rollback exec id w).1
          = (CLS_OK,
             {| handlers := handlers exec;
                max_handlers := max_handlers exec;
                history := <[i := mark_rolled_back r]> (history exec);
                history_count := history_count exec;
                max_history := max_history exec;
                next_exec_id := next_exec_id exec;
                total_executed := total_executed exec;
                total_success := total_success exec;
                total_failed := total_failed exec;
                total_rollbacks := u64 (total_rollbacks exec + 1) |}).
Proof.
  destruct (find_record (visible_history exec) id 0%nat) as [[k r]|] eqn:Ef.
  2:{ left. unfold cls_action_rollback. rewrite Ef.
      split; [discriminate | reflexivity]. }
  destruct (find_record_some _ _ _ _ _ Ef) as (i & -> & Hfirst).
  destruct (rolled_back r) eqn:Hrb.
  { left. rewrite (rollback_already_done exec id w i r Hfirst Hrb).
    split; [discriminate | reflexivity]. }
  destruct (find_handler exec (rec_action_id r)) as [h|] eqn:Hh.
  2:{ left. unfold cls_action_rollback. rewrite Ef, Hrb, Hh.
      split; [discriminate | reflexivity]. }
  destruct (rollback_fn h) as [f|] eqn:Hfn.
  2:{ left. rewrite (rollback_no_rollback_fn exec id w i r h Hfirst Hrb Hh Hfn).
      split; [discriminate | reflexivity]. }
  destruct (f (rec_action_id r) 0 0 w) as [result w'] eqn:Hf.
  rewrite (rollback_found exec id w i r h f result w' Hfirst Hrb Hh Hfn Hf).
  destruct result; cbn [CLS_IS_OK fst snd];
    try (left; split; [discriminate | reflexivity]).
  right. exists i, r. split; [exact Hfirst|]. split; [exact Hrb | reflexivity].
Qed.

(** X27.  When the record with the id is found, is not rolled back yet and
    its handler has a [rollback_fn], [cls_action_rollback] calls that
    function on the record's action id and returns its result.  If the result
    is not [CLS_OK] the executor is unchanged.  If it is, the record, and only
    the record, is marked: [rolled_back] is set and the status becomes
    RolledBack, whatever it was (a Failed execution is rolled back like a
    successful one), the other fields of the record are kept, and
    [total_rollbacks] grows by one while [total_executed], [total_success]
    and [total_failed] stay as they were. *)
Theorem rollback_runs_rollback_fn exec id (w : W) i r h f result w' :
  first_record (visible_history exec) id i r ->
  rolled_back r = false ->
  find_handler exec (rec_action_id r) = Some h ->
  rollback_fn h = Some f ->
  f (rec_action_id r) 0 0 w = (result, w') ->
  exists exec',
    cls_action_rollback exec id w = ((result, exec'), w')
    /\ (result <> CLS_OK -> exec' = exec)
    /\ (result = CLS_OK ->
        exists r',
          history exec' !! i = Some r'
          /\ (forall j, j <> i -> history exec' !! j = history exec !! j)
          /\ rolled_back r' = true
          /\ rec_status r' = CLS_ACTION_ROLLEDBACK
          /\ exec_id r' = exec_id r
          /\ rec_action_id r' = rec_action_id r
          /\ rec_started_at r' = rec_started_at r
          /\ rec_completed_at r' = rec_completed_at r
          /\ duration_us r' = duration_us r
          /\ result_code r' = result_code r
          /\ cls_action_stats exec'
             = (total_executed exec, total_success exec, total_failed exec,
                u64 (total_rollbacks exec + 1))
          /\ handlers exec' = handlers exec
          /\ history_count exec' = history_count exec
          /\ max_history exec' = max_history exec
          /\ next_exec_id exec' = next_exec_id exec).
Proof.
  intros Hfirst Hrb Hh Hfn Hf.
  rewrite (rollback_found exec id w i r h f result w' Hfirst Hrb Hh Hfn Hf).
  eexists. split; [reflexivity|]. split.
  - intros Hne. destruct result; try reflexivity. contradiction.
  - intros ->. cbn [CLS_IS_OK]. exists (mark_rolled_back r).
    cbn [history]. split.
    { apply list_lookup_insert_eq.
      destruct Hfirst as (Hi & _). apply lookup_lt_Some in Hi.
      unfold visible_history in Hi. rewrite length_take in Hi. lia. }
    split; [intros j Hj; apply list_lookup_insert_ne; congruence|].
    repeat split.
Qed.

Lemma map_exec_id_insert (rs : list cls_action_record_t) : forall i r r',
  rs !! i = Some r -> exec_id r' = exec_id r ->
  map exec_id (<[i := r']> rs) = map exec_id rs.
Proof.
  induction rs as [|r0 rs IH]; intros i r r' Hi He; [reflexivity|].
  destruct i as [|i].
  - cbn in Hi. injection Hi as ->. cbn. rewrite He. reflexivity.
  - cbn in Hi. change (<[S i := r']> (r0 :: rs)) with (r0 :: <[i := r']> rs).
    cbn [map]. rewrite (IH i r r' Hi He). reflexivity.
Qed.

Lemma in_insert_inv {A} (l : list A) : forall i x y,
  In y (<[i := x]> l) -> y = x \/ In y l.
Proof.
  induction l as [|a l IH]; intros i x y Hin; [destruct Hin|].
  destruct i as [|i].
  - destruct Hin as [<-|Hin]; [left; reflexivity | right; right; exact Hin].
  - change (<[S i := x]> (a :: l)) with (a :: <[i := x]> l) in Hin.
    destruct Hin as [<-|Hin]; [right; left; reflexivity|].
    destruct (IH i x y Hin); [left | right; right]; assumption.
Qed.

(** The slots the search loops see after a record was marked. *)
Lemma visible_after_mark exec i r r' :
  first_record (visible_history exec) (exec_id r) i r ->
  take (Z.to_nat (Z.min (history_count exec) (max_history exec)))
       (<[i := r']> (history exec))
  = <[i := r']> (visible_history exec).
Proof.
  intros (Hi & _). apply lookup_lt_Some in Hi.
  unfold visible_history in Hi |- *. rewrite length_take in Hi.
  apply take_insert_lt. lia.
Qed.

(** X28.  [cls_action_rollback] keeps the executor well formed, whatever it
    returns: the history array keeps its slots, [history_count] and
    [next_exec_id] are unchanged, the ids in the history are unchanged (so
    they stay distinct and below [next_exec_id]), [total_executed] stays the
    sum of [total_success] and [total_failed], and the registry is not
    touched. *)
Theorem rollback_keeps_executor_consistent exec id (w : W) :
  let exec' := (cls_action_rollback exec id w).1.2 in
  handlers exec' = handlers exec
  /\ history_count exec' = history_count exec
  /\ next_exec_id exec' = next_exec_id exec
  /\ map exec_id (history exec') = map exec_id (history exec)
  /\ (history_bounded exec -> history_bounded exec')
  /\ (stats_consistent exec -> stats_consistent exec')
  /\ (ids_issued exec -> ids_issued exec').
Proof.
  intros exec'. subst exec'.
  destruct (rollback_cases exec id w) as [[_ ->]|(i & r & Hfirst & Hrb & ->)].
  { do 4 (split; [reflexivity|]). split; [|split]; intros H; exact H. }
  cbn [fst snd handlers history history_count next_exec_id].
  assert (Hid : exec_id r = id) by (destruct Hfirst as (_ & H & _); exact H).
  subst id.
  assert (Hslot : history exec !! i = Some r).
  { destruct Hfirst as (Hi & _). unfold visible_history in Hi.
    rewrite lookup_take_Some in Hi. apply Hi. }
  split; [reflexivity|]. split; [reflexivity|]. split; [reflexivity|].
  split; [apply (map_exec_id_insert _ i r); [exact Hslot | reflexivity]|].
  split; [|split].
  - intros ([Hpos Hlen] & Hcount & Hmax).
    unfold history_bounded, history_array.
    cbn [history history_count max_history]. rewrite length_insert.
    repeat split; try assumption; lia.
  - intros Hs. exact Hs.
  - intros [Hnd Hlt]. unfold ids_issued, visible_history.
    cbn [history history_count max_history next_exec_id].
    rewrite (visible_after_mark exec i r _ Hfirst).
    destruct Hfirst as (Hi & _).
    split.
    + rewrite (map_exec_id_insert _ i r _ Hi); [exact Hnd | reflexivity].
    + intros r' Hin. apply in_insert_inv in Hin as [->|Hin].
      * apply (Hlt r). apply list_elem_of_In.
        apply (list_elem_of_lookup_2 _ i). exact Hi.
      * apply Hlt, Hin.
Qed.

Lemma find_record_insert_other (rs : list cls_action_record_t) :
  forall i r r' id' k,
    rs !! i = Some r -> exec_id r' = exec_id r -> exec_id r <> id' ->
    find_record (<[i := r']> rs) id' k = find_record rs id' k.
Proof.
  induction rs as [|r0 rs IH]; intros i r r' id' k Hi He Hne; [reflexivity|].
  destruct i as [|i].
  - cbn in Hi. injection Hi as ->. cbn [find_record].
    change (<[0%nat := r']> (r :: rs)) with (r' :: rs). cbn [find_record].
    rewrite He.
    destruct (Z.eqb_spec (exec_id r) id'); [contradiction | reflexivity].
  - cbn in Hi. change (<[S i := r']> (r0 :: rs)) with (r0 :: <[i := r']> rs).
    cbn [find_record]. rewrite (IH i r r' id' (S k) Hi He Hne). reflexivity.
Qed.

(** X29.  After a rollback that returned [CLS_OK], [cls_action_get_record]
    with the id returns the record of before with [rolled_back] set and
    status RolledBack, and with every other id it returns what it returned
    before the rollback. *)
Theorem rollback_then_get_record exec id (w : W) exec' w' :
  cls_action_rollback exec id w = ((CLS_OK, exec'), w') ->
  (exists r r',
     cls_action_get_record exec id = (CLS_OK, Some r)
     /\ rolled_back r = false
     /\ cls_action_get_record exec' id = (CLS_OK, Some r')
     /\ rolled_back r' = true
     /\ rec_status r' = CLS_ACTION_ROLLEDBACK
     /\ exec_id r' = id
     /\ rec_action_id r' = rec_action_id r
     /\ rec_started_at r' = rec_started_at r
     /\ rec_completed_at r' = rec_completed_at r
     /\ result_code r' = result_code r)
  /\ (forall id', id' <> id ->
        cls_action_get_record exec' id' = cls_action_get_record exec id').
Proof.
  intros Hrun.
  destruct (rollback_cases exec id w) as [[Hne _]|(i & r & Hfirst & Hrb & Hok)].
  { exfalso. apply Hne. rewrite Hrun. reflexivity. }
  rewrite Hrun in Hok. cbn [fst] in Hok. injection Hok as Hexec.
  assert (Hid : exec_id r = id) by (destruct Hfirst as (_ & H & _); exact H).
  subst id.
  assert (Hvis : visible_history exec'
                 = <[i := mark_rolled_back r]> (visible_history exec)).
  { rewrite Hexec. unfold visible_history at 1.
    cbn [history history_count max_history].
    apply (visible_after_mark exec i r), Hfirst. }
  split.
  - exists r, (mark_rolled_back r).
    unfold cls_action_get_record. rewrite Hvis.
    rewrite (find_record_first _ (exec_id r) 0%nat i r Hfirst).
    rewrite (find_record_first _ (exec_id r) 0%nat i (mark_rolled_back r)
               (first_record_insert _ _ i r (mark_rolled_back r)
                  eq_refl Hfirst)).
    repeat split. exact Hrb.
  - intros id' Hne. unfold cls_action_get_record. rewrite Hvis.
    destruct Hfirst as (Hi & _).
    rewrite (find_record_insert_other _ i r (mark_rolled_back r) id' 0%nat
               Hi eq_refl);
      [reflexivity | congruence].
Qed.

(** *** Executing the task the scheduler returned *)

Lemma execute_task_inv exec task (w : W) status exec' task' record w' :
  cls_action_execute_task time_us exec task w
  = ((status, exec', task', record), w') ->
  exists started w1 completed w2,
    time_us w = (started, w1)
    /\ cls_action_execute time_us exec (task_action_id task)
         (task_params task) (task_params_len task) w1
       = ((status, exec', record), w2)
    /\ time_us w2 = (completed, w')
    /\ task' = execute_task_end completed status
                 (execute_task_begin started task).
Proof.
  unfold cls_action_execute_task, mbind, M_bind, mret, M_ret.
  destruct (time_us w) as [started w1] eqn:E1.
  change (task_action_id (execute_task_begin started task))
    with (task_action_id task).
  change (task_params (execute_task_begin started task))
    with (task_params task).
  change (task_params_len (execute_task_begin started task))
    with (task_params_len task).
  destruct (cls_action_execute time_us exec (task_action_id task)
              (task_params task) (task_params_len task) w1)
    as [[[status0 exec0] record0] w2] eqn:E2.
  destruct (time_us w2) as [completed w3] eqn:E3.
  intros [= <- <- <- <- <-]. exists started, w1, completed, w2.
  split; [reflexivity|]. split; [exact E2|]. split; [exact E3 | reflexivity].
Qed.

Lemma execute_record_status exec action_id params params_len (w : W)
      status exec' rec w' :
  cls_action_execute time_us exec action_id params params_len w
  = ((status, exec', Some rec), w') ->
  rec_action_id rec = action_id
  /\ rec_status rec = (if CLS_IS_OK status then CLS_ACTION_SUCCESS
                       else CLS_ACTION_FAILED)
  /\ total_executed exec' = u64 (total_executed exec + 1).
Proof.
  destruct (find_handler exec action_id) as [h|] eqn:Hh.
  2:{ rewrite (execute_not_found time_us exec _ _ _ w Hh). discriminate. }
  destruct (time_us w) as [started w1] eqn:E1.
  destruct (execute_fn h action_id params params_len w1) as [result w2] eqn:E2.
  destruct (time_us w2) as [completed w3] eqn:E3.
  rewrite (execute_found time_us exec action_id params params_len w h
             _ _ _ _ _ _ Hh E1 E2 E3).
  intros [= <- <- <- <-]. repeat split.
Qed.

Lemma filter_length_insert {A} (P : A -> bool) l : forall i x y,
  l !! i = Some x -> P x = true -> P y = false ->
  (length (List.filter P (<[i := y]> l)) + 1 = length (List.filter P l))%nat.
Proof.
  induction l as [|a l IH]; intros i x y Hi Hp Hf; [discriminate|].
  destruct i as [|i].
  - cbn in Hi. injection Hi as ->.
    change (<[0%nat := y]> (x :: l)) with (y :: l). cbn [List.filter].
    rewrite Hp, Hf. cbn [length]. lia.
  - cbn in Hi. change (<[S i := y]> (a :: l)) with (a :: <[i := y]> l).
    cbn [List.filter]. specialize (IH i x y Hi Hp Hf).
    destruct (P a); cbn [length]; lia.
Qed.

(** X30.  The loop of examples/main.c: the task [cls_plan_next_task] returned
    is handed to [cls_action_execute_task] by pointer.  The call makes that
    task, which was Pending, Complete when it returns [CLS_OK] and Failed
    otherwise, so the plan has one Pending task less and the scheduler does
    not return the task again; no other task changes.  When no handler is
    registered for the task's action the call returns [CLS_ERR_NOT_FOUND] and
    leaves the executor as it was; otherwise the execution is recorded, as a
    success exactly when the task is Complete.  The status of the plan is not
    recomputed, whatever the tasks are now: that is left to
    [cls_plan_complete_task]. *)
Theorem executing_next_task_retires_it exec plan i t (w : W) :
  cls_plan_next_task plan = (CLS_OK, Some i) ->
  plan_tasks plan !! i = Some t ->
  exists status exec' plan' record w' t',
    execute_task_at time_us exec plan i w
    = ((status, exec', plan', record), w')
    /\ task_status t = CLS_PLAN_PENDING
    /\ plan_tasks plan' !! i = Some t'
    /\ task_status t' = (if CLS_IS_OK status then CLS_PLAN_COMPLETE
                         else CLS_PLAN_FAILED)
    /\ task_id t' = task_id t
    /\ task_action_id t' = task_action_id t
    /\ (forall j, j <> i -> plan_tasks plan' !! j = plan_tasks plan !! j)
    /\ (pending_count plan' + 1 = pending_count plan)%nat
    /\ cls_plan_next_task plan' <> (CLS_OK, Some i)
    /\ plan_status plan' = plan_status plan
    /\ (find_handler exec (task_action_id t) = None ->
        status = CLS_ERR_NOT_FOUND /\ exec' = exec /\ record = None)
    /\ (find_handler exec (task_action_id t) <> None ->
        exists rec,
          record = Some rec
          /\ rec_action_id rec = task_action_id t
          /\ (rec_status rec = CLS_ACTION_SUCCESS
              <-> task_status t' = CLS_PLAN_COMPLETE)
          /\ total_executed exec' = u64 (total_executed exec + 1)).
Proof.
  intros Hnext Hi.
  pose proof (next_task_returns_pending plan i t Hnext Hi) as Hpend.
  unfold execute_task_at. rewrite Hi. unfold mbind, M_bind, mret, M_ret.
  destruct (cls_action_execute_task time_us exec t w)
    as [[[[status exec'] t'] record] w'] eqn:Erun.
  destruct (execute_task_inv exec t w status exec' t' record w' Erun)
    as (started & w1 & completed & w2 & _ & Hexec & _ & Ht').
  assert (Hst : task_status t' = (if CLS_IS_OK status then CLS_PLAN_COMPLETE
                                  else CLS_PLAN_FAILED))
    by (rewrite Ht'; reflexivity).
  assert (Hslot : <[i := t']> (plan_tasks plan) !! i = Some t')
    by (apply list_lookup_insert_eq, (lookup_lt_Some _ _ _ Hi)).
  assert (Hnotpending : pendingb t' = false)
    by (unfold pendingb; rewrite Hst; destruct (CLS_IS_OK status); reflexivity).
  eexists status, exec', _, record, w', t'. split; [reflexivity|].
  cbn [set_plan_tasks plan_tasks plan_status].
  split; [exact Hpend|]. split; [exact Hslot|]. split; [exact Hst|].
  split; [rewrite Ht'; reflexivity|]. split; [rewrite Ht'; reflexivity|].
  split; [intros j Hj; apply list_lookup_insert_ne; congruence|].
  split.
  { unfold pending_count. cbn [plan_tasks].
    apply (filter_length_insert pendingb _ i t t' Hi); [|exact Hnotpending].
    unfold pendingb. rewrite Hpend. reflexivity. }
  split.
  { intros Hagain.
    pose proof (next_task_returns_pending _ i t' Hagain Hslot) as Hp.
    unfold pendingb in Hnotpending. rewrite Hp in Hnotpending. discriminate. }
  split; [reflexivity|]. split.
  - intros Hnone. rewrite (execute_not_found time_us exec _ _ _ w1 Hnone) in Hexec.
    injection Hexec as <- <- <- _. repeat split.
  - intros Hsome. destruct record as [rec|].
    + destruct (execute_record_status _ _ _ _ _ _ _ _ _ Hexec)
        as (Hact & Hrs & Hte).
      exists rec. split; [reflexivity|]. split; [exact Hact|].
      split; [|exact Hte]. rewrite Hrs, Hst.
      destruct (CLS_IS_OK status); split; intros; try reflexivity; discriminate.
    + exfalso. destruct (find_handler exec (task_action_id t)) as [h|] eqn:Hh;
        [|contradiction].
      destruct (time_us w1) as [s1 wa] eqn:E1.
      destruct (execute_fn h (task_action_id t) (task_params t)
                  (task_params_len t) wa) as [res wb] eqn:E2.
      destruct (time_us wb) as [c1 wc] eqn:E3.
      rewrite (execute_found time_us exec _ _ _ w1 h _ _ _ _ _ _ Hh E1 E2 E3)
        in Hexec.
      discriminate.
Qed.
End ExecutorInvariants.


Lemma execute_keeps_executor_consistent_example :
  let exec := (execute_n 2 (demo_exec 2) 0).1 in
  let exec' := (cls_action_execute tick exec 1 0 0 4).1.1.2 in
  history_bounded exec'
  /\ stats_consistent exec'
  /\ ids_issued exec'
  /\ map exec_id (visible_history exec') = [3; 2].
Proof.
  intros exec exec'.
  assert (Hb : history_bounded exec).
  { split; [split; vm_compute; reflexivity|].
    split; [split; vm_compute; discriminate | vm_compute; reflexivity]. }
  destruct (execute_keeps_executor_consistent tick exec 1 0 0 4 Hb)
    as (Hb' & _ & Hs & Hi).
  split; [exact Hb'|]. split; [apply Hs; vm_compute; reflexivity|].
  split; [|vm_compute; reflexivity].
  apply Hi.
  - split; [refine (bool_decide_unpack _ _); vm_compute; exact I|].
    intros r Hr. vm_compute in Hr.
    destruct Hr as [<-|[<-|[]]]; vm_compute; reflexivity.
  - split; vm_compute; [discriminate | reflexivity].
Defined.

Lemma execute_then_get_record_example :
  cls_action_get_record
    (cls_action_execute tick (execute_n 2 (demo_exec 2) 0).1 1 0 0 4).1.1.2 3
  = (CLS_OK, Some (mk_record 3 1 CLS_ACTION_SUCCESS 4 5 1 0 false)).
Proof.
  apply (proj2 (execute_then_get_record tick (execute_n 2 (demo_exec 2) 0).1
                  1 0 0 4 CLS_OK _
                  (mk_record 3 1 CLS_ACTION_SUCCESS 4 5 1 0 false) 6
                  ltac:(split; [split; vm_compute; reflexivity|];
                        split; [split; vm_compute; discriminate
                               | vm_compute; reflexivity])
                  ltac:(split; [refine (bool_decide_unpack _ _); vm_compute; exact I|];
                        intros r Hr; vm_compute in Hr;
                        destruct Hr as [<-|[<-|[]]]; vm_compute; reflexivity)
                  ltac:(vm_compute; reflexivity))).
Defined.

Lemma rollback_runs_rollback_fn_example :
  exists exec' r',
    cls_action_rollback (execute_n 1 (demo_exec 2) 0).1 1 2
    = ((CLS_OK, exec'), 2)
    /\ history exec' !! 0%nat = Some r'
    /\ rolled_back r' = true
    /\ rec_status r' = CLS_ACTION_ROLLEDBACK
    /\ cls_action_stats exec' = (1, 1, 0, 1).
Proof.
  destruct (rollback_runs_rollback_fn (execute_n 1 (demo_exec 2) 0).1 1 2
              0%nat (mk_record 1 1 CLS_ACTION_SUCCESS 0 1 1 0 false)
              handler_ok always_ok CLS_OK 2)
    as (exec' & Hrun & _ & Hok).
  - split; [reflexivity|]. split; [reflexivity|]. intros j rj Hj. lia.
  - reflexivity.
  - reflexivity.
  - reflexivity.
  - reflexivity.
  - destruct (Hok eq_refl)
      as (r' & Hslot & _ & Hrb & Hst & _ & _ & _ & _ & _ & _ & Hstats & _).
    exists exec', r'. split; [exact Hrun|]. split; [exact Hslot|].
    split; [exact Hrb|]. split; [exact Hst|]. rewrite Hstats.
    vm_compute. reflexivity.
Defined.

Lemma rollback_keeps_executor_consistent_example :
  let exec := (execute_n 3 (demo_exec 2) 0).1 in
  let exec' := (cls_action_rollback exec 3 6).1.2 in
  history_bounded exec'
  /\ stats_consistent exec'
  /\ map exec_id (history exec') = [3; 2].
Proof.
  intros exec exec'.
  destruct (rollback_keeps_executor_consistent exec 3 6)
    as (_ & _ & _ & Hids & Hb & Hs & _).
  split; [apply Hb|split; [apply Hs|]].
  - split; [split; vm_compute; reflexivity|].
    split; [split; vm_compute; discriminate | vm_compute; reflexivity].
  - vm_compute. reflexivity.
  - fold exec' in Hids. rewrite Hids. vm_compute. reflexivity.
Defined.

Lemma rollback_then_get_record_example :
  exists r',
    cls_action_get_record
      (cls_action_rollback (execute_n 1 (demo_exec 2) 0).1 1 2).1.2 1
    = (CLS_OK, Some r')
    /\ rolled_back r' = true
    /\ rec_status r' = CLS_ACTION_ROLLEDBACK.
Proof.
  destruct (rollback_then_get_record (execute_n 1 (demo_exec 2) 0).1 1 2
              (cls_action_rollback (execute_n 1 (demo_exec 2) 0).1 1 2).1.2
              2 eq_refl)
    as [(r & r' & _ & _ & Hget & Hrb & Hst & _) _].
  exists r'. split; [exact Hget|]. split; [exact Hrb | exact Hst].
Defined.

Lemma executing_next_task_retires_it_example :
  let exec := (cls_action_register (demo_exec 2)
                 (mk_handler 10 always_ok None 0 CLS_PRIORITY_LOW)).2 in
  exists exec' plan' rec t',
    execute_task_at tick exec scheduler_plan 2%nat 0
    = ((CLS_OK, exec', plan', Some rec), 4)
    /\ plan_tasks plan' !! 2%nat = Some t'
    /\ task_status t' = CLS_PLAN_COMPLETE
    /\ rec_status rec = CLS_ACTION_SUCCESS
    /\ (pending_count plan' + 1 = pending_count scheduler_plan)%nat
    /\ plan_status plan' = plan_status scheduler_plan.
Proof.
  intros exec.
  destruct (executing_next_task_retires_it tick exec scheduler_plan 2%nat
              (dep_task 3 CLS_PRIORITY_HIGH CLS_PLAN_PENDING [5]) 0
              eq_refl eq_refl)
    as (status & exec' & plan' & record & w' & t' & Hrun & _ & Hslot & Hst
        & _ & _ & _ & Hcount & _ & Hplan & _ & Hrec).
  destruct Hrec as (rec & -> & _ & Hrs & _); [discriminate|].
  assert (Hvals : status = CLS_OK /\ w' = 4).
  { vm_compute in Hrun. injection Hrun as <- _ _ _ <-. split; reflexivity. }
  destruct Hvals as [-> ->]. cbn [CLS_IS_OK] in Hst.
  exists exec', plan', rec, t'. split; [exact Hrun|]. split; [exact Hslot|].
  split; [exact Hst|]. split; [apply Hrs, Hst|]. split; [exact Hcount|].
  exact Hplan.
Defined.
